(** * netscape: the per-seed model container and the ensemble driver

    A shallow embedding of [data_models.py] (class [DataModel]) and of the
    driver script [1.compress_given_z.py].

    Conventions of the embedding.
    - A NumPy [float64] is idealised as a real number ([R]); [np.log],
      [np.exp] and [np.sqrt] are [ln], [exp] and [sqrt]. Rounding is not
      modelled, and the real numbers have no [nan]: a [nan] that decides
      how a call ends is modelled where it arises ([zscore] of a column
      without spread), and statements about the score are made for
      clipping values that keep the quotient and the logarithm of the
      logit inside their domains.
    - A two-dimensional array is a list of rows; a pandas [DataFrame] is a
      record of row labels, column labels and values.
    - A Python call that can raise returns a [result]; the exception classes
      are the constructors of [exception].
    - External engines (scikit-learn's decompositions and ridge solver,
      NumPy's generator, the [Rscript] subprocess) are interfaces (type
      classes) whose laws are the documented contracts of those libraries. *)

From Stdlib Require Import String Ascii DecimalString.
From Stdlib Require Import Reals Lra Lia ZArith Bool Arith List Permutation.
Import ListNotations.

Set Implicit Arguments.

(* ===================================================================== *)
(** ** Exceptions and fallible computations *)
(* ===================================================================== *)

Inductive exception : Type :=
| ValueError
| AssertionError
| AttributeError
| KeyError
| TypeError
| IndexError
| FileNotFoundError
| CalledProcessError.

Inductive result (A : Type) : Type :=
| Ok (a : A)
| Raise (e : exception).

Arguments Ok {A} a.
Arguments Raise {A} e.

Definition bind {A B : Type} (c : result A) (k : A -> result B) : result B :=
  match c with
  | Ok a => k a
  | Raise e => Raise e
  end.

Declare Scope py_scope.
Delimit Scope py_scope with py.
Notation "x <- c ;; k" := (bind c (fun x => k))
  (at level 61, c at next level, right associativity) : py_scope.
Notation "' pat <- c ;; k" := (bind c (fun x => match x with pat => k end))
  (at level 61, pat pattern, c at next level, right associativity) : py_scope.
Notation "c ;;; k" := (bind c (fun _ => k))
  (at level 61, right associativity) : py_scope.

(* ===================================================================== *)
(** ** Arrays *)
(* ===================================================================== *)

Local Open Scope R_scope.

Definition matrix : Type := list (list R).

Definition Rltb (a b : R) : bool := if Rlt_dec a b then true else false.
Definition Rgtb (a b : R) : bool := Rltb b a.

Definition Rsum (l : list R) : R := fold_right Rplus 0 l.

(** [np.mean] of a one-dimensional array. *)
Definition np_mean (l : list R) : R := Rsum l / INR (length l).

(** The lengths of the rows: the shape of a two-dimensional array. *)
Definition row_lengths (x : matrix) : list nat := map (@length R) x.

Fixpoint zip_with {A B C : Type} (f : A -> B -> C) (l : list A) (l' : list B)
  : list C :=
  match l, l' with
  | a :: t, b :: t' => f a b :: zip_with f t t'
  | _, _ => []
  end.

(** [x[mask] = c] for a boolean mask computed element-wise from [x]. *)
Definition mask_assign (mask : R -> bool) (c : R) (x : matrix) : matrix :=
  map (map (fun v => if mask v then c else v)) x.

Definition same_shape (x z : matrix) : bool :=
  if list_eq_dec Nat.eq_dec (row_lengths x) (row_lengths z) then true else false.

(* ===================================================================== *)
(** ** Reconstruction score: [DataModel._approx_keras_binary_cross_entropy] *)
(* ===================================================================== *)

(** The element-wise arithmetic of the source raises when the shapes of
    [x] and [z] differ (NumPy broadcasting between unequal shapes with an
    axis of size one is outside this embedding, which raises there too).
    <<
        x[x < epsilon] = epsilon
        x[x > (1 - epsilon)] = (1 - epsilon)
        x = np.log(x / (1 - x))
        return np.mean(p * np.mean(- x * z + np.log(1 + np.exp(x)), axis=-1))
    >> *)
Definition _approx_keras_binary_cross_entropy
    (x z : matrix) (p : R) (epsilon : R) : result R :=
  let x := mask_assign (fun v => Rltb v epsilon) epsilon x in
  let x := mask_assign (fun v => Rgtb v (1 - epsilon)) (1 - epsilon) x in
  let x := map (map (fun v => ln (v / (1 - v)))) x in
  if same_shape x z then
    let terms :=
      zip_with (zip_with (fun xv zv => - xv * zv + ln (1 + exp xv))) x z in
    Ok (np_mean (map (fun row => p * np_mean row) terms))
  else Raise ValueError.

Definition default_epsilon : R := / 10000000.

(** The score as the specification words it: clip into
    [[epsilon, 1 - epsilon]], logit, then the mean over samples of
    [p] times the mean over features. *)
Definition clip (lo hi v : R) : R := Rmin (Rmax v lo) hi.
Definition logit (v : R) : R := ln (v / (1 - v)).

Definition sample_term (p epsilon : R) (xrow zrow : list R) : R :=
  p * np_mean
        (zip_with
           (fun xv zv =>
              let l := logit (clip epsilon (1 - epsilon) xv) in
              - l * zv + ln (1 + exp l))
           xrow zrow).

Definition spec_score (x z : matrix) (p epsilon : R) : R :=
  np_mean (zip_with (sample_term p epsilon) x z).


(* ===================================================================== *)
(** ** Strings, paths and [str.format] *)
(* ===================================================================== *)

(** ['{}'.format(n)] for an integer. *)
Definition str_of_nat (n : nat) : string := NilZero.string_of_uint (Nat.to_uint n).
Definition str_of_Z (z : Z) : string := NilZero.string_of_int (Z.to_int z).

Definition last_char (s : string) : option ascii :=
  match rev (list_ascii_of_string s) with
  | c :: _ => Some c
  | [] => None
  end.

Definition starts_with_slash (s : string) : bool :=
  match s with
  | String c _ => Ascii.eqb c "/"%char
  | EmptyString => false
  end.

(** [os.path.join] on two components (POSIX). *)
Definition path_join (a b : string) : string :=
  if starts_with_slash b then b
  else match last_char a with
       | None => b
       | Some c => if Ascii.eqb c "/"%char then (a ++ b)%string
                   else (a ++ "/" ++ b)%string
       end.

Definition mem_string (s : string) (l : list string) : bool :=
  existsb (String.eqb s) l.

(* ===================================================================== *)
(** ** pandas: [DataFrame] *)
(* ===================================================================== *)

Record DataFrame : Type := mkDataFrame {
  index : list string;      (* row labels: sample ids *)
  columns : list string;    (* column labels: gene ids *)
  values : matrix
}.

(** [df.shape] *)
Definition shape (d : DataFrame) : nat * nat :=
  (length (index d), length (columns d)).

(** Shape of a freshly computed array: [n] rows of [m] entries. *)
Definition has_shape (n m : nat) (x : matrix) : bool :=
  (length x =? n)%nat && forallb (fun r => (length r =? m)%nat) x.

(** [pd.DataFrame(data, index=..., columns=...)]: pandas raises
    [ValueError] when the passed values do not have the shape the labels
    imply. *)
Definition pd_DataFrame (data : matrix) (idx cols : list string)
  : result DataFrame :=
  if has_shape (length idx) (length cols) data
  then Ok (mkDataFrame idx cols data)
  else Raise ValueError.

(** Column [j] of an array, and the transpose of an array of [m] columns. *)
Definition column (j : nat) (x : matrix) : list R := map (fun r => nth j r 0) x.
Definition transpose (m : nat) (x : matrix) : matrix :=
  map (fun j => column j x) (seq 0 m).

(** [df.T] *)
Definition T (d : DataFrame) : DataFrame :=
  mkDataFrame (columns d) (index d) (transpose (length (columns d)) (values d)).

(** Position of the first column carrying a label. *)
Fixpoint position (s : string) (l : list string) : option nat :=
  match l with
  | [] => None
  | h :: t => if String.eqb s h then Some 0%nat
              else option_map S (position s t)
  end.

Fixpoint positions (wanted : list string) (l : list string)
  : result (list nat) :=
  match wanted with
  | [] => Ok []
  | w :: ws =>
      match position w l with
      | None => Raise KeyError
      | Some j => bind (positions ws l) (fun js => Ok (j :: js))
      end
  end.

(** [df[labels]]: the columns named by [labels], in that order; [KeyError]
    when a label is not a column (column labels are taken to be distinct). *)
Definition getitem (d : DataFrame) (labels : list string) : result DataFrame :=
  bind (positions labels (columns d)) (fun js =>
  Ok (mkDataFrame (index d) labels
        (map (fun r => map (fun j => nth j r 0) js) (values d)))).

(** [df.iloc[:, cols]] *)
Definition iloc_columns (d : DataFrame) (cols : list nat) : result DataFrame :=
  if forallb (fun j => (j <? length (columns d))%nat) cols
  then Ok (mkDataFrame (index d) (map (fun j => nth j (columns d) EmptyString) cols)
             (map (fun r => map (fun j => nth j r 0) cols) (values d)))
  else Raise IndexError.

(** [df.apply(f)] with the default [axis=0]: [f] on every column. *)
Definition apply_columns (f : list R -> list R) (d : DataFrame) : DataFrame :=
  let m := length (columns d) in
  mkDataFrame (index d) (columns d)
    (transpose (length (index d)) (map f (transpose m (values d)))).

(* ===================================================================== *)
(** ** Per-feature statistics and the scalers of [sklearn.preprocessing] *)
(* ===================================================================== *)

Definition np_var (l : list R) : R :=
  let mu := np_mean l in np_mean (map (fun v => (v - mu) * (v - mu)) l).

Definition np_std (l : list R) : R := sqrt (np_var l).

Definition np_min (l : list R) : R := fold_right Rmin (hd 0 l) l.
Definition np_max (l : list R) : R := fold_right Rmax (hd 0 l) l.

(** [scipy.stats.zscore] of a one-dimensional array ([ddof=0]). *)
Definition zscore (l : list R) : list R :=
  let mu := np_mean l in
  let sd := np_std l in
  map (fun v => (v - mu) / sd) l.

(** The division is by the standard deviation: on an array that has an
    entry and no spread every quotient is [0 / 0], that is [nan]. *)
Definition zscore_is_nan (l : list R) : bool :=
  match l with
  | [] => false
  | _ :: _ => if Req_dec_T (np_std l) 0 then true else false
  end.

(** scikit-learn replaces a zero scale by one. *)
Definition handle_zeros_in_scale (s : R) : R :=
  if Req_dec_T s 0 then 1 else s.

(** A fitted scaler: the per-feature parameters learnt by [fit]. *)
Inductive Scaler : Type :=
| StandardScaler (mean_ scale_ : list R)
| MinMaxScaler (min_ scale_ : list R).

(** Input validation shared by the estimators: at least one sample and one
    feature. *)
Definition check_array (d : DataFrame) : result unit :=
  match index d, columns d with
  | _ :: _, _ :: _ => Ok tt
  | _, _ => Raise ValueError
  end.

(** [StandardScaler().fit(X)]: [mean_] and [scale_ = sqrt(var_)]. *)
Definition StandardScaler_fit (X : DataFrame) : result Scaler :=
  bind (check_array X) (fun _ =>
  let cols := transpose (length (columns X)) (values X) in
  Ok (StandardScaler (map np_mean cols)
                     (map (fun c => handle_zeros_in_scale (np_std c)) cols))).

(** [MinMaxScaler().fit(X)] for the default range (0, 1):
    [scale_ = 1 / (max - min)] and [min_ = 0 - data_min * scale_]. *)
Definition MinMaxScaler_fit (X : DataFrame) : result Scaler :=
  bind (check_array X) (fun _ =>
  let cols := transpose (length (columns X)) (values X) in
  let scale_of c := 1 / handle_zeros_in_scale (np_max c - np_min c) in
  Ok (MinMaxScaler (map (fun c => 0 - np_min c * scale_of c) cols)
                   (map scale_of cols))).

Definition n_features_in_ (s : Scaler) : nat :=
  match s with
  | StandardScaler mean_ _ => length mean_
  | MinMaxScaler min_ _ => length min_
  end.

(** [scaler.transform(X)]: [(X - mean_) / scale_] for the standard scaler,
    [X * scale_ + min_] for the min-max scaler; raises when [X] has another
    number of features than the scaler was fitted on. *)
Definition Scaler_transform (s : Scaler) (X : DataFrame) : result matrix :=
  if (length (columns X) =? n_features_in_ s)%nat then
    match s with
    | StandardScaler mean_ scale_ =>
        Ok (map (fun r =>
                   zip_with (fun v ms => (v - fst ms) / snd ms)
                            r (combine mean_ scale_))
                (values X))
    | MinMaxScaler min_ scale_ =>
        Ok (map (fun r =>
                   zip_with (fun v ms => v * snd ms + fst ms)
                            r (combine min_ scale_))
                (values X))
    end
  else Raise ValueError.

(* ===================================================================== *)
(** ** Files *)
(* ===================================================================== *)

(** A cell and a row of the aggregate table, whose columns hold floats,
    integers, booleans and strings. *)
Inductive cell : Type :=
| Float (r : R)
| Int (z : Z)
| Boolean (b : bool)
| Str (s : string).

Definition table_row : Type := list (string * cell).
Definition table : Type := list table_row.

(** What a reader gets out of a file: a labelled matrix, a single number or
    a table of mixed cells. *)
Inductive file : Type :=
| TableFile (d : DataFrame)
| ScalarFile (r : R)
| ResultsFile (t : table).

Definition filesystem : Type := list (string * file).

Fixpoint lookup (path : string) (fs : filesystem) : option file :=
  match fs with
  | [] => None
  | (p, f) :: rest => if String.eqb path p then Some f else lookup path rest
  end.

(** [os.path.exists] *)
Definition exists_ (path : string) (fs : filesystem) : bool :=
  match lookup path fs with Some _ => true | None => false end.

(** [os.remove] *)
Definition remove_file (path : string) (fs : filesystem) : result filesystem :=
  if exists_ path fs
  then Ok (filter (fun pf => negb (String.eqb path (fst pf))) fs)
  else Raise FileNotFoundError.

Definition write (path : string) (f : file) (fs : filesystem) : filesystem :=
  (path, f) :: fs.

(** [pd.read_table] and [pd.read_csv] of a tab-separated matrix. *)
Definition read_table (path : string) (fs : filesystem) : result DataFrame :=
  match lookup path fs with
  | None => Raise FileNotFoundError
  | Some (TableFile d) => Ok d
  | Some _ => Raise ValueError
  end.

(** [np.loadtxt] of a file that holds one number. *)
Definition loadtxt (path : string) (fs : filesystem) : result R :=
  match lookup path fs with
  | None => Raise FileNotFoundError
  | Some (ScalarFile r) => Ok r
  | Some _ => Raise ValueError
  end.

(* ===================================================================== *)
(** ** External engines *)
(* ===================================================================== *)

(** The estimators of [sklearn.decomposition] as the source constructs
    them. *)
Inductive estimator : Type :=
| PCA (n_components : nat)
| FastICA (n_components : nat) (random_state : Z)
| NMF (n_components : nat) (init : string) (tol : R) (random_state : Z).

(** scikit-learn's decompositions. [fit_transform] returns the fitted
    estimator and the training embedding. *)
Class Decomposition : Type := {
  fitted : Type;
  fit_transform : estimator -> DataFrame -> result (fitted * matrix);
  components_ : fitted -> matrix;
  estimator_transform : fitted -> DataFrame -> result matrix;
  inverse_transform : fitted -> matrix -> result matrix
}.

(** An array of [n] rows and [m] columns. *)
Definition rect (n m : nat) (x : matrix) : Prop :=
  length x = n /\ Forall (fun r => length r = m) x.

(** [sklearn.linear_model.ridge_regression(X, y, alpha, solver='svd')]:
    for [X] of shape (n_samples, n_features) and [y] of shape
    (n_samples, n_targets) the coefficients have shape
    (n_targets, n_features). *)
Class RidgeSolver : Type := {
  ridge_regression : DataFrame -> DataFrame -> R -> result matrix;
  ridge_regression_shape :
    forall X y alpha coef,
      ridge_regression X y alpha = Ok coef ->
      rect (length (columns y)) (length (columns X)) coef
}.

(** NumPy's global legacy generator: [np.random.seed] and the bounded draw
    [rk_interval max], uniform on [[0, max]], that [randint], [choice] and
    [shuffle] are built on. *)
Class RandomState : Type := {
  rng_state : Type;
  np_random_seed : Z -> rng_state;
  rk_interval : Z -> rng_state -> Z * rng_state;
  rk_interval_range :
    forall max s, (0 <= max)%Z -> (0 <= fst (rk_interval max s) <= max)%Z
}.

(** The operating system: the name handed out by
    [tempfile.NamedTemporaryFile], [os.path.abspath], and
    [subprocess.check_call], which raises [CalledProcessError] on a
    non-zero exit status and otherwise leaves its output files behind. *)
Class OperatingSystem : Type := {
  NamedTemporaryFile : filesystem -> string;
  abspath : string -> string;
  check_call : list string -> filesystem -> result filesystem
}.

(** The module [config]. *)
Record config : Type := {
  data_dir : string;
  pathway_data : string;
  models_dir : string;
  results_dir : string;
  scripts_dir : string;
  default_seed : Z
}.

(** [config.py], for the absolute path [repo_root] that [pathlib.Path()]
    resolves to. *)
Definition config_py (repo_root : string) : config :=
  let data_dir := path_join repo_root "data" in
  {| data_dir := data_dir;
     pathway_data := path_join data_dir "pathway_data";
     models_dir := path_join repo_root "models";
     results_dir := path_join repo_root "results";
     scripts_dir := path_join repo_root "scripts";
     default_seed := 42 |}.

(** The command line of [1.compress_given_z.py], as far as the modelled
    code reads it (the loader of the expression data is external and takes
    [--subset_mad_genes]). A count is a natural number. *)
Module Args.
Record t : Type := {
  algorithm : option string;
  num_components : nat;
  num_seeds : nat;
  models_dir : string;
  pathways_file : string;
  shuffle : bool;
  verbose : bool
}.
End Args.

Section Model.

Context {DEC : Decomposition} {RR : RidgeSolver} {RNG : RandomState}
        {OS : OperatingSystem}.
Variable cfg : config.

(* ===================================================================== *)
(** ** [class DataModel] *)
(* ===================================================================== *)

(** The attributes one compression method adds to the object; an attribute
    that was never assigned is [None] ([hasattr] is false). *)
Record method_attrs : Type := {
  attr_fit : option fitted;
  attr_df : option DataFrame;
  attr_weights : option DataFrame;
  attr_test_df : option matrix
}.

Definition no_attrs : method_attrs :=
  {| attr_fit := None; attr_df := None; attr_weights := None;
     attr_test_df := None |}.

Record DataModel : Type := {
  filename : option string;
  df : DataFrame;
  gene_modules : option DataFrame;
  num_samples : nat;
  num_genes : nat;
  test_filename : option string;
  test_df : option DataFrame;
  num_test_samples : option nat;
  num_test_genes : option nat;
  transformation : option string;
  transform_fit : option Scaler;
  transform_test_fit : option Scaler;
  pca_attrs : method_attrs;
  ica_attrs : method_attrs;
  nmf_attrs : method_attrs;
  plier_attrs : method_attrs
}.

Definition pca_fit (self : DataModel) := attr_fit (pca_attrs self).
Definition pca_df (self : DataModel) := attr_df (pca_attrs self).
Definition pca_weights (self : DataModel) := attr_weights (pca_attrs self).
Definition pca_test_df (self : DataModel) := attr_test_df (pca_attrs self).
Definition ica_fit (self : DataModel) := attr_fit (ica_attrs self).
Definition ica_df (self : DataModel) := attr_df (ica_attrs self).
Definition ica_weights (self : DataModel) := attr_weights (ica_attrs self).
Definition ica_test_df (self : DataModel) := attr_test_df (ica_attrs self).
Definition nmf_fit (self : DataModel) := attr_fit (nmf_attrs self).
Definition nmf_df (self : DataModel) := attr_df (nmf_attrs self).
Definition nmf_weights (self : DataModel) := attr_weights (nmf_attrs self).
Definition nmf_test_df (self : DataModel) := attr_test_df (nmf_attrs self).
(** [plier] never assigns [self.plier_fit]. *)
Definition plier_fit (self : DataModel) := attr_fit (plier_attrs self).
Definition plier_df (self : DataModel) := attr_df (plier_attrs self).
Definition plier_weights (self : DataModel) := attr_weights (plier_attrs self).
Definition plier_test_df (self : DataModel) := attr_test_df (plier_attrs self).

(** Reading an attribute that was never assigned. *)
Definition getattr {A : Type} (a : option A) : result A :=
  match a with
  | Some v => Ok v
  | None => Raise AttributeError
  end.

Local Open Scope py_scope.

(** [DataModel.__init__]. [df = None] stands for the default [df=False],
    [select_columns = []] for the default [select_columns=False]. A list
    of [n] module assignments becomes a frame of one row, labelled
    ['modules'], and [n] columns; for the empty list that is a frame of
    one row and no column.
    <<
        if filename is None: self.df = df
        else: self.df = pd.read_table(self.filename, index_col=0)
        if select_columns:
            subset_df = self.df.iloc[:, select_columns]
            ...
            if self.test_df is not None:      # not assigned yet
        if gene_modules is not None:
            self.gene_modules = pd.DataFrame(gene_modules).T
            self.gene_modules.index = ['modules']
        self.num_samples, self.num_genes = self.df.shape
        self.test_filename = test_filename
        self.test_df = test_df
        if test_filename is not None and test_df is None:
            self.test_df = pd.read_table(self.test_filename, index_col=0)
            self.num_test_samples, self.num_test_genes = self.test_df.shape
            assert self.num_genes == self.num_test_genes, assert_
    >> *)
Definition __init__ (fs : filesystem)
    (filename : option string) (df : option DataFrame)
    (select_columns : list nat) (gene_modules : option (list R))
    (test_filename : option string) (test_df : option DataFrame)
  : result DataModel :=
  self_df <- match filename with
             | None => Ok df
             | Some f => d <- read_table f fs ;; Ok (Some d)
             end ;;
  match select_columns with
  | _ :: _ =>
      d <- getattr self_df ;;
      iloc_columns d select_columns ;;;
      Raise AttributeError
  | [] => Ok tt
  end ;;;
  self_gene_modules <-
    match gene_modules with
    | None => Ok None
    | Some l =>
        Ok (Some (mkDataFrame ["modules"%string]
                    (map str_of_nat (seq 0 (length l))) [l]))
    end ;;
  d <- getattr self_df ;;
  let '(num_samples, num_genes) := shape d in
  '(self_test_df, num_test) <-
    match test_filename, test_df with
    | Some tf, None =>
        t <- read_table tf fs ;;
        let '(num_test_samples, num_test_genes) := shape t in
        if (num_genes =? num_test_genes)%nat
        then Ok (Some t, Some (num_test_samples, num_test_genes))
        else Raise AssertionError
    | _, _ => Ok (test_df, None)
    end ;;
  Ok {| filename := filename;
        df := d;
        gene_modules := self_gene_modules;
        num_samples := num_samples;
        num_genes := num_genes;
        test_filename := test_filename;
        test_df := self_test_df;
        num_test_samples := option_map fst num_test;
        num_test_genes := option_map snd num_test;
        transformation := None;
        transform_fit := None;
        transform_test_fit := None;
        pca_attrs := no_attrs;
        ica_attrs := no_attrs;
        nmf_attrs := no_attrs;
        plier_attrs := no_attrs |}.

(** The scaler [transform] fits for a method name. *)
Definition fit_scaler (how : string) (X : DataFrame) : result Scaler :=
  if String.eqb how "zscore" then StandardScaler_fit X
  else if String.eqb how "zeroone" then MinMaxScaler_fit X
  else Raise ValueError.

(** [DataModel.transform].
    <<
        if how == 'zscore': self.transform_fit = StandardScaler().fit(self.df)
        elif how == 'zeroone': self.transform_fit = MinMaxScaler().fit(self.df)
        else: raise ValueError(...)
        self.df = pd.DataFrame(self.transform_fit.transform(self.df), ...)
        if self.test_df is not None:
            if how == 'zscore':
                self.transform_test_fit = StandardScaler().fit(self.test_df)
            elif how == 'zeroone':
                self.transform_test_fit = MinMaxScaler().fit(self.test_df)
            test_transform = self.transform_test_fit.transform(self.test_df)
            self.test_df = pd.DataFrame(test_transform, ...)
    >> *)
Definition transform (self : DataModel) (how : string) : result DataModel :=
  fit <- fit_scaler how (df self) ;;
  train_values <- Scaler_transform fit (df self) ;;
  new_df <- pd_DataFrame train_values (index (df self)) (columns (df self)) ;;
  '(test_fit, new_test_df) <-
    match test_df self with
    | None => Ok (transform_test_fit self, None)
    | Some t =>
        test_fit <- fit_scaler how t ;;
        test_transform <- Scaler_transform test_fit t ;;
        new_t <- pd_DataFrame test_transform (index t) (columns t) ;;
        Ok (Some test_fit, Some new_t)
    end ;;
  Ok {| filename := filename self;
        df := new_df;
        gene_modules := gene_modules self;
        num_samples := num_samples self;
        num_genes := num_genes self;
        test_filename := test_filename self;
        test_df := new_test_df;
        num_test_samples := num_test_samples self;
        num_test_genes := num_test_genes self;
        transformation := Some how;
        transform_fit := Some fit;
        transform_test_fit := test_fit;
        pca_attrs := pca_attrs self;
        ica_attrs := ica_attrs self;
        nmf_attrs := nmf_attrs self;
        plier_attrs := plier_attrs self |}.

(** [DataModel.list_algorithms] *)
Definition list_algorithms : list string :=
  ["pca"; "ica"; "nmf"; "plier"]%string.

(* ===================================================================== *)
(** ** The compression methods of [DataModel] *)
(* ===================================================================== *)

Definition with_attrs (self : DataModel) (pca_ ica_ nmf_ plier_ : method_attrs)
  : DataModel :=
  {| filename := filename self;
     df := df self;
     gene_modules := gene_modules self;
     num_samples := num_samples self;
     num_genes := num_genes self;
     test_filename := test_filename self;
     test_df := test_df self;
     num_test_samples := num_test_samples self;
     num_test_genes := num_test_genes self;
     transformation := transformation self;
     transform_fit := transform_fit self;
     transform_test_fit := transform_test_fit self;
     pca_attrs := pca_;
     ica_attrs := ica_;
     nmf_attrs := nmf_;
     plier_attrs := plier_ |}.

Definition set_pca (self : DataModel) (a : method_attrs) : DataModel :=
  with_attrs self a (ica_attrs self) (nmf_attrs self) (plier_attrs self).
Definition set_ica (self : DataModel) (a : method_attrs) : DataModel :=
  with_attrs self (pca_attrs self) a (nmf_attrs self) (plier_attrs self).
Definition set_nmf (self : DataModel) (a : method_attrs) : DataModel :=
  with_attrs self (pca_attrs self) (ica_attrs self) a (plier_attrs self).
Definition set_plier (self : DataModel) (a : method_attrs) : DataModel :=
  with_attrs self (pca_attrs self) (ica_attrs self) (nmf_attrs self) a.

(** [['pca_{}'.format(x) for x in range(0, n_components)]] *)
Definition colnames (prefix : string) (n_components : nat) : list string :=
  map (fun x => (prefix ++ "_" ++ str_of_nat x)%string) (seq 0 n_components).

(** The common body of [pca], [ica] and [nmf], which differ in the
    estimator they construct and in the attribute prefix. The result holds
    the attributes assigned and the value returned ([out_df] or [None]).
    <<
        self.pca_fit = decomposition.PCA(n_components=n_components)
        self.pca_df = self.pca_fit.fit_transform(self.df)
        colnames = ['pca_{}'.format(x) for x in range(0, n_components)]
        self.pca_df = pd.DataFrame(self.pca_df, index=self.df.index,
                                   columns=colnames)
        self.pca_weights = pd.DataFrame(self.pca_fit.components_,
                                        columns=self.df.columns,
                                        index=colnames)
        if transform_df:
            out_df = self.pca_fit.transform(self.df)
            return out_df
        if transform_test_df:
            self.pca_test_df = self.pca_fit.transform(self.test_df)
    >> *)
Definition sklearn_method (self : DataModel) (old : method_attrs)
    (est : estimator) (prefix : string) (n_components : nat)
    (transform_df transform_test_df : bool)
  : result (method_attrs * option matrix) :=
  '(fit, embedding) <- fit_transform est (df self) ;;
  let names := colnames prefix n_components in
  method_df <- pd_DataFrame embedding (index (df self)) names ;;
  method_weights <- pd_DataFrame (components_ fit) names (columns (df self)) ;;
  let assigned test :=
    {| attr_fit := Some fit; attr_df := Some method_df;
       attr_weights := Some method_weights; attr_test_df := test |} in
  if transform_df then
    out_df <- estimator_transform fit (df self) ;;
    Ok (assigned (attr_test_df old), Some out_df)
  else if transform_test_df then
    match test_df self with
    | None => Raise ValueError
    | Some t =>
        method_test_df <- estimator_transform fit t ;;
        Ok (assigned (Some method_test_df), None)
    end
  else Ok (assigned (attr_test_df old), None).

Definition pca (self : DataModel) (n_components : nat)
    (transform_df transform_test_df : bool)
  : result (DataModel * option matrix) :=
  '(a, out) <- sklearn_method self (pca_attrs self) (PCA n_components)
                 "pca" n_components transform_df transform_test_df ;;
  Ok (set_pca self a, out).

Definition ica (self : DataModel) (n_components : nat)
    (transform_df transform_test_df : bool) (seed : Z)
  : result (DataModel * option matrix) :=
  '(a, out) <- sklearn_method self (ica_attrs self) (FastICA n_components seed)
                 "ica" n_components transform_df transform_test_df ;;
  Ok (set_ica self a, out).

Definition nmf (self : DataModel) (n_components : nat)
    (transform_df transform_test_df : bool) (seed : Z) (init : string) (tol : R)
  : result (DataModel * option matrix) :=
  '(a, out) <- sklearn_method self (nmf_attrs self)
                 (NMF n_components init tol seed)
                 "nmf" n_components transform_df transform_test_df ;;
  Ok (set_nmf self a, out).

(** Default arguments of [nmf]. *)
Definition nmf_default_init : string := "nndsvdar".
Definition nmf_default_tol : R := 5 / 1000.

(** [DataModel._plier_on_test_data]:
    <<
        return ridge_regression(weights.T, X.apply(zscore).T, lambda_2,
                                solver='svd')
    >>
    [ridge_regression] validates its arguments and raises [ValueError] on
    a [nan], which is what [zscore] leaves in a column without spread. *)
Definition _plier_on_test_data (X weights : DataFrame) (lambda_2 : R)
  : result matrix :=
  if existsb zscore_is_nan (transpose (length (columns X)) (values X))
  then Raise ValueError
  else ridge_regression (T weights) (T (apply_columns zscore X)) lambda_2.

(** The names of the three files the factorization leaves behind. *)
Definition plier_output_prefix (n_components : nat) (seed : Z) (shuffled : bool)
  : string :=
  let plier_output_dir := path_join (data_dir cfg) "plier_output" in
  let output_prefix :=
    path_join plier_output_dir
      ("plier_k" ++ str_of_nat n_components ++ "_s" ++ str_of_Z seed)%string in
  if shuffled then (output_prefix ++ "_shuffled")%string else output_prefix.

Definition plier_args (expression_filename : string) (n_components : nat)
    (seed : Z) (pathways_file output_prefix : string) (verbose : bool)
  : list string :=
  List.app
    ["Rscript"; path_join (scripts_dir cfg) "run_plier.R";
     "--data"; expression_filename;
     "--k"; str_of_nat n_components;
     "--seed"; str_of_Z seed;
     "--pathways_file"; pathways_file;
     "--output_prefix"; output_prefix]%string
    (if verbose then ["--verbose"%string] else []).

(** [DataModel.plier]. Directories are not part of the file model, so
    [os.makedirs] has no counterpart here.
    <<
        if skip_cache or (not os.path.exists(output_data) or
                          not os.path.exists(output_weights)):
            tf = tempfile.NamedTemporaryFile(mode='w', delete=False)
            expression_filename = tf.name
            self.df.to_csv(tf, sep='\t')
            ...
            subprocess.check_call(args)
            os.remove(expression_filename)
        self.plier_df = pd.read_csv(output_weights, sep='\t').T
        self.plier_weights = pd.read_csv(output_data, sep='\t').T
        plier_l2 = np.loadtxt(output_l2)
        if skip_cache:
            os.remove(output_data)
            os.remove(output_weights)
            os.remove(output_l2)
        test_df_filtered = self.test_df[self.plier_weights.columns.astype('str')]
        if transform_df:
            return self.plier_df
        if transform_test_df:
            self.plier_test_df = self._plier_on_test_data(test_df_filtered,
                                                          self.plier_weights,
                                                          plier_l2)
    >> *)
Definition plier (self : DataModel) (fs : filesystem) (n_components : nat)
    (pathways_file : string) (transform_df transform_test_df shuffled : bool)
    (seed : Z) (verbose skip_cache : bool)
  : result (filesystem * DataModel * option DataFrame) :=
  let output_prefix := plier_output_prefix n_components seed shuffled in
  let output_data := (output_prefix ++ "_z.tsv")%string in
  let output_weights := (output_prefix ++ "_b.tsv")%string in
  let output_l2 := (output_prefix ++ "_l2.tsv")%string in
  fs <- (if skip_cache || (negb (exists_ output_data fs)
                           || negb (exists_ output_weights fs))
         then
           let expression_filename := NamedTemporaryFile fs in
           let fs := write expression_filename (TableFile (df self)) fs in
           fs <- check_call (plier_args expression_filename n_components seed
                               pathways_file output_prefix verbose) fs ;;
           remove_file expression_filename fs
         else Ok fs) ;;
  b <- read_table output_weights fs ;;
  let self_plier_df := T b in
  z <- read_table output_data fs ;;
  let self_plier_weights := T z in
  plier_l2 <- loadtxt output_l2 fs ;;
  fs <- (if skip_cache
         then fs <- remove_file output_data fs ;;
              fs <- remove_file output_weights fs ;;
              remove_file output_l2 fs
         else Ok fs) ;;
  test_df_filtered <-
    match test_df self with
    | None => Raise TypeError
    | Some t => getitem t (columns self_plier_weights)
    end ;;
  let assigned test :=
    {| attr_fit := attr_fit (plier_attrs self);
       attr_df := Some self_plier_df;
       attr_weights := Some self_plier_weights;
       attr_test_df := test |} in
  if transform_df then
    Ok (fs, set_plier self (assigned (attr_test_df (plier_attrs self))),
        Some self_plier_df)
  else if transform_test_df then
    plier_test <- _plier_on_test_data test_df_filtered self_plier_weights
                    plier_l2 ;;
    Ok (fs, set_plier self (assigned (Some plier_test)), None)
  else
    Ok (fs, set_plier self (assigned (attr_test_df (plier_attrs self))), None).

(* ===================================================================== *)
(** ** Persisting and scoring the fitted models *)
(* ===================================================================== *)

(** The four attribute groups in the order the source visits them. *)
Definition methods (self : DataModel) : list (string * method_attrs) :=
  [("pca", pca_attrs self); ("ica", ica_attrs self);
   ("nmf", nmf_attrs self); ("plier", plier_attrs self)]%string.

(** [DataModel.write_models]: for every method whose [<m>_df] exists,
    <<
        def write_to_file(method_df, method_test_df, prefix):
            output_file = os.path.join(output_dir,
                                       '{}_{}'.format(prefix, file_suffix))
            if test_set:
                method_df = pd.DataFrame(method_test_df,
                                         index=self.test_df.index,
                                         columns=method_df.columns)
            method_df.to_csv(output_file, sep='\t', compression='gzip')
    >>
    The call [write_to_file(self.pca_df, self.pca_test_df, 'pca')] reads
    both attributes whatever [test_set] is. *)
Definition write_method (self : DataModel) (output_dir file_suffix : string)
    (test_set : bool) (fs : filesystem) (m : string * method_attrs)
  : result filesystem :=
  let '(prefix, a) := m in
  match attr_df a with
  | None => Ok fs
  | Some method_df =>
      method_test_df <- getattr (attr_test_df a) ;;
      let output_file :=
        path_join output_dir (prefix ++ "_" ++ file_suffix)%string in
      method_df <-
        (if test_set then
           t <- getattr (test_df self) ;;
           pd_DataFrame method_test_df (index t) (columns method_df)
         else Ok method_df) ;;
      Ok (write output_file (TableFile method_df) fs)
  end.

Fixpoint fold_result {A B : Type} (f : A -> B -> result A) (l : list B) (a : A)
  : result A :=
  match l with
  | [] => Ok a
  | b :: t => a' <- f a b ;; fold_result f t a'
  end.

Definition write_models (self : DataModel) (fs : filesystem)
    (output_dir file_suffix : string) (test_set : bool) : result filesystem :=
  fold_result (write_method self output_dir file_suffix test_set)
    (methods self) fs.

(** [DataModel.write_weight_matrices] *)
Definition write_weights (output_dir file_suffix : string)
    (fs : filesystem) (m : string * method_attrs) : result filesystem :=
  let '(prefix, a) := m in
  match attr_df a with
  | None => Ok fs
  | Some _ =>
      weights_df <- getattr (attr_weights a) ;;
      let output_file :=
        path_join output_dir (prefix ++ "_" ++ file_suffix)%string in
      Ok (write output_file (TableFile weights_df) fs)
  end.

Definition write_weight_matrices (self : DataModel) (fs : filesystem)
    (output_dir file_suffix : string) : result filesystem :=
  fold_result (write_weights output_dir file_suffix) (methods self) fs.

(** [np.dot] of an array with a frame of [k] rows. *)
Definition np_dot (a : matrix) (b : DataFrame) : result matrix :=
  let k := length (index b) in
  if forallb (fun r => (length r =? k)%nat) a then
    Ok (map (fun r =>
               map (fun col => Rsum (zip_with Rmult r col))
                   (transpose (length (columns b)) (values b)))
            a)
  else Raise ValueError.

(** The two dictionaries [compile_reconstruction] fills. *)
Definition reconstruction : Type :=
  (list (string * R) * list (string * DataFrame))%type.

(** The inner function of [compile_reconstruction].
    <<
        if test_set:
            method_df = method_test_df
        if is_plier:
            method_reconstruct = np.dot(method_df, self.plier_weights)
        else:
            method_reconstruct = method_object.inverse_transform(method_df)
        method_recon = self._approx_keras_binary_cross_entropy(
            method_reconstruct, input_df, num_genes)
        all_reconstruction[method_name] = [method_recon]
        reconstruct_mat[method_name] = pd.DataFrame(method_reconstruct,
                                                    index=input_df.index,
                                                    columns=input_df.columns)
    >> *)
Definition add_method_reconstruction (self : DataModel) (test_set : bool)
    (input_df : option DataFrame) (acc : reconstruction)
    (method_df : DataFrame) (method_test_df : matrix) (method_name : string)
    (method_object : fitted) (num_genes : nat) (is_plier : bool)
  : result reconstruction :=
  let method_df := if test_set then method_test_df else values method_df in
  method_reconstruct <-
    (if is_plier then
       w <- getattr (plier_weights self) ;; np_dot method_df w
     else inverse_transform method_object method_df) ;;
  input <- match input_df with
           | None => Raise TypeError
           | Some d => Ok d
           end ;;
  method_recon <- _approx_keras_binary_cross_entropy method_reconstruct
                    (values input) (INR num_genes) default_epsilon ;;
  mat <- pd_DataFrame method_reconstruct (index input) (columns input) ;;
  Ok (List.app (fst acc) [(method_name, method_recon)],
      List.app (snd acc) [(method_name, mat)]).

(** The block of one scikit-learn method:
    <<
        if hasattr(self, 'pca_df'):
            all_reconstruction, reconstruct_mat = add_method_reconstruction(
                    self.pca_df, self.pca_test_df, 'pca', self.pca_fit)
    >> *)
Definition reconstruct_sklearn (self : DataModel) (test_set : bool)
    (input_df : option DataFrame) (acc : reconstruction)
    (m : string * method_attrs) : result reconstruction :=
  let '(method_name, a) := m in
  match attr_df a with
  | None => Ok acc
  | Some method_df =>
      method_test_df <- getattr (attr_test_df a) ;;
      method_object <- getattr (attr_fit a) ;;
      add_method_reconstruction self test_set input_df acc method_df
        method_test_df method_name method_object (num_genes self) false
  end.

(** The block of the pathway-regularized method:
    <<
        if hasattr(self, 'plier_df'):
            plier_input_df = input_df[self.plier_weights.columns.astype('str')]
            num_genes = len(self.plier_weights.columns)
            all_reconstruction, reconstruct_mat = add_method_reconstruction(
                    self.plier_df, self.plier_test_df, 'plier', self.plier_fit,
                    num_genes, is_plier=True)
    >> *)
Definition reconstruct_plier (self : DataModel) (test_set : bool)
    (input_df : option DataFrame) (acc : reconstruction)
  : result reconstruction :=
  match plier_df self with
  | None => Ok acc
  | Some method_df =>
      w <- getattr (plier_weights self) ;;
      match input_df with
      | None => Raise TypeError
      | Some d => getitem d (columns w)
      end ;;;
      let num_genes := length (columns w) in
      method_test_df <- getattr (plier_test_df self) ;;
      method_object <- getattr (plier_fit self) ;;
      add_method_reconstruction self test_set input_df acc method_df
        method_test_df "plier" method_object num_genes true
  end.

(** [pd.DataFrame(all_reconstruction)]: one row of scores, or no row when
    the dictionary is empty. *)
Definition scores_frame (all_reconstruction : list (string * R)) : table :=
  match all_reconstruction with
  | [] => []
  | _ => [map (fun ns => (fst ns, Float (snd ns))) all_reconstruction]
  end.

(** [DataModel.compile_reconstruction] *)
Definition compile_reconstruction (self : DataModel) (test_set : bool)
  : result (table * list (string * DataFrame)) :=
  let input_df := if test_set then test_df self else Some (df self) in
  acc <- fold_result (reconstruct_sklearn self test_set input_df)
           [("pca", pca_attrs self); ("ica", ica_attrs self);
            ("nmf", nmf_attrs self)]%string ([], []) ;;
  acc <- reconstruct_plier self test_set input_df acc ;;
  Ok (scores_frame (fst acc), snd acc).

(* ===================================================================== *)
(** ** NumPy's generator: [choice] and [permutation] *)
(* ===================================================================== *)

(** [np.arange(lo, hi)] *)
Definition np_arange (lo hi : Z) : list Z :=
  map (fun i => (lo + Z.of_nat i)%Z) (seq 0 (Z.to_nat (hi - lo))).

(** [size] independent draws from [[0, max]]. *)
Fixpoint randint_loop (max : Z) (size : nat) (s : rng_state)
  : list Z * rng_state :=
  match size with
  | O => ([], s)
  | S n =>
      let '(v, s) := rk_interval max s in
      let '(vs, s) := randint_loop max n s in
      (v :: vs, s)
  end.

(** [np.random.choice(a, size=size)] with the defaults [replace=True] and
    [p=None]: [a[randint(0, len(a), size)]]. *)
Definition np_random_choice (a : list Z) (size : nat) (s : rng_state)
  : result (list Z * rng_state) :=
  match a with
  | [] => Raise ValueError
  | _ :: _ =>
      let '(idx, s) := randint_loop (Z.of_nat (length a) - 1) size s in
      Ok (map (fun i => nth (Z.to_nat i) a 0%Z) idx, s)
  end.

Definition set_item {A : Type} (i : nat) (v : A) (l : list A) : list A :=
  List.app (firstn i l) (match skipn i l with
                         | [] => []
                         | _ :: t => v :: t
                         end).

(** [x[i], x[j] = x[j], x[i]] *)
Definition swap {A : Type} (i j : nat) (l : list A) : list A :=
  match nth_error l i, nth_error l j with
  | Some a, Some b => set_item j a (set_item i b l)
  | _, _ => l
  end.

(** The loop of [RandomState.shuffle]:
    [for i in reversed(range(1, n)): j = rk_interval(i); swap x[i], x[j]]. *)
Fixpoint shuffle_from {A : Type} (i : nat) (x : list A) (s : rng_state)
  : list A * rng_state :=
  match i with
  | O => (x, s)
  | S i' =>
      let '(j, s) := rk_interval (Z.of_nat i) s in
      shuffle_from i' (swap i (Z.to_nat j) x) s
  end.

(** [np.random.permutation(x)] for a list [x]: a shuffled copy. *)
Definition np_random_permutation {A : Type} (x : list A) (s : rng_state)
  : list A * rng_state :=
  shuffle_from (length x - 1) x s.

(* ===================================================================== *)
(** ** [1.compress_given_z.py] *)
(* ===================================================================== *)

(** [train_df.apply(lambda x: np.random.permutation(x.tolist()), axis=1)]:
    the rows are permuted one after the other on the global generator. *)
Fixpoint permute_rows (rows : matrix) (s : rng_state) : matrix * rng_state :=
  match rows with
  | [] => ([], s)
  | r :: t =>
      let '(r', s) := np_random_permutation r s in
      let '(t', s) := permute_rows t s in
      (r' :: t', s)
  end.

(** [shuffle_train_genes(train_df)]. The labels of the result are those of
    the module-level [rnaseq_train_df], not of the argument.
    <<
        shuf_df = train_df.apply(lambda x:
                                 np.random.permutation(x.tolist()),
                                 axis=1)
        shuf_df = pd.DataFrame(shuf_df, columns=['gene_list'])
        shuf_df = pd.DataFrame(shuf_df.gene_list.values.tolist(),
                               columns=rnaseq_train_df.columns,
                               index=rnaseq_train_df.index)
    >> *)
Definition shuffle_train_genes (rnaseq_train_df : DataFrame)
    (train_df : DataFrame) (s : rng_state) : result (DataFrame * rng_state) :=
  let '(gene_list, s) := permute_rows (values train_df) s in
  shuf_df <- pd_DataFrame gene_list (index rnaseq_train_df)
               (columns rnaseq_train_df) ;;
  Ok (shuf_df, s).

(** [df.assign(name=value)] with a scalar, for a column the frame does not
    have yet. *)
Definition assign (name : string) (value : cell) (t : table) : table :=
  map (fun row => List.app row [(name, value)]) t.

(** [pd.concat]: raises on an empty list of frames. *)
Definition pd_concat (frames : list table) : result table :=
  match frames with
  | [] => Raise ValueError
  | _ :: _ => Ok (concat frames)
  end.

(** A column of a table. *)
Fixpoint cell_of (name : string) (row : table_row) : option cell :=
  match row with
  | [] => None
  | (n, c) :: rest => if String.eqb name n then Some c else cell_of name rest
  end.
Definition column_of (name : string) (t : table) : list (option cell) :=
  map (cell_of name) t.

Definition algs_to_run (args : Args.t) : list string :=
  match Args.algorithm args with
  | Some a => [a]
  | None => list_algorithms
  end.

Definition file_prefix (args : Args.t) : string :=
  if Args.shuffle args
  then (str_of_nat (Args.num_components args) ++ "_components_shuffled_")%string
  else (str_of_nat (Args.num_components args) ++ "_components_")%string.

Definition comp_out_dir (args : Args.t) : string :=
  path_join (path_join (abspath (Args.models_dir args)) "ensemble_z_matrices")
    ("components_" ++ str_of_nat (Args.num_components args))%string.

Definition recon_file (args : Args.t) : string :=
  path_join (Args.models_dir args) (file_prefix args ++ "reconstruction.tsv")%string.

(** <<
        np.random.seed(cfg.default_seed)
        random_seeds = np.random.choice(np.arange(0, 1000000),
                                        size=args.num_seeds)
    >> *)
Definition draw_seeds (master_seed : Z) (count : nat) : result (list Z) :=
  '(seeds, _) <- np_random_choice (np_arange 0 1000000) count
                   (np_random_seed master_seed) ;;
  Ok seeds.

Definition random_seeds (args : Args.t) : result (list Z) :=
  draw_seeds (default_seed cfg) (Args.num_seeds args).

(** What the loop carries from one seed to the next: the model object, the
    files, and the two lists of result frames. *)
Record loop_state : Type := {
  dm : DataModel;
  files : filesystem;
  reconstruction_results : list table;
  test_reconstruction_results : list table
}.

(** One method call of the loop body, guarded by ['m' in algs_to_run]. *)
Definition when (b : bool) (self : DataModel)
    (call : DataModel -> result (DataModel * option matrix))
  : result DataModel :=
  if b then '(self, _) <- call self ;; Ok self else Ok self.

(** The body of [for ix, seed in enumerate(random_seeds, 1)]. *)
Definition per_seed (args : Args.t) (rnaseq_train_df rnaseq_test_df : DataFrame)
    (st : loop_state) (seed : Z) : result loop_state :=
  let rng := np_random_seed seed in
  let fs := files st in
  '(seed_name, dm) <-
    (if Args.shuffle args then
       '(shuffled_train_df, _) <-
         shuffle_train_genes rnaseq_train_df rnaseq_train_df rng ;;
       dm <- __init__ fs None (Some shuffled_train_df) [] None None
               (Some rnaseq_test_df) ;;
       dm <- transform dm "zscore" ;;
       Ok ((str_of_Z seed ++ "_shuffled")%string, dm)
     else Ok (str_of_Z seed, dm st)) ;;
  let k := Args.num_components args in
  let algs := algs_to_run args in
  dm <- when (mem_string "pca" algs) dm (fun dm => pca dm k false true) ;;
  dm <- when (mem_string "ica" algs) dm (fun dm => ica dm k false true seed) ;;
  dm <- when (mem_string "nmf" algs) dm
          (fun dm => nmf dm k false true seed nmf_default_init nmf_default_tol) ;;
  '(fs, dm) <-
    (if mem_string "plier" algs then
       '(fs, dm, _) <- plier dm fs k (Args.pathways_file args) false true
                         (Args.shuffle args) seed (Args.verbose args) false ;;
       Ok (fs, dm)
     else Ok (fs, dm)) ;;
  let z_suffix := (seed_name ++ "_z_matrix.tsv.gz")%string in
  fs <- write_models dm fs (comp_out_dir args) z_suffix false ;;
  let test_z_suffix := (seed_name ++ "_z_test_matrix.tsv.gz")%string in
  fs <- write_models dm fs (comp_out_dir args) test_z_suffix true ;;
  let weight_suffix := (seed_name ++ "_weight_matrix.tsv.gz")%string in
  fs <- write_weight_matrices dm fs (comp_out_dir args) weight_suffix ;;
  '(full_reconstruction, _) <- compile_reconstruction dm false ;;
  '(full_test_recon, _) <- compile_reconstruction dm true ;;
  let tag t := assign "shuffled" (Boolean (Args.shuffle args))
                 (assign "seed" (Int seed) t) in
  Ok {| dm := dm;
        files := fs;
        reconstruction_results :=
          List.app (reconstruction_results st) [tag full_reconstruction];
        test_reconstruction_results :=
          List.app (test_reconstruction_results st) [tag full_test_recon] |}.

(** The statements after the loop: the aggregate table and the files with
    the table written to [recon_file]. *)
Definition save_results (args : Args.t) (st : loop_state)
  : result (table * filesystem) :=
  training <- pd_concat (reconstruction_results st) ;;
  testing <- pd_concat (test_reconstruction_results st) ;;
  all <- pd_concat [assign "data_type" (Str "training") training;
                    assign "data_type" (Str "testing") testing] ;;
  Ok (all, write (recon_file args) (ResultsFile all) (files st)).

(** The script, from the loaded expression data on. The result is the
    aggregate table and the final files; an exception raised anywhere ends
    the script. *)
Definition main (args : Args.t) (rnaseq_train_df rnaseq_test_df : DataFrame)
    (fs : filesystem) : result (table * filesystem) :=
  dm <- __init__ fs None (Some rnaseq_train_df) [] None None
          (Some rnaseq_test_df) ;;
  dm <- transform dm "zscore" ;;
  random_seeds <- random_seeds args ;;
  st <- fold_result (per_seed args rnaseq_train_df rnaseq_test_df) random_seeds
          {| dm := dm; files := fs;
             reconstruction_results := [];
             test_reconstruction_results := [] |} ;;
  save_results args st.

End Model.

(* ===================================================================== *)
(** ** Executable stand-ins for the external engines

    The theorems below hold for every implementation of the four
    interfaces. To run the model on concrete inputs, each interface gets
    one small implementation here. *)
(* ===================================================================== *)

Lemma length_transpose (m : nat) (x : matrix) : length (transpose m x) = m.
Proof. unfold transpose. now rewrite length_map, length_seq. Qed.

Module StandIn.

Local Open Scope py_scope.

(** A linear congruential generator; the bounded draw reduces the next
    state modulo [max + 1]. *)
Definition lcg_next (s : Z) : Z := ((s * 1103515245 + 12345) mod 2147483648)%Z.

Definition lcg_interval (max : Z) (s : Z) : Z * Z :=
  let s' := lcg_next s in ((s' mod (max + 1))%Z, s').

Lemma lcg_interval_range (max s : Z) :
  (0 <= max)%Z -> (0 <= fst (lcg_interval max s) <= max)%Z.
Proof.
  intros Hmax. unfold lcg_interval. cbn [fst].
  pose proof (Z.mod_pos_bound (lcg_next s) (max + 1)) as Hb. lia.
Qed.

Definition rng : RandomState :=
  {| rng_state := Z;
     np_random_seed := fun seed => (seed mod 4294967296)%Z;
     rk_interval := lcg_interval;
     rk_interval_range := lcg_interval_range |}.

(** A decomposition onto the first [k] coordinate axes: the components
    are the first [k] rows of the identity, the embedding keeps the first
    [k] features of every sample, and the inverse map pads with zeros. It
    validates its input as scikit-learn documents: at least one sample and
    one feature, a rank of at most [min(n_samples, n_features)], and no
    negative entry for the non-negative factorization. *)
Definition unit_row (m i : nat) : list R :=
  map (fun j => if (i =? j)%nat then 1 else 0) (seq 0 m).

Definition rank_of (est : estimator) : nat :=
  match est with
  | PCA k => k
  | FastICA k _ => k
  | NMF k _ _ _ => k
  end.

Definition has_negative (x : matrix) : bool :=
  existsb (existsb (fun v => Rltb v 0)) x.

Definition axes_fit_transform (est : estimator) (X : DataFrame)
  : result ((nat * nat) * matrix) :=
  check_array X ;;;
  let k := rank_of est in
  let n := length (index X) in
  let m := length (columns X) in
  if (k <=? Nat.min n m)%nat then
    match est with
    | NMF _ _ _ _ =>
        if has_negative (values X) then Raise ValueError
        else Ok ((k, m), map (firstn k) (values X))
    | _ => Ok ((k, m), map (firstn k) (values X))
    end
  else Raise ValueError.

Definition axes_transform (f : nat * nat) (X : DataFrame) : result matrix :=
  if (length (columns X) =? snd f)%nat
  then Ok (map (firstn (fst f)) (values X))
  else Raise ValueError.

Definition axes_inverse_transform (f : nat * nat) (z : matrix) : result matrix :=
  if forallb (fun r => (length r =? fst f)%nat) z
  then Ok (map (fun r => List.app r (repeat 0 (snd f - fst f))) z)
  else Raise ValueError.

Definition axes : Decomposition :=
  {| fitted := (nat * nat)%type;
     fit_transform := axes_fit_transform;
     components_ := fun f => map (unit_row (snd f)) (seq 0 (fst f));
     estimator_transform := axes_transform;
     inverse_transform := axes_inverse_transform |}.

(** Ridge regression in closed form: every target column [y] gets the
    solution of [(X^T X + alpha I) w = X^T y], by Cramer's rule. *)
Definition dot (u v : list R) : R := Rsum (zip_with Rmult u v).

Definition drop_nth {A : Type} (j : nat) (l : list A) : list A :=
  List.app (firstn j l) (skipn (S j) l).

Fixpoint sign (j : nat) : R :=
  match j with
  | O => 1
  | S j' => - sign j'
  end.

(** Laplace expansion along the first row; [fuel] is the order. *)
Fixpoint det (fuel : nat) (a : matrix) : R :=
  match fuel, a with
  | S fuel', r :: rest =>
      Rsum (map (fun j => sign j * nth j r 0
                          * det fuel' (map (drop_nth j) rest))
                (seq 0 (length r)))
  | _, _ => 1
  end.

Definition gram (cols : matrix) (alpha : R) : matrix :=
  let k := length cols in
  map (fun i =>
         map (fun j => dot (nth i cols []) (nth j cols [])
                       + (if (i =? j)%nat then alpha else 0))
             (seq 0 k))
      (seq 0 k).

Definition replace_column (j : nat) (b : list R) (a : matrix) : matrix :=
  zip_with (fun row bi => set_item j bi row) a b.

Definition cramer (a : matrix) (b : list R) : list R :=
  let k := length a in
  map (fun j => det k (replace_column j b a) / det k a) (seq 0 k).

Definition ridge_closed_form (X y : DataFrame) (alpha : R) : result matrix :=
  check_array X ;;;
  if (length (index X) =? length (index y))%nat then
    let xcols := transpose (length (columns X)) (values X) in
    let ycols := transpose (length (columns y)) (values y) in
    Ok (map (fun yc => cramer (gram xcols alpha)
                         (map (fun xc => dot xc yc) xcols))
            ycols)
  else Raise ValueError.

Lemma ridge_closed_form_shape (X y : DataFrame) (alpha : R) (coef : matrix) :
  ridge_closed_form X y alpha = Ok coef ->
  rect (length (columns y)) (length (columns X)) coef.
Proof.
  unfold ridge_closed_form. destruct (check_array X); [| discriminate].
  cbn [bind].
  destruct (length (index X) =? length (index y))%nat; [| discriminate].
  intros H. injection H as <-. split.
  - now rewrite length_map, length_transpose.
  - apply Forall_forall. intros r Hr. apply in_map_iff in Hr.
    destruct Hr as [yc [<- _]]. unfold cramer, gram.
    now rewrite !length_map, !length_seq, length_transpose.
Qed.

Definition ridge : RidgeSolver :=
  {| ridge_regression := ridge_closed_form;
     ridge_regression_shape := ridge_closed_form_shape |}.

(** A machine without [Rscript]: every subprocess call exits with a
    non-zero status. *)
Definition os : OperatingSystem :=
  {| NamedTemporaryFile := fun _ => "/tmp/tmpexpression"%string;
     abspath := fun p => if starts_with_slash p then p
                         else ("/repo/" ++ p)%string;
     check_call := fun _ _ => Raise CalledProcessError |}.

End StandIn.
(* ===================================================================== *)
(** ** Facts about the score *)
(* ===================================================================== *)

Lemma Rltb_true (a b : R) : a < b -> Rltb a b = true.
Proof. intros H. unfold Rltb. destruct (Rlt_dec a b); [reflexivity | contradiction]. Qed.

Lemma Rltb_false (a b : R) : b <= a -> Rltb a b = false.
Proof. intros H. unfold Rltb. destruct (Rlt_dec a b); [lra | reflexivity]. Qed.

(** The two masked assignments of the source are one clip when
    [epsilon <= 1 - epsilon]. *)
Lemma two_masks_clip (epsilon v : R) :
  epsilon <= 1 - epsilon ->
  (let v1 := if Rltb v epsilon then epsilon else v in
   if Rgtb v1 (1 - epsilon) then 1 - epsilon else v1)
  = clip epsilon (1 - epsilon) v.
Proof.
  intros He. cbv zeta. unfold clip, Rgtb.
  destruct (Rlt_dec v epsilon) as [Hlt | Hge].
  - rewrite (Rltb_true Hlt). rewrite Rltb_false by lra.
    rewrite Rmax_right by lra. rewrite Rmin_left by lra. reflexivity.
  - rewrite (Rltb_false (a:=v) (b:=epsilon)) by lra.
    rewrite Rmax_left by lra.
    destruct (Rlt_dec (1 - epsilon) v) as [Hgt | Hle].
    + rewrite (Rltb_true Hgt). rewrite Rmin_right by lra. reflexivity.
    + rewrite (Rltb_false (a:=1 - epsilon) (b:=v)) by lra.
      rewrite Rmin_left by lra. reflexivity.
Qed.

Lemma row_lengths_map (f : list R -> list R) (x : matrix) :
  (forall r, length (f r) = length r) ->
  row_lengths (map f x) = row_lengths x.
Proof.
  intros Hf. unfold row_lengths. rewrite map_map.
  apply map_ext. intros r. apply Hf.
Qed.

Lemma zip_with_map_l {A A' B C : Type} (g : A -> A') (f : A' -> B -> C) l l' :
  zip_with f (map g l) l' = zip_with (fun a b => f (g a) b) l l'.
Proof.
  revert l'. induction l as [| a t IH]; intros [| b t']; simpl; try reflexivity.
  now rewrite IH.
Qed.

Lemma zip_with_ext {A B C : Type} (f g : A -> B -> C) l l' :
  (forall a b, In a l -> In b l' -> f a b = g a b) ->
  zip_with f l l' = zip_with g l l'.
Proof.
  revert l'. induction l as [| a t IH]; intros [| b t'] H; simpl; try reflexivity.
  rewrite H by (left; reflexivity). rewrite IH; [reflexivity |].
  intros a' b' Ha Hb. apply H; right; assumption.
Qed.

Lemma map_zip_with {A B C D : Type} (g : C -> D) (f : A -> B -> C) l l' :
  map g (zip_with f l l') = zip_with (fun a b => g (f a b)) l l'.
Proof.
  revert l'. induction l as [| a t IH]; intros [| b t']; simpl; try reflexivity.
  now rewrite IH.
Qed.

(** The three array passes of the source, fused into one per-element map. *)
Definition prepared (epsilon : R) (x : matrix) : matrix :=
  map (map (fun v => ln (v / (1 - v))))
    (mask_assign (fun v => Rgtb v (1 - epsilon)) (1 - epsilon)
       (mask_assign (fun v => Rltb v epsilon) epsilon x)).

Lemma prepared_shape (epsilon : R) (x : matrix) :
  row_lengths (prepared epsilon x) = row_lengths x.
Proof.
  unfold prepared, mask_assign.
  rewrite !row_lengths_map; auto using length_map.
Qed.

Lemma prepared_clip (epsilon : R) (x : matrix) :
  epsilon <= 1 - epsilon ->
  prepared epsilon x = map (map (fun v => logit (clip epsilon (1 - epsilon) v))) x.
Proof.
  intros He. unfold prepared, mask_assign. rewrite !map_map.
  apply map_ext. intros r. rewrite !map_map. apply map_ext. intros v.
  unfold logit. rewrite <- (two_masks_clip v He). reflexivity.
Qed.

Lemma score_unfold (x z : matrix) (p epsilon : R) :
  _approx_keras_binary_cross_entropy x z p epsilon =
  if same_shape (prepared epsilon x) z then
    Ok (np_mean (map (fun row => p * np_mean row)
           (zip_with (zip_with (fun xv zv => - xv * zv + ln (1 + exp xv)))
              (prepared epsilon x) z)))
  else Raise ValueError.
Proof. reflexivity. Qed.

Lemma same_shape_prepared (epsilon : R) (x z : matrix) :
  same_shape (prepared epsilon x) z = same_shape x z.
Proof.
  unfold same_shape. rewrite prepared_shape. reflexivity.
Qed.

(** C6: for a reconstruction [x] and an original [z] of the same shape and
    [epsilon] in (0, 1/2), the score of the source is the specification's
    formula: clip [x] into [[epsilon, 1 - epsilon]], take the logit, then
    the mean over samples of [p] times the mean over features of
    [- logit * z + log (1 + exp logit)]. *)
Theorem score_is_clipped_logit_cross_entropy (x z : matrix) (p epsilon : R) :
  0 < epsilon < / 2 ->
  row_lengths x = row_lengths z ->
  _approx_keras_binary_cross_entropy x z p epsilon
  = Ok (spec_score x z p epsilon).
Proof.
  intros [He0 He1] Hshape.
  rewrite score_unfold, same_shape_prepared.
  unfold same_shape.
  destruct (list_eq_dec Nat.eq_dec (row_lengths x) (row_lengths z)) as [_ | Hne];
    [| contradiction].
  simpl. f_equal. unfold spec_score. f_equal.
  rewrite prepared_clip by lra.
  rewrite map_zip_with, zip_with_map_l.
  apply zip_with_ext. intros xr zr _ _.
  unfold sample_term. f_equal. f_equal.
  rewrite zip_with_map_l. reflexivity.
Qed.

Lemma score_is_clipped_logit_cross_entropy_witness :
  _approx_keras_binary_cross_entropy [[/ 2; / 4]; [1; 0]] [[1; 0]; [0; 1]] 2 (/ 10)
  = Ok (spec_score [[/ 2; / 4]; [1; 0]] [[1; 0]; [0; 1]] 2 (/ 10)).
Proof.
  apply score_is_clipped_logit_cross_entropy.
  - lra.
  - reflexivity.
Defined.

(** Every entry of [x] lies strictly inside [(epsilon, 1 - epsilon)]. *)
Definition strictly_inside (epsilon : R) (x : matrix) : Prop :=
  Forall (Forall (fun v => epsilon < v < 1 - epsilon)) x.

Lemma prepared_inside (epsilon : R) (x : matrix) :
  strictly_inside epsilon x ->
  prepared epsilon x = map (map logit) x.
Proof.
  intros Hin. unfold prepared, mask_assign. rewrite !map_map.
  apply map_ext_in. intros r Hr. rewrite !map_map.
  apply map_ext_in. intros v Hv.
  unfold strictly_inside in Hin. rewrite Forall_forall in Hin.
  specialize (Hin r Hr). rewrite Forall_forall in Hin.
  destruct (Hin v Hv) as [Hlo Hhi].
  rewrite (Rltb_false (a:=v) (b:=epsilon)) by lra.
  unfold Rgtb. rewrite (Rltb_false (a:=1 - epsilon) (b:=v)) by lra.
  reflexivity.
Qed.

(** C9: when every entry of [x] lies strictly inside both clipping
    intervals, the score computed with [eps1] equals the score computed
    with [eps2]. *)
Theorem score_epsilon_invariant (x z : matrix) (p eps1 eps2 : R) :
  0 < eps1 < / 2 ->
  0 < eps2 < / 2 ->
  strictly_inside eps1 x ->
  strictly_inside eps2 x ->
  _approx_keras_binary_cross_entropy x z p eps1
  = _approx_keras_binary_cross_entropy x z p eps2.
Proof.
  intros _ _ H1 H2.
  rewrite !score_unfold, !same_shape_prepared.
  rewrite (prepared_inside H1), (prepared_inside H2). reflexivity.
Qed.

Lemma score_epsilon_invariant_witness :
  _approx_keras_binary_cross_entropy [[/ 2; / 4]] [[1; 0]] 2 (/ 10)
  = _approx_keras_binary_cross_entropy [[/ 2; / 4]] [[1; 0]] 2 (/ 5).
Proof.
  apply score_epsilon_invariant; try lra;
    repeat constructor; lra.
Defined.

(* ===================================================================== *)
(** ** Reasoning about fallible computations *)
(* ===================================================================== *)

Lemma bind_Ok {A B : Type} (c : result A) (k : A -> result B) (b : B) :
  bind c k = Ok b -> exists a, c = Ok a /\ k a = Ok b.
Proof. destruct c as [a | e]; simpl; [eauto | discriminate]. Qed.

Tactic Notation "inv_bind" hyp(H) :=
  let a := fresh "a" in
  let Ha := fresh "Ha" in
  apply bind_Ok in H; destruct H as (a & Ha & H).

Tactic Notation "inv_bind" hyp(H) "as" ident(a) ident(Ha) :=
  apply bind_Ok in H; destruct H as (a & Ha & H).

Ltac inv_Ok H := injection H as H; subst.

(* ===================================================================== *)
(** ** Construction: [DataModel.__init__] *)
(* ===================================================================== *)

Section Construction.

Context {DEC : Decomposition}.

(** The training frame the constructor ends up with. *)
Definition train_source (fs : filesystem) (filename : option string)
    (df0 : option DataFrame) : result (option DataFrame) :=
  match filename with
  | None => Ok df0
  | Some f => bind (read_table f fs) (fun d => Ok (Some d))
  end.

Lemma init_test_file_inv fs filename df0 sel gm tf self :
  __init__ fs filename df0 sel gm (Some tf) None = Ok self ->
  exists d t,
    train_source fs filename df0 = Ok (Some d) /\
    read_table tf fs = Ok t /\
    df self = d /\ test_df self = Some t /\
    num_genes self = length (columns d) /\
    num_test_genes self = Some (length (columns t)) /\
    length (columns d) = length (columns t).
Proof.
  unfold __init__. fold (train_source fs filename df0).
  intros H. inv_bind H. inv_bind H. inv_bind H. inv_bind H.
  destruct a as [d |]; [| discriminate]. simpl in Ha2. inv_Ok Ha2.
  unfold shape in H. inv_bind H.
  destruct a as [self_test num_test].
  inv_bind Ha2. unfold shape in Ha2.
  destruct (Nat.eqb_spec (length (columns a2)) (length (columns a))) as [Heq | Hne];
    [| discriminate].
  inv_Ok Ha2. inv_Ok H. exists a2, a. simpl. intuition congruence.
Qed.

(** With a preloaded test frame the constructor stores it unchecked. *)
Lemma init_preloaded_test fs d sel_unused t :
  sel_unused = [] ->
  __init__ fs None (Some d) sel_unused None None (Some t)
  = Ok {| filename := None; df := d; gene_modules := None;
          num_samples := length (index d); num_genes := length (columns d);
          test_filename := None; test_df := Some t;
          num_test_samples := None; num_test_genes := None;
          transformation := None; transform_fit := None;
          transform_test_fit := None;
          pca_attrs := no_attrs; ica_attrs := no_attrs;
          nmf_attrs := no_attrs; plier_attrs := no_attrs |}.
Proof. intros ->. reflexivity. Qed.

(** C4, as the code has it: when the test set is given as a file name
    (and no preloaded frame), a construction that succeeds has loaded a test
    matrix with as many genes as the training matrix, and a test matrix
    with another number of genes makes the construction fail. The check
    compares the numbers of genes, not the gene identifiers. *)
Theorem init_test_file_same_gene_count
    (fs : filesystem) (filename : option string) (df0 : option DataFrame)
    (sel : list nat) (gm : option (list R)) (tf : string) :
  (forall self,
      __init__ fs filename df0 sel gm (Some tf) None = Ok self ->
      exists t, test_df self = Some t /\
                snd (shape (df self)) = snd (shape t)) /\
  (forall d t,
      train_source fs filename df0 = Ok (Some d) ->
      read_table tf fs = Ok t ->
      snd (shape d) <> snd (shape t) ->
      exists e, __init__ fs filename df0 sel gm (Some tf) None = Raise e).
Proof.
  split.
  - intros self H. apply init_test_file_inv in H.
    destruct H as (d & t & _ & _ & Hd & Ht & _ & _ & Hlen).
    exists t. subst d. auto.
  - intros d t Hd Ht Hne.
    destruct (__init__ fs filename df0 sel gm (Some tf) None) as [self | e] eqn:E;
      [| eauto].
    apply init_test_file_inv in E.
    destruct E as (d' & t' & Hd' & Ht' & _ & _ & _ & _ & Hlen).
    rewrite Hd in Hd'. rewrite Ht in Ht'. inv_Ok Hd'. inv_Ok Ht'.
    contradiction.
Qed.

End Construction.

Module InitExamples.

Definition train_a : DataFrame :=
  mkDataFrame ["s1"; "s2"]%string ["geneA"; "geneB"]%string [[0; 1]; [2; 3]].
Definition test_same : DataFrame :=
  mkDataFrame ["t1"]%string ["geneA"; "geneB"]%string [[4; 5]].
Definition test_other_genes : DataFrame :=
  mkDataFrame ["t1"]%string ["geneX"; "geneY"]%string [[4; 5]].
Definition test_three_genes : DataFrame :=
  mkDataFrame ["t1"]%string ["geneA"; "geneB"; "geneC"]%string [[4; 5; 6]].

Definition disk : filesystem :=
  [("train.tsv", TableFile train_a); ("test.tsv", TableFile test_same);
   ("other.tsv", TableFile test_other_genes);
   ("three.tsv", TableFile test_three_genes)]%string.

End InitExamples.

Lemma init_test_file_same_gene_count_witness :
  (exists self,
      __init__ (DEC := StandIn.axes) InitExamples.disk (Some "train.tsv"%string)
        None [] None (Some "test.tsv"%string) None = Ok self /\
      exists t, test_df self = Some t /\ snd (shape (df self)) = snd (shape t)) /\
  (exists e,
      __init__ (DEC := StandIn.axes) InitExamples.disk (Some "train.tsv"%string)
        None [] None (Some "three.tsv"%string) None = Raise e).
Proof.
  split.
  - eexists. split; [reflexivity |].
    apply (proj1 (init_test_file_same_gene_count (DEC := StandIn.axes)
                    InitExamples.disk (Some "train.tsv"%string) None [] None
                    "test.tsv"%string)).
    reflexivity.
  - apply (proj2 (init_test_file_same_gene_count (DEC := StandIn.axes)
                    InitExamples.disk (Some "train.tsv"%string) None [] None
                    "three.tsv"%string)
             InitExamples.train_a InitExamples.test_three_genes);
      [reflexivity | reflexivity | simpl; lia].
Defined.

(** C4 as stated fails at both entry points: a test file whose genes are
    other genes (in equal number) is accepted, and a preloaded test frame
    is accepted whatever its genes are, even in another number. *)
Lemma init_accepts_other_gene_ids :
  (exists self,
      __init__ (DEC := StandIn.axes) InitExamples.disk (Some "train.tsv"%string)
        None [] None (Some "other.tsv"%string) None = Ok self /\
      test_df self = Some InitExamples.test_other_genes /\
      columns (df self) = ["geneA"; "geneB"]%string /\
      columns InitExamples.test_other_genes = ["geneX"; "geneY"]%string) /\
  (exists self,
      __init__ (DEC := StandIn.axes) [] None (Some InitExamples.train_a) []
        None None (Some InitExamples.test_three_genes) = Ok self /\
      test_df self = Some InitExamples.test_three_genes /\
      shape (df self) = (2, 2)%nat /\
      shape InitExamples.test_three_genes = (1, 3)%nat).
Proof.
  split; eexists; (split; [reflexivity |]); repeat split.
Qed.

(* ===================================================================== *)
(** ** Normalization: [DataModel.transform] *)
(* ===================================================================== *)

Section Normalizer.

Context {DEC : Decomposition}.

(** The object with another test frame. *)
Definition set_test_df (self : DataModel) (t : option DataFrame) : DataModel :=
  {| filename := filename self;
     df := df self;
     gene_modules := gene_modules self;
     num_samples := num_samples self;
     num_genes := num_genes self;
     test_filename := test_filename self;
     test_df := t;
     num_test_samples := num_test_samples self;
     num_test_genes := num_test_genes self;
     transformation := transformation self;
     transform_fit := transform_fit self;
     transform_test_fit := transform_test_fit self;
     pca_attrs := pca_attrs self;
     ica_attrs := ica_attrs self;
     nmf_attrs := nmf_attrs self;
     plier_attrs := plier_attrs self |}.

Lemma pd_DataFrame_Ok data idx cols d :
  pd_DataFrame data idx cols = Ok d ->
  d = mkDataFrame idx cols data /\ has_shape (length idx) (length cols) data = true.
Proof.
  unfold pd_DataFrame. destruct (has_shape _ _ _); [| discriminate].
  intros H. inv_Ok H. auto.
Qed.

Lemma transform_inv (self self' : DataModel) (how : string) :
  transform self how = Ok self' ->
  exists fit train_values,
    fit_scaler how (df self) = Ok fit /\
    Scaler_transform fit (df self) = Ok train_values /\
    transform_fit self' = Some fit /\
    df self' = mkDataFrame (index (df self)) (columns (df self)) train_values /\
    match test_df self with
    | None => test_df self' = None
    | Some t =>
        exists test_fit test_values,
          fit_scaler how t = Ok test_fit /\
          Scaler_transform test_fit t = Ok test_values /\
          transform_test_fit self' = Some test_fit /\
          test_df self' = Some (mkDataFrame (index t) (columns t) test_values)
    end.
Proof.
  unfold transform. intros H.
  inv_bind H. inv_bind H. inv_bind H. inv_bind H.
  destruct a2 as [test_fit new_test]. inv_Ok H.
  apply pd_DataFrame_Ok in Ha1. destruct Ha1 as [-> _].
  exists a, a0. cbn [transform_fit df test_df transform_test_fit].
  repeat split; auto.
  destruct (test_df self) as [t |].
  - inv_bind Ha2. inv_bind Ha2. inv_bind Ha2. inv_Ok Ha2.
    apply pd_DataFrame_Ok in Ha4. destruct Ha4 as [-> _].
    exists a1, a2. auto.
  - inv_Ok Ha2. reflexivity.
Qed.

(** C1, as the code has it: the parameters stored in [transform_fit], and
    the normalized training matrix, are a function of the training matrix
    and the method alone (any two test matrices give the same ones); the
    test matrix is normalized with parameters that [transform] fits on the
    test matrix itself and stores in [transform_test_fit]. *)
Theorem transform_fit_from_train_test_refit
    (self self1 self2 : DataModel) (how : string) (test1 test2 : DataFrame) :
  transform (set_test_df self (Some test1)) how = Ok self1 ->
  transform (set_test_df self (Some test2)) how = Ok self2 ->
  (exists fit, fit_scaler how (df self) = Ok fit /\
               transform_fit self1 = Some fit /\
               transform_fit self2 = Some fit) /\
  df self1 = df self2 /\
  (exists test_fit test_values,
      fit_scaler how test1 = Ok test_fit /\
      transform_test_fit self1 = Some test_fit /\
      Scaler_transform test_fit test1 = Ok test_values /\
      option_map values (test_df self1) = Some test_values).
Proof.
  intros H1 H2.
  apply transform_inv in H1. apply transform_inv in H2.
  cbn [set_test_df df test_df] in H1, H2.
  destruct H1 as (fit1 & v1 & Hf1 & Hv1 & Htf1 & Hdf1 & tf1 & tv1 & Ht1 & Htv1 & Hs1 & Hd1).
  destruct H2 as (fit2 & v2 & Hf2 & Hv2 & Htf2 & Hdf2 & _).
  rewrite Hf1 in Hf2. inv_Ok Hf2. rewrite Hv1 in Hv2. inv_Ok Hv2.
  split; [exists fit2; auto |].
  split; [congruence |].
  exists tf1, tv1. rewrite Hd1. auto.
Qed.

End Normalizer.

Lemma np_min_pair (a b : R) : a <= b -> np_min [a; b] = a.
Proof.
  intros H. unfold np_min. cbn [fold_right hd].
  rewrite (Rmin_right b a) by lra. apply Rmin_left; lra.
Qed.

Lemma np_max_pair (a b : R) : a <= b -> np_max [a; b] = b.
Proof.
  intros H. unfold np_max. cbn [fold_right hd].
  rewrite (Rmax_left b a) by lra. apply Rmax_right; lra.
Qed.

Lemma handle_zeros_nonzero (s : R) : s <> 0 -> handle_zeros_in_scale s = s.
Proof.
  intros H. unfold handle_zeros_in_scale.
  destruct (Req_dec_T s 0); [contradiction | reflexivity].
Qed.

Module NormalizerExamples.

Definition train : DataFrame :=
  mkDataFrame ["s1"; "s2"]%string ["gene"]%string [[0]; [2]].
Definition test : DataFrame :=
  mkDataFrame ["t1"; "t2"]%string ["gene"]%string [[1]; [3]].
Definition other_test : DataFrame :=
  mkDataFrame ["u1"; "u2"]%string ["gene"]%string [[5]; [9]].

Definition model (t : DataFrame) : DataModel (DEC := StandIn.axes) :=
  {| filename := None; df := train; gene_modules := None;
     num_samples := 2; num_genes := 1;
     test_filename := None; test_df := Some t;
     num_test_samples := None; num_test_genes := None;
     transformation := None; transform_fit := None;
     transform_test_fit := None;
     pca_attrs := no_attrs; ica_attrs := no_attrs;
     nmf_attrs := no_attrs; plier_attrs := no_attrs |}.

End NormalizerExamples.

Lemma transform_fit_from_train_test_refit_witness :
  exists self1 self2,
    transform (NormalizerExamples.model NormalizerExamples.test) "zeroone" = Ok self1 /\
    transform (NormalizerExamples.model NormalizerExamples.other_test) "zeroone" = Ok self2 /\
    transform_fit self1 = transform_fit self2 /\
    df self1 = df self2.
Proof.
  eexists. eexists.
  split; [reflexivity |]. split; [reflexivity |].
  match goal with
  | |- transform_fit ?a = transform_fit ?b /\ _ =>
      destruct (@transform_fit_from_train_test_refit StandIn.axes
                  (NormalizerExamples.model NormalizerExamples.test) a b
                  "zeroone"%string
                  NormalizerExamples.test NormalizerExamples.other_test
                  eq_refl eq_refl)
        as ((fit & _ & H1 & H2) & Hdf & _)
  end.
  split; [congruence | exact Hdf].
Defined.

(** C1 as stated fails on its second half: for the training column
    (0, 2) and the test column (1, 3) under min-max scaling, the test matrix
    that [transform] stores is not the test matrix scaled with the
    parameters in [transform_fit] (the train-fitted ones map 3 to 3/2, the
    stored value is 1). *)
Lemma transform_test_not_scaled_by_train_fit :
  exists self fit by_train_fit,
    transform (NormalizerExamples.model NormalizerExamples.test) "zeroone"
    = Ok self /\
    transform_fit self = Some fit /\
    Scaler_transform fit NormalizerExamples.test = Ok by_train_fit /\
    option_map values (test_df self) <> Some by_train_fit.
Proof.
  eexists. eexists. eexists.
  split; [reflexivity |]. split; [reflexivity |]. split; [reflexivity |].
  cbn [option_map values test_df]. intros H. injection H as _ H.
  rewrite !np_min_pair, !np_max_pair in H by lra.
  rewrite !handle_zeros_nonzero in H by lra.
  lra.
Qed.

(* ===================================================================== *)
(** ** The negative control: [shuffle_train_genes] *)
(* ===================================================================== *)

Section Shuffle.

Context {RNG : RandomState}.

Lemma set_item_head {A : Type} (v x : A) (t : list A) :
  set_item 0 v (x :: t) = v :: t.
Proof. reflexivity. Qed.

Lemma set_item_tail {A : Type} (i : nat) (v x : A) (t : list A) :
  set_item (S i) v (x :: t) = x :: set_item i v t.
Proof. reflexivity. Qed.

(** Overwriting position [j], which held [b], with [a]: up to order this
    trades one [b] for one [a]. *)
Lemma set_item_trade {A : Type} (t : list A) (j : nat) (a b : A) :
  nth_error t j = Some b ->
  Permutation (b :: set_item j a t) (a :: t).
Proof.
  revert j. induction t as [| x t IH]; intros [| j] H; simpl in H;
    try discriminate.
  - injection H as ->. rewrite set_item_head. apply perm_swap.
  - rewrite set_item_tail.
    apply perm_trans with (x :: b :: set_item j a t); [apply perm_swap |].
    apply perm_trans with (x :: a :: t); [| apply perm_swap].
    apply perm_skip. now apply IH.
Qed.

Lemma swap_Permutation {A : Type} (l : list A) (i j : nat) :
  Permutation (swap i j l) l.
Proof.
  unfold swap.
  destruct (nth_error l i) as [a |] eqn:Hi; [| reflexivity].
  destruct (nth_error l j) as [b |] eqn:Hj; [| reflexivity].
  revert i j Hi Hj.
  induction l as [| x t IH]; intros [| i] [| j] Hi Hj; simpl in Hi, Hj;
    try discriminate.
  - injection Hi as ->. injection Hj as ->. reflexivity.
  - injection Hi as ->. rewrite set_item_head, set_item_tail.
    now apply set_item_trade.
  - injection Hj as ->. rewrite set_item_tail, set_item_head.
    now apply set_item_trade.
  - rewrite !set_item_tail. apply perm_skip. now apply IH.
Qed.

Lemma shuffle_from_Permutation {A : Type} (i : nat) (x : list A) (s : rng_state) :
  Permutation (fst (shuffle_from i x s)) x.
Proof.
  revert x s. induction i as [| i IH]; intros x s.
  - reflexivity.
  - cbn [shuffle_from].
    destruct (rk_interval (Z.of_nat (S i)) s) as [j s'].
    eapply perm_trans; [apply IH | apply swap_Permutation].
Qed.

Lemma np_random_permutation_Permutation {A : Type} (x : list A) (s : rng_state) :
  Permutation (fst (np_random_permutation x s)) x.
Proof. apply shuffle_from_Permutation. Qed.

Lemma permute_rows_Forall2 (rows : matrix) (s : rng_state) :
  Forall2 (@Permutation R) rows (fst (permute_rows rows s)).
Proof.
  revert s. induction rows as [| r t IH]; intros s; cbn [permute_rows].
  - constructor.
  - pose proof (np_random_permutation_Permutation r s) as Hr.
    destruct (np_random_permutation r s) as [r' s1]. cbn [fst] in Hr.
    specialize (IH s1). destruct (permute_rows t s1) as [t' s2].
    cbn [fst] in *. constructor; [now apply Permutation_sym | exact IH].
Qed.

Lemma has_shape_Forall2 (n m : nat) (x y : matrix) :
  Forall2 (@Permutation R) x y ->
  has_shape n m x = true -> has_shape n m y = true.
Proof.
  intros HF. unfold has_shape. rewrite !andb_true_iff.
  intros [Hlen Hrows]. split.
  - rewrite <- (Forall2_length HF). exact Hlen.
  - clear Hlen. induction HF as [| r r' x' y' Hp HF IH]; [reflexivity |].
    cbn [forallb] in *. apply andb_true_iff in Hrows.
    destruct Hrows as [Hr Hrest]. apply andb_true_iff. split; [| now apply IH].
    now rewrite <- (Permutation_length Hp).
Qed.

Lemma Rsum_Permutation (l l' : list R) :
  Permutation l l' -> Rsum l = Rsum l'.
Proof.
  induction 1 as [| x l l' _ IH | x y l | l l' l'' _ IH1 _ IH2];
    unfold Rsum in *; cbn [fold_right]; try lra.
Qed.

(** The values of a frame have the shape its labels announce. *)
Definition well_formed (d : DataFrame) : Prop :=
  has_shape (length (index d)) (length (columns d)) (values d) = true.

(** C10: on the training frame of the script, [shuffle_train_genes]
    returns a frame with the same row index, the same column labels and
    the same shape, in which every row is a permutation of the
    corresponding input row; the sum of every row is therefore unchanged. *)
Theorem shuffle_train_genes_permutes_rows
    (rnaseq_train_df : DataFrame) (s : rng_state) :
  well_formed rnaseq_train_df ->
  exists shuf_df s',
    shuffle_train_genes rnaseq_train_df rnaseq_train_df s = Ok (shuf_df, s') /\
    index shuf_df = index rnaseq_train_df /\
    columns shuf_df = columns rnaseq_train_df /\
    shape shuf_df = shape rnaseq_train_df /\
    well_formed shuf_df /\
    Forall2 (@Permutation R) (values rnaseq_train_df) (values shuf_df) /\
    Forall2 (fun r r' => Rsum r = Rsum r')
      (values rnaseq_train_df) (values shuf_df).
Proof.
  intros Hwf. unfold shuffle_train_genes.
  pose proof (permute_rows_Forall2 (values rnaseq_train_df) s) as HF.
  destruct (permute_rows (values rnaseq_train_df) s) as [gene_list s'].
  cbn [fst] in HF.
  pose proof (has_shape_Forall2 _ _ HF Hwf) as Hshape.
  unfold pd_DataFrame. rewrite Hshape. cbn [bind].
  eexists. eexists. split; [reflexivity |].
  cbn [index columns values]. unfold shape, well_formed.
  cbn [index columns values].
  repeat split; auto.
  clear Hshape Hwf. induction HF; constructor; auto using Rsum_Permutation.
Qed.

End Shuffle.

Module ShuffleExamples.

Definition train : DataFrame :=
  mkDataFrame ["s1"; "s2"]%string ["g1"; "g2"; "g3"]%string
    [[1; 2; 3]; [4; 5; 6]].

End ShuffleExamples.

Lemma shuffle_train_genes_permutes_rows_witness :
  exists shuf_df s',
    shuffle_train_genes (RNG := StandIn.rng) ShuffleExamples.train
      ShuffleExamples.train (np_random_seed (RandomState := StandIn.rng) 7)
    = Ok (shuf_df, s') /\
    index shuf_df = index ShuffleExamples.train /\
    columns shuf_df = columns ShuffleExamples.train /\
    shape shuf_df = shape ShuffleExamples.train /\
    well_formed shuf_df /\
    Forall2 (@Permutation R) (values ShuffleExamples.train) (values shuf_df) /\
    Forall2 (fun r r' => Rsum r = Rsum r')
      (values ShuffleExamples.train) (values shuf_df).
Proof.
  apply (shuffle_train_genes_permutes_rows (RNG := StandIn.rng)).
  reflexivity.
Defined.

(** On this input the stand-in generator really moves entries. *)
Example shuffle_train_genes_run :
  shuffle_train_genes (RNG := StandIn.rng) ShuffleExamples.train
    ShuffleExamples.train (np_random_seed (RandomState := StandIn.rng) 7)
  = Ok (mkDataFrame ["s1"; "s2"]%string ["g1"; "g2"; "g3"]%string
          [[3; 2; 1]; [4; 6; 5]], 1486001571%Z).
Proof. vm_compute. reflexivity. Qed.
(* ===================================================================== *)
(** ** Means and standard deviations *)
(* ===================================================================== *)

Lemma Rsum_nonneg (l : list R) : Forall (fun v => 0 <= v) l -> 0 <= Rsum l.
Proof.
  induction 1 as [| v l Hv _ IH]; unfold Rsum in *; cbn [fold_right]; lra.
Qed.

Lemma np_mean_nonneg (l : list R) : Forall (fun v => 0 <= v) l -> 0 <= np_mean l.
Proof.
  intros H. unfold np_mean. apply Rsum_nonneg in H.
  destruct l as [| v l].
  - unfold Rsum. cbn [fold_right]. unfold Rdiv. lra.
  - apply Rmult_le_pos; [exact H |].
    apply Rlt_le, Rinv_0_lt_compat, lt_0_INR. cbn [length]. lia.
Qed.

Lemma np_var_nonneg (l : list R) : 0 <= np_var l.
Proof.
  unfold np_var. apply np_mean_nonneg. apply Forall_forall.
  intros v Hv. apply in_map_iff in Hv. destruct Hv as (w & <- & _).
  apply Rle_0_sqr.
Qed.

(** The variance is the square of the standard deviation ([ddof=0]: the
    mean of the squared deviations from the mean). *)
Lemma np_std_sqr (l : list R) :
  np_std l * np_std l
  = np_mean (map (fun v => (v - np_mean l) * (v - np_mean l)) l).
Proof.
  unfold np_std. rewrite sqrt_sqrt by apply np_var_nonneg. reflexivity.
Qed.

Lemma Rsum_deviations (mu sd : R) (l : list R) :
  Rsum (map (fun v => (v - mu) / sd) l)
  = (Rsum l - INR (length l) * mu) / sd.
Proof.
  induction l as [| v l IH].
  - unfold Rsum. cbn [map fold_right length INR]. unfold Rdiv. ring.
  - change (Rsum (map (fun v => (v - mu) / sd) (v :: l)))
      with ((v - mu) / sd + Rsum (map (fun v => (v - mu) / sd) l)).
    change (Rsum (v :: l)) with (v + Rsum l).
    rewrite IH. change (length (v :: l)) with (S (length l)).
    rewrite S_INR. unfold Rdiv. ring.
Qed.

Lemma Rsum_squared_quotients (mu sd : R) (l : list R) :
  Rsum (map (fun v => ((v - mu) / sd - 0) * ((v - mu) / sd - 0)) l)
  = Rsum (map (fun v => (v - mu) * (v - mu)) l) * (/ sd * / sd).
Proof.
  induction l as [| v l IH].
  - unfold Rsum. cbn [map fold_right]. ring.
  - change (Rsum (map (fun v => ((v - mu) / sd - 0) * ((v - mu) / sd - 0))
                      (v :: l)))
      with (((v - mu) / sd - 0) * ((v - mu) / sd - 0)
            + Rsum (map (fun v => ((v - mu) / sd - 0) * ((v - mu) / sd - 0)) l)).
    change (Rsum (map (fun v => (v - mu) * (v - mu)) (v :: l)))
      with ((v - mu) * (v - mu) + Rsum (map (fun v => (v - mu) * (v - mu)) l)).
    rewrite IH. unfold Rdiv. ring.
Qed.

(** A standardized array has mean 0 and standard deviation 1. *)
Lemma zscore_mean (l : list R) :
  l <> [] -> np_std l <> 0 -> np_mean (zscore l) = 0.
Proof.
  intros Hl Hsd. unfold zscore, np_mean at 1.
  rewrite Rsum_deviations, length_map.
  assert (Hn : INR (length l) <> 0).
  { apply not_0_INR. destruct l; [contradiction | discriminate]. }
  unfold np_mean. field. auto.
Qed.

Lemma zscore_std (l : list R) :
  l <> [] -> np_std l <> 0 -> np_std (zscore l) = 1.
Proof.
  intros Hl Hsd. unfold np_std at 1, np_var.
  rewrite (@zscore_mean l Hl Hsd). unfold zscore at 1.
  rewrite map_map. unfold np_mean at 1.
  rewrite Rsum_squared_quotients, length_map.
  assert (Hn : INR (length l) <> 0).
  { apply not_0_INR. destruct l; [contradiction | discriminate]. }
  pose proof (np_std_sqr l) as Hsq. unfold np_mean at 1 in Hsq.
  rewrite length_map in Hsq.
  replace (Rsum (map (fun v => (v - np_mean l) * (v - np_mean l)) l))
    with (np_std l * np_std l * INR (length l))
    by (rewrite Hsq; field; exact Hn).
  replace (np_std l * np_std l * INR (length l) * (/ np_std l * / np_std l)
           / INR (length l)) with 1 by (field; auto).
  apply sqrt_1.
Qed.

Lemma zscore_is_nan_false (l : list R) :
  zscore_is_nan l = false -> l <> [] -> np_std l <> 0.
Proof.
  unfold zscore_is_nan. destruct l as [| v l]; [intros _ H; now contradiction H |].
  destruct (Req_dec_T (np_std (v :: l)) 0); [discriminate | auto].
Qed.


(* ===================================================================== *)
(** ** Shapes of transposes, selections and per-column maps *)
(* ===================================================================== *)

Lemma transpose_rows (m : nat) (x : matrix) :
  Forall (fun r => length r = length x) (transpose m x).
Proof.
  apply Forall_forall. intros r Hr. unfold transpose in Hr.
  apply in_map_iff in Hr. destruct Hr as [j [<- _]].
  unfold column. apply length_map.
Qed.

Lemma has_shape_rect (n m : nat) (x : matrix) :
  has_shape n m x = true <-> rect n m x.
Proof.
  unfold has_shape, rect. rewrite andb_true_iff, Nat.eqb_eq, forallb_forall.
  rewrite Forall_forall. split; intros [H1 H2]; split; auto; intros r Hr.
  - now apply Nat.eqb_eq, H2.
  - now apply Nat.eqb_eq, H2.
Qed.

(** The values of [df.T]: one row per column of [df], as long as [df] has
    rows. *)
Lemma values_T (d : DataFrame) :
  rect (length (columns d)) (length (values d)) (values (T d)).
Proof.
  cbn [T values]. split; [apply length_transpose | apply transpose_rows].
Qed.

Lemma nth_map_seq (n : nat) (l : list R) :
  length l = n -> map (fun i => nth i l 0) (seq 0 n) = l.
Proof.
  intros <-. apply (nth_ext _ _ 0 0).
  - now rewrite length_map, length_seq.
  - intros i Hi. rewrite length_map, length_seq in Hi.
    rewrite (nth_indep _ 0 (nth 0%nat l 0))
      by now rewrite length_map, length_seq.
    rewrite (map_nth (fun i => nth i l 0)). now rewrite seq_nth.
Qed.

Lemma nth_transpose (m : nat) (x : matrix) (j : nat) :
  (j < m)%nat -> nth j (transpose m x) [] = column j x.
Proof.
  intros Hj. unfold transpose.
  rewrite (nth_indep _ [] (column 0 x)) by now rewrite length_map, length_seq.
  rewrite (map_nth (fun j => column j x)). now rewrite seq_nth.
Qed.

(** Column [j] of a transpose is row [j]. *)
Lemma column_transpose (n : nat) (x : matrix) (j : nat) :
  (j < length x)%nat -> length (nth j x []) = n ->
  column j (transpose n x) = nth j x [].
Proof.
  intros Hj Hlen. unfold transpose, column at 1. rewrite map_map.
  transitivity (map (fun i => nth i (nth j x []) 0) (seq 0 n));
    [| now apply nth_map_seq].
  apply map_ext. intros i. unfold column.
  rewrite (nth_indep _ 0 ((fun r : list R => nth i r 0) []))
    by now rewrite length_map.
  now rewrite (map_nth (fun r : list R => nth i r 0)).
Qed.

(** [df.apply(f)] works column by column, when [f] keeps the length of
    its argument and the frame has as many rows as row labels. *)
Lemma apply_columns_column (f : list R -> list R) (d : DataFrame) (j : nat) :
  (forall c, length (f c) = length c) ->
  length (values d) = length (index d) ->
  (j < length (columns d))%nat ->
  column j (values (apply_columns f d)) = f (column j (values d)).
Proof.
  intros Hf Hrows Hj. unfold apply_columns. cbn [values].
  assert (Hnth : nth j (map f (transpose (length (columns d)) (values d))) []
                 = f (column j (values d))).
  { rewrite (nth_indep _ [] (f []))
      by now rewrite length_map, length_transpose.
    rewrite (map_nth f). now rewrite nth_transpose. }
  rewrite column_transpose.
  - exact Hnth.
  - now rewrite length_map, length_transpose.
  - rewrite Hnth, Hf. unfold column. now rewrite length_map.
Qed.

Lemma positions_length (wanted l : list string) (js : list nat) :
  positions wanted l = Ok js -> length js = length wanted.
Proof.
  revert js. induction wanted as [| w ws IH]; intros js H; simpl in H.
  - inv_Ok H. reflexivity.
  - destruct (position w l); [| discriminate].
    inv_bind H. inv_Ok H. simpl. f_equal. now apply IH.
Qed.

Lemma position_In (s : string) (l : list string) (j : nat) :
  position s l = Some j -> In s l.
Proof.
  revert j. induction l as [| h t IH]; intros j H; simpl in H; [discriminate |].
  destruct (String.eqb_spec s h) as [-> | _]; [now left |].
  destruct (position s t) as [j' |]; [| discriminate]. right. eauto.
Qed.

Lemma positions_incl (wanted l : list string) (js : list nat) :
  positions wanted l = Ok js -> incl wanted l.
Proof.
  revert js. induction wanted as [| w ws IH]; intros js H; simpl in H.
  - intros x [].
  - destruct (position w l) as [j |] eqn:Hp; [| discriminate].
    inv_bind H. intros x [<- | Hx]; [eapply position_In; eauto |].
    eapply IH; eauto.
Qed.

(** [df[labels]] keeps the rows and has exactly the requested columns,
    each of which is a column of [df]. *)
Lemma getitem_Ok (d X : DataFrame) (labels : list string) :
  getitem d labels = Ok X ->
  index X = index d /\ columns X = labels /\ incl labels (columns d) /\
  length (values X) = length (values d) /\
  Forall (fun r => length r = length labels) (values X).
Proof.
  unfold getitem. intros H. inv_bind H. inv_Ok H. cbn [index columns values].
  repeat split; auto.
  - eapply positions_incl; eauto.
  - apply length_map.
  - apply Forall_forall. intros r Hr. apply in_map_iff in Hr.
    destruct Hr as [r0 [<- _]]. rewrite length_map.
    eapply positions_length; eauto.
Qed.

Lemma getitem_nil (d : DataFrame) :
  getitem d [] = Ok (mkDataFrame (index d) [] (map (fun _ => []) (values d))).
Proof. reflexivity. Qed.

(* ===================================================================== *)
(** ** The scikit-learn methods: [pca], [ica], [nmf] *)
(* ===================================================================== *)

Section SklearnMethods.

Context {DEC : Decomposition}.

Lemma length_colnames (prefix : string) (k : nat) :
  length (colnames prefix k) = k.
Proof. unfold colnames. now rewrite length_map, length_seq. Qed.

(** What a successful call of the common body has assigned. *)
Lemma sklearn_method_Ok (self : DataModel) (old a : method_attrs)
    (est : estimator) (prefix : string) (k : nat) (tdf ttdf : bool)
    (out : option matrix) :
  sklearn_method self old est prefix k tdf ttdf = Ok (a, out) ->
  exists fit embedding,
    fit_transform est (df self) = Ok (fit, embedding) /\
    attr_fit a = Some fit /\
    attr_df a = Some (mkDataFrame (index (df self)) (colnames prefix k) embedding) /\
    attr_weights a
    = Some (mkDataFrame (colnames prefix k) (columns (df self)) (components_ fit)) /\
    rect k (length (columns (df self))) (components_ fit) /\
    rect (length (index (df self))) k embedding.
Proof.
  unfold sklearn_method. intros H. inv_bind H as fe Hfit.
  destruct fe as [fit embedding].
  inv_bind H as mdf Ha1. inv_bind H as mw Ha2.
  apply pd_DataFrame_Ok in Ha1, Ha2.
  destruct Ha1 as [-> Hs1]. destruct Ha2 as [-> Hs2].
  apply has_shape_rect in Hs1, Hs2. rewrite length_colnames in Hs1, Hs2.
  exists fit, embedding.
  assert (Hattrs : forall test,
    let a' := {| attr_fit := Some fit;
                 attr_df := Some (mkDataFrame (index (df self)) (colnames prefix k) embedding);
                 attr_weights := Some (mkDataFrame (colnames prefix k) (columns (df self)) (components_ fit));
                 attr_test_df := test |} in
    a = a' ->
    fit_transform est (df self) = Ok (fit, embedding) /\
    attr_fit a = Some fit /\
    attr_df a = Some (mkDataFrame (index (df self)) (colnames prefix k) embedding) /\
    attr_weights a
    = Some (mkDataFrame (colnames prefix k) (columns (df self)) (components_ fit)) /\
    rect k (length (columns (df self))) (components_ fit) /\
    rect (length (index (df self))) k embedding).
  { intros test a' ->. subst a'. cbn. auto 10. }
  destruct tdf.
  - inv_bind H as o Ho. inv_Ok H. eapply Hattrs; reflexivity.
  - destruct ttdf.
    + destruct (test_df self); [| discriminate].
      inv_bind H as o Ho. inv_Ok H. eapply Hattrs; reflexivity.
    + inv_Ok H. eapply Hattrs; reflexivity.
Qed.

Definition weights_have_shape (w : option DataFrame) (k n_genes : nat) : Prop :=
  exists d, w = Some d /\ shape d = (k, n_genes) /\ well_formed d.

Lemma sklearn_method_weights_shape (self : DataModel) (old a : method_attrs)
    (est : estimator) (prefix : string) (k : nat) (tdf ttdf : bool)
    (out : option matrix) :
  sklearn_method self old est prefix k tdf ttdf = Ok (a, out) ->
  weights_have_shape (attr_weights a) k (length (columns (df self))).
Proof.
  intros H. apply sklearn_method_Ok in H.
  destruct H as (fit & emb & _ & _ & _ & Hw & Hrect & _).
  eexists. split; [exact Hw |]. unfold shape, well_formed.
  cbn [index columns values]. rewrite length_colnames.
  split; [reflexivity |]. now apply has_shape_rect.
Qed.

Lemma pca_weights_shape self k tdf ttdf self' out :
  pca self k tdf ttdf = Ok (self', out) ->
  weights_have_shape (pca_weights self') k (length (columns (df self))).
Proof.
  unfold pca. intros H. inv_bind H as ao Hm. destruct ao as [a o]. inv_Ok H.
  eapply sklearn_method_weights_shape; eauto.
Qed.

Lemma ica_weights_shape self k tdf ttdf seed self' out :
  ica self k tdf ttdf seed = Ok (self', out) ->
  weights_have_shape (ica_weights self') k (length (columns (df self))).
Proof.
  unfold ica. intros H. inv_bind H as ao Hm. destruct ao as [a o]. inv_Ok H.
  eapply sklearn_method_weights_shape; eauto.
Qed.

Lemma nmf_weights_shape self k tdf ttdf seed init tol self' out :
  nmf self k tdf ttdf seed init tol = Ok (self', out) ->
  weights_have_shape (nmf_weights self') k (length (columns (df self))).
Proof.
  unfold nmf. intros H. inv_bind H as ao Hm. destruct ao as [a o]. inv_Ok H.
  eapply sklearn_method_weights_shape; eauto.
Qed.

End SklearnMethods.

(* ===================================================================== *)
(** ** The pathway-regularized method: [plier] *)
(* ===================================================================== *)

Section Plier.

Context {DEC : Decomposition} {RR : RidgeSolver} {OS : OperatingSystem}.
Variable cfg : config.

Local Open Scope py_scope.

(** The first block of [plier]: the files after the factorization has run,
    or the files as they are when its outputs are cached. *)
Definition plier_outputs (self : DataModel) (fs : filesystem) (k : nat)
    (pathways_file : string) (shuffled : bool) (seed : Z)
    (verbose skip_cache : bool) : result filesystem :=
  let output_prefix := plier_output_prefix cfg k seed shuffled in
  if skip_cache || (negb (exists_ (output_prefix ++ "_z.tsv")%string fs)
                    || negb (exists_ (output_prefix ++ "_b.tsv")%string fs))
  then
    let expression_filename := NamedTemporaryFile fs in
    let fs := write expression_filename (TableFile (df self)) fs in
    fs <- check_call (plier_args cfg expression_filename k seed
                        pathways_file output_prefix verbose) fs ;;
    remove_file expression_filename fs
  else Ok fs.

(** The attributes [plier] assigns. *)
Definition plier_assigned (self : DataModel) (b z : DataFrame)
    (test : option matrix) : DataModel :=
  set_plier self
    {| attr_fit := attr_fit (plier_attrs self);
       attr_df := Some (T b);
       attr_weights := Some (T z);
       attr_test_df := test |}.

(** [plier] without removal of the outputs ([skip_cache=False]), once the
    three outputs are read. *)
Lemma plier_cached_eq (self : DataModel) (fs fs1 : filesystem) (k : nat)
    (pw : string) (tdf ttdf sh : bool) (seed : Z) (vb : bool)
    (b z : DataFrame) (l2 : R) :
  let prefix := plier_output_prefix cfg k seed sh in
  plier_outputs self fs k pw sh seed vb false = Ok fs1 ->
  read_table (prefix ++ "_b.tsv")%string fs1 = Ok b ->
  read_table (prefix ++ "_z.tsv")%string fs1 = Ok z ->
  loadtxt (prefix ++ "_l2.tsv")%string fs1 = Ok l2 ->
  plier cfg self fs k pw tdf ttdf sh seed vb false
  = (X <- match test_df self with
          | None => Raise TypeError
          | Some t => getitem t (index z)
          end ;;
     if tdf then
       Ok (fs1, plier_assigned self b z (plier_test_df self), Some (T b))
     else if ttdf then
       emb <- _plier_on_test_data X (T z) l2 ;;
       Ok (fs1, plier_assigned self b z (Some emb), None)
     else Ok (fs1, plier_assigned self b z (plier_test_df self), None)).
Proof.
  intros prefix Hout Hb Hz Hl2. unfold plier.
  fold prefix. unfold plier_outputs in Hout. fold prefix in Hout.
  cbv zeta in Hout. rewrite Hout. cbn [bind].
  rewrite Hb. cbn [bind]. rewrite Hz. cbn [bind]. rewrite Hl2. cbn [bind].
  reflexivity.
Qed.

(** What a successful call of [plier] has read and assigned. *)
Lemma plier_Ok (self self' : DataModel) (fs fs' : filesystem) (k : nat)
    (pw : string) (tdf ttdf sh : bool) (seed : Z) (vb sc : bool)
    (out : option DataFrame) :
  let prefix := plier_output_prefix cfg k seed sh in
  plier cfg self fs k pw tdf ttdf sh seed vb sc = Ok (fs', self', out) ->
  exists fs1 b z l2 t X,
    plier_outputs self fs k pw sh seed vb sc = Ok fs1 /\
    read_table (prefix ++ "_b.tsv")%string fs1 = Ok b /\
    read_table (prefix ++ "_z.tsv")%string fs1 = Ok z /\
    loadtxt (prefix ++ "_l2.tsv")%string fs1 = Ok l2 /\
    test_df self = Some t /\
    getitem t (index z) = Ok X /\
    exists test,
      self' = plier_assigned self b z test /\
      (if tdf then out = Some (T b) /\ test = plier_test_df self
       else if ttdf then
         out = None /\
         exists emb, _plier_on_test_data X (T z) l2 = Ok emb /\ test = Some emb
       else out = None /\ test = plier_test_df self).
Proof.
  intros prefix. unfold plier. fold prefix.
  fold (plier_outputs self fs k pw sh seed vb sc).
  intros H. inv_bind H as fs1 Hout. inv_bind H as b Hb. inv_bind H as z Hz.
  inv_bind H as l2 Hl2. inv_bind H as fs2 Hrm. inv_bind H as X HX.
  destruct (test_df self) as [t |] eqn:Ht; [| discriminate].
  exists fs1, b, z, l2, t, X. repeat (split; [assumption || reflexivity |]).
  destruct tdf.
  - inv_Ok H. eexists. split; [reflexivity | auto].
  - destruct ttdf.
    + inv_bind H as emb Hemb. inv_Ok H. eexists. split; [reflexivity |].
      split; [reflexivity |]. exists emb. auto.
    + inv_Ok H. eexists. split; [reflexivity | auto].
Qed.

End Plier.

Section Weights.

Context {DEC : Decomposition} {RR : RidgeSolver} {OS : OperatingSystem}.
Variable cfg : config.

(** C7, as the code has it: after a successful fit with target rank [k]
    on a training frame with [n_genes] columns, [pca_weights],
    [ica_weights] and [nmf_weights] have shape [(k, n_genes)]. The weights
    of the pathway-regularized method are the transpose of the solver's
    gene-by-component output, that is of the frame [z] read from the
    [_z.tsv] file as the files are once the solver has run (or as they
    were found, on a cache hit): one row per component of [z] and one
    column per gene of [z], each of which is a gene of the test frame;
    their shape is read off the solver's output, not off [(k, n_genes)]. *)
Theorem weights_rows_are_components (self : DataModel) (k : nat) :
  (forall tdf ttdf self' out,
      pca self k tdf ttdf = Ok (self', out) ->
      weights_have_shape (pca_weights self') k (length (columns (df self)))) /\
  (forall tdf ttdf seed self' out,
      ica self k tdf ttdf seed = Ok (self', out) ->
      weights_have_shape (ica_weights self') k (length (columns (df self)))) /\
  (forall tdf ttdf seed init tol self' out,
      nmf self k tdf ttdf seed init tol = Ok (self', out) ->
      weights_have_shape (nmf_weights self') k (length (columns (df self)))) /\
  (forall fs pw tdf ttdf sh seed vb sc fs' self' out,
      plier cfg self fs k pw tdf ttdf sh seed vb sc = Ok (fs', self', out) ->
      exists fs1 z t,
        plier_outputs cfg self fs k pw sh seed vb sc = Ok fs1 /\
        read_table (plier_output_prefix cfg k seed sh ++ "_z.tsv")%string fs1
        = Ok z /\
        plier_weights self' = Some (T z) /\
        index (T z) = columns z /\
        columns (T z) = index z /\
        shape (T z) = (length (columns z), length (index z)) /\
        rect (length (columns z)) (length (values z)) (values (T z)) /\
        test_df self = Some t /\
        incl (columns (T z)) (columns t)).
Proof.
  split; [| split; [| split]].
  - intros. eapply pca_weights_shape; eauto.
  - intros. eapply ica_weights_shape; eauto.
  - intros. eapply nmf_weights_shape; eauto.
  - intros fs pw tdf ttdf sh seed vb sc fs' self' out H.
    apply plier_Ok in H.
    destruct H as (fs1 & b & z & l2 & t & X & Hout & _ & Hz & _ & Ht & HX
                   & test & -> & _).
    exists fs1, z, t.
    split; [exact Hout |]. split; [exact Hz |].
    do 4 (split; [reflexivity |]).
    split; [apply values_T |]. split; [exact Ht |].
    apply getitem_Ok in HX. tauto.
Qed.

(** What [X.apply(zscore)] does to a column [c] that has an entry: [c] has
    spread, its standard deviation is the root of the mean squared
    deviation from its mean, and the column becomes [c'], the deviations
    from the mean divided by the standard deviation, which has mean 0 and
    standard deviation 1. *)
Definition standardized_column (c c' : list R) : Prop :=
  c <> [] ->
  np_std c <> 0 /\
  np_std c * np_std c
  = np_mean (map (fun v => (v - np_mean c) * (v - np_mean c)) c) /\
  c' = map (fun v => (v - np_mean c) / np_std c) c /\
  np_mean c' = 0 /\
  np_std c' = 1.

Definition standardized (X Y : DataFrame) : Prop :=
  index Y = index X /\
  columns Y = columns X /\
  forall j, (j < length (columns X))%nat ->
    standardized_column (column j (values X)) (column j (values Y)).

Lemma apply_zscore_standardized (X : DataFrame) :
  existsb zscore_is_nan (transpose (length (columns X)) (values X)) = false ->
  length (values X) = length (index X) ->
  standardized X (apply_columns zscore X).
Proof.
  intros Hnan Hrows. split; [reflexivity |]. split; [reflexivity |].
  intros j Hj Hc.
  rewrite apply_columns_column; auto;
    [| intros c; unfold zscore; apply length_map].
  assert (Hsd : np_std (column j (values X)) <> 0).
  { apply zscore_is_nan_false; [| exact Hc].
    destruct (zscore_is_nan (column j (values X))) eqn:E; [| reflexivity].
    rewrite <- Hnan. symmetry. apply existsb_exists.
    exists (column j (values X)). split; [| exact E].
    rewrite <- (@nth_transpose (length (columns X)) (values X) j Hj).
    apply nth_In. now rewrite length_transpose. }
  split; [exact Hsd |]. split; [apply np_std_sqr |].
  split; [reflexivity |].
  split; [now apply zscore_mean | now apply zscore_std].
Qed.

(** C8, as the code has it: a successful call of [plier] that asks for
    the test embedding stores the result of [ridge_regression] on the
    transposed weights read from the fit's output, on the test frame
    restricted to the columns of those weights and standardized column by
    column (no restricted column is without spread, and each has mean 0
    and standard deviation 1 afterwards), with the scalar read from the
    fit's output; nothing is fitted on the test frame. The embedding has
    one row per test sample and one column per component of the weights
    that were read: the requested rank [k] names the files and does not
    bound the shape. *)
Theorem plier_test_embedding_is_ridge
    (self self' : DataModel) (fs fs' : filesystem) (k : nat) (pw : string)
    (sh : bool) (seed : Z) (vb sc : bool) (out : option DataFrame) :
  plier cfg self fs k pw false true sh seed vb sc = Ok (fs', self', out) ->
  exists fs1 z lambda_2 t X emb,
    plier_outputs cfg self fs k pw sh seed vb sc = Ok fs1 /\
    read_table (plier_output_prefix cfg k seed sh ++ "_z.tsv")%string fs1
    = Ok z /\
    loadtxt (plier_output_prefix cfg k seed sh ++ "_l2.tsv")%string fs1
    = Ok lambda_2 /\
    plier_weights self' = Some (T z) /\
    test_df self = Some t /\
    getitem t (columns (T z)) = Ok X /\
    (well_formed t -> standardized X (apply_columns zscore X)) /\
    ridge_regression (T (T z)) (T (apply_columns zscore X)) lambda_2 = Ok emb /\
    plier_test_df self' = Some emb /\
    rect (length (index t)) (length (columns z)) emb.
Proof.
  intros H. apply plier_Ok in H.
  destruct H as (fs1 & b & z & l2 & t & X & Hout & _ & Hz & Hl2 & Ht & HX
                 & test & -> & _ & emb & Hemb & ->).
  exists fs1, z, l2, t, X, emb.
  unfold _plier_on_test_data in Hemb.
  destruct (existsb zscore_is_nan _) eqn:Hnan; [discriminate |].
  do 6 (split; [assumption || reflexivity |]).
  pose proof (getitem_Ok _ _ HX) as (Hidx & _ & _ & Hrows & _).
  split.
  { intros Hwf. apply apply_zscore_standardized; [exact Hnan |].
    apply has_shape_rect in Hwf. destruct Hwf as [Hlen _]. congruence. }
  do 2 (split; [assumption || reflexivity |]).
  apply ridge_regression_shape in Hemb.
  cbn [T apply_columns index columns] in Hemb |- *.
  rewrite Hidx in Hemb. exact Hemb.
Qed.

(** C5, as the code has it: [plier] has no check of the gene overlap.
    When the weights read from the fit's output have no gene, the test
    frame is restricted to no column; the call then returns the training
    embedding when [transform_df] is set, returns normally when no
    embedding is asked for, and otherwise ends as [ridge_regression] ends
    on the weights and targets without a row. *)
Theorem plier_empty_gene_subset
    (self : DataModel) (fs fs1 : filesystem) (k : nat) (pw : string)
    (sh : bool) (seed : Z) (vb : bool) (b z : DataFrame) (l2 : R)
    (t : DataFrame) :
  let prefix := plier_output_prefix cfg k seed sh in
  let X := mkDataFrame (index t) [] (map (fun _ => []) (values t)) in
  plier_outputs cfg self fs k pw sh seed vb false = Ok fs1 ->
  read_table (prefix ++ "_b.tsv")%string fs1 = Ok b ->
  read_table (prefix ++ "_z.tsv")%string fs1 = Ok z ->
  loadtxt (prefix ++ "_l2.tsv")%string fs1 = Ok l2 ->
  columns (T z) = [] ->
  test_df self = Some t ->
  (forall ttdf,
      plier cfg self fs k pw true ttdf sh seed vb false
      = Ok (fs1, plier_assigned self b z (plier_test_df self), Some (T b))) /\
  plier cfg self fs k pw false false sh seed vb false
  = Ok (fs1, plier_assigned self b z (plier_test_df self), None) /\
  plier cfg self fs k pw false true sh seed vb false
  = bind (ridge_regression (T (T z)) (T (apply_columns zscore X)) l2)
      (fun emb => Ok (fs1, plier_assigned self b z (Some emb), None)).
Proof.
  intros prefix X Hout Hb Hz Hl2 Hempty Ht.
  cbn [T columns] in Hempty.
  repeat split; intros;
    rewrite (plier_cached_eq cfg self fs k pw _ _ sh seed vb Hout Hb Hz Hl2);
    rewrite Ht, Hempty, getitem_nil; reflexivity.
Qed.

End Weights.

Module PlierExamples.

Definition cfg : config := config_py "/repo".

Definition train : DataFrame :=
  mkDataFrame ["s1"; "s2"]%string ["geneA"; "geneB"]%string [[0; 1]; [2; 3]].
Definition test : DataFrame :=
  mkDataFrame ["t1"; "t2"]%string ["geneA"; "geneB"]%string [[4; 5]; [6; 8]].

Definition self : DataModel (DEC := StandIn.axes) :=
  {| filename := None; df := train; gene_modules := None;
     num_samples := 2; num_genes := 2;
     test_filename := None; test_df := Some test;
     num_test_samples := None; num_test_genes := None;
     transformation := None; transform_fit := None;
     transform_test_fit := None;
     pca_attrs := no_attrs; ica_attrs := no_attrs;
     nmf_attrs := no_attrs; plier_attrs := no_attrs |}.

(** Outputs of an earlier fit with [k = 1] and seed 5, in which the prior
    gene sets cover [geneA] only. *)
Definition z_file : DataFrame :=
  mkDataFrame ["geneA"]%string ["LV1"]%string [[2]].
Definition b_file : DataFrame :=
  mkDataFrame ["LV1"]%string ["s1"; "s2"]%string [[1; 3]].

Definition disk : filesystem :=
  [("/repo/data/plier_output/plier_k1_s5_z.tsv", TableFile z_file);
   ("/repo/data/plier_output/plier_k1_s5_b.tsv", TableFile b_file);
   ("/repo/data/plier_output/plier_k1_s5_l2.tsv", ScalarFile 1)]%string.

(** Outputs in which the prior gene sets cover no gene of the data. *)
Definition z_no_gene : DataFrame := mkDataFrame [] ["LV1"]%string [].

Definition disk_no_gene : filesystem :=
  [("/repo/data/plier_output/plier_k1_s5_z.tsv", TableFile z_no_gene);
   ("/repo/data/plier_output/plier_k1_s5_b.tsv", TableFile b_file);
   ("/repo/data/plier_output/plier_k1_s5_l2.tsv", ScalarFile 1)]%string.

Definition run (fs : filesystem) (transform_df transform_test_df : bool) :=
  plier (RR := StandIn.ridge) (OS := StandIn.os) cfg self fs 1
    "pathways.tsv" transform_df transform_test_df false 5 false false.

(** The same outputs, of one component, under the names of a fit with
    [k = 7]. *)
Definition disk_k7 : filesystem :=
  [("/repo/data/plier_output/plier_k7_s5_z.tsv", TableFile z_file);
   ("/repo/data/plier_output/plier_k7_s5_b.tsv", TableFile b_file);
   ("/repo/data/plier_output/plier_k7_s5_l2.tsv", ScalarFile 1)]%string.

End PlierExamples.

Lemma np_std_4_6 : np_std [4; 6] = 1.
Proof.
  unfold np_std, np_var, np_mean, Rsum. cbn [map fold_right length INR].
  replace (((4 - (4 + (6 + 0)) / (1 + 1)) * (4 - (4 + (6 + 0)) / (1 + 1))
            + ((6 - (4 + (6 + 0)) / (1 + 1)) * (6 - (4 + (6 + 0)) / (1 + 1))
               + 0)) / (1 + 1)) with 1 by field.
  apply sqrt_1.
Qed.

(** The call of the examples on cached outputs of one component, for the
    requested ranks 1 and 7: the restricted test column [[4; 6]] has
    spread, and the call stores the solver's ridge solution. *)
Lemma plier_example_run (k : nat) (fs : filesystem) :
  (k = 1%nat /\ fs = PlierExamples.disk) \/
  (k = 7%nat /\ fs = PlierExamples.disk_k7) ->
  exists emb,
    plier (RR := StandIn.ridge) (OS := StandIn.os) PlierExamples.cfg
      PlierExamples.self fs k "pathways.tsv" false true false 5 false false
    = Ok (fs,
          plier_assigned PlierExamples.self PlierExamples.b_file
            PlierExamples.z_file (Some emb),
          None) /\
    rect 2 1 emb.
Proof.
  intros Hk.
  assert (Heq :
    plier (RR := StandIn.ridge) (OS := StandIn.os) PlierExamples.cfg
      PlierExamples.self fs k "pathways.tsv" false true false 5 false false
    = bind (_plier_on_test_data (RR := StandIn.ridge)
              (mkDataFrame ["t1"; "t2"]%string ["geneA"]%string [[4]; [6]])
              (T PlierExamples.z_file) 1)
        (fun emb =>
           Ok (fs,
               plier_assigned PlierExamples.self PlierExamples.b_file
                 PlierExamples.z_file (Some emb),
               None))).
  { destruct Hk as [[-> ->] | [-> ->]].
    - rewrite (@plier_cached_eq StandIn.axes StandIn.ridge StandIn.os
                 PlierExamples.cfg PlierExamples.self PlierExamples.disk
                 PlierExamples.disk 1 "pathways.tsv"%string false true false
                 5%Z false PlierExamples.b_file PlierExamples.z_file 1
                 eq_refl eq_refl eq_refl eq_refl).
      reflexivity.
    - rewrite (@plier_cached_eq StandIn.axes StandIn.ridge StandIn.os
                 PlierExamples.cfg PlierExamples.self PlierExamples.disk_k7
                 PlierExamples.disk_k7 7 "pathways.tsv"%string false true false
                 5%Z false PlierExamples.b_file PlierExamples.z_file 1
                 eq_refl eq_refl eq_refl eq_refl).
      reflexivity. }
  rewrite Heq. unfold _plier_on_test_data.
  cbn [columns values length transpose seq map column nth existsb
       zscore_is_nan].
  rewrite np_std_4_6.
  destruct (Req_dec_T 1 0) as [E | _]; [lra |].
  cbn [orb].
  destruct (ridge_regression (RidgeSolver := StandIn.ridge)
              (T (T PlierExamples.z_file))
              (T (apply_columns zscore
                    (mkDataFrame ["t1"; "t2"]%string ["geneA"]%string
                       [[4]; [6]]))) 1) as [emb | e] eqn:Hr.
  - exists emb. split; [reflexivity |].
    apply ridge_regression_shape in Hr. exact Hr.
  - exfalso. revert Hr. clear. intros Hr.
    assert (Hok : exists emb,
               ridge_regression (RidgeSolver := StandIn.ridge)
                 (T (T PlierExamples.z_file))
                 (T (apply_columns zscore
                       (mkDataFrame ["t1"; "t2"]%string ["geneA"]%string
                          [[4]; [6]]))) 1 = Ok emb)
      by (eexists; reflexivity).
    destruct Hok as [emb Hok]. congruence.
Qed.

Lemma weights_rows_are_components_witness :
  exists self' w,
    PlierExamples.run PlierExamples.disk false true
    = Ok (PlierExamples.disk, self', None) /\
    plier_weights self' = Some w /\
    shape w = (1, 1)%nat /\
    incl (columns w) (columns PlierExamples.test).
Proof.
  destruct (@plier_example_run 1 PlierExamples.disk
              (or_introl (conj eq_refl eq_refl))) as (emb & Hrun & _).
  destruct (proj2 (proj2 (proj2
             (@weights_rows_are_components StandIn.axes StandIn.ridge
                StandIn.os PlierExamples.cfg PlierExamples.self 1)))
             PlierExamples.disk "pathways.tsv"%string false true false 5%Z
             false false _ _ _ Hrun)
    as (fs1 & z & t & Hout & Hz & Hw & _ & _ & _ & _ & Ht & Hincl).
  eexists. eexists. split; [exact Hrun |].
  change (Ok PlierExamples.disk = Ok fs1) in Hout. inv_Ok Hout.
  change (Ok PlierExamples.z_file = Ok z) in Hz. inv_Ok Hz.
  change (Some PlierExamples.test = Some t) in Ht. inv_Ok Ht.
  split; [reflexivity |]. split; [reflexivity |]. exact Hincl.
Defined.

(** C7 as stated fails for the pathway-regularized method: fitted with
    [k = 1] on a training frame of two genes of which the solver kept one,
    its weights have shape (1, 1), not (1, 2). *)
Lemma plier_weights_not_k_by_n_genes :
  exists self' w,
    PlierExamples.run PlierExamples.disk false true
    = Ok (PlierExamples.disk, self', None) /\
    plier_weights self' = Some w /\
    shape (df PlierExamples.self) = (2, 2)%nat /\
    shape w = (1, 1)%nat /\
    shape w <> (1, snd (shape (df PlierExamples.self)))%nat.
Proof.
  destruct (@plier_example_run 1 PlierExamples.disk
              (or_introl (conj eq_refl eq_refl))) as (emb & Hrun & _).
  eexists. eexists. split; [exact Hrun |]. split; [reflexivity |].
  repeat split. discriminate.
Qed.

Lemma plier_test_embedding_is_ridge_witness :
  exists self' X emb,
    PlierExamples.run PlierExamples.disk false true
    = Ok (PlierExamples.disk, self', None) /\
    getitem PlierExamples.test ["geneA"]%string = Ok X /\
    standardized X (apply_columns zscore X) /\
    ridge_regression (RidgeSolver := StandIn.ridge)
      (T (T PlierExamples.z_file)) (T (apply_columns zscore X)) 1 = Ok emb /\
    plier_test_df self' = Some emb /\
    rect 2 1 emb.
Proof.
  destruct (@plier_example_run 1 PlierExamples.disk
              (or_introl (conj eq_refl eq_refl))) as (emb0 & Hrun & _).
  destruct (@plier_test_embedding_is_ridge StandIn.axes StandIn.ridge
              StandIn.os PlierExamples.cfg PlierExamples.self _
              PlierExamples.disk _ 1 "pathways.tsv"%string false 5%Z
              false false None Hrun)
    as (fs1 & z & l2 & t & X & emb & Hout & Hz & Hl2 & _ & Ht & HX & Hstd
        & Hridge & He & Hrect).
  change (Ok PlierExamples.disk = Ok fs1) in Hout. inv_Ok Hout.
  change (Ok PlierExamples.z_file = Ok z) in Hz. inv_Ok Hz.
  change (Ok 1 = Ok l2) in Hl2. inv_Ok Hl2.
  change (Some PlierExamples.test = Some t) in Ht. inv_Ok Ht.
  eexists. exists X, emb. split; [exact Hrun |].
  split; [exact HX |]. split; [apply Hstd; reflexivity |].
  split; [exact Hridge |]. split; [exact He | exact Hrect].
Defined.

(** C8 as stated fails: asked for rank [k = 7] on outputs that hold one
    component, [plier] stores a test embedding of shape (2, 1), not
    (2, 7): nothing in the source compares the outputs with [k]. *)
Lemma plier_test_embedding_not_n_by_k :
  exists self' emb,
    plier (RR := StandIn.ridge) (OS := StandIn.os) PlierExamples.cfg
      PlierExamples.self PlierExamples.disk_k7 7 "pathways.tsv"
      false true false 5 false false
    = Ok (PlierExamples.disk_k7, self', None) /\
    plier_test_df self' = Some emb /\
    length (index PlierExamples.test) = 2%nat /\
    rect 2 1 emb /\
    ~ rect 2 7 emb.
Proof.
  destruct (@plier_example_run 7 PlierExamples.disk_k7
              (or_intror (conj eq_refl eq_refl))) as (emb & Hrun & Hrect).
  eexists. exists emb. split; [exact Hrun |]. split; [reflexivity |].
  split; [reflexivity |]. split; [exact Hrect |].
  intros [_ H7]. destruct Hrect as [Hlen H1].
  destruct emb as [| r emb]; [discriminate |].
  apply Forall_inv in H7. apply Forall_inv in H1. congruence.
Qed.

Lemma plier_empty_gene_subset_witness :
  PlierExamples.run PlierExamples.disk_no_gene true false
  = Ok (PlierExamples.disk_no_gene,
        plier_assigned PlierExamples.self PlierExamples.b_file
          PlierExamples.z_no_gene None,
        Some (T PlierExamples.b_file)).
Proof.
  apply (proj1 (plier_empty_gene_subset (RR := StandIn.ridge) (OS := StandIn.os)
                  PlierExamples.cfg PlierExamples.self
                  PlierExamples.disk_no_gene (fs1 := PlierExamples.disk_no_gene)
                  1 "pathways.tsv"%string false 5%Z false
                  (b := PlierExamples.b_file) (z := PlierExamples.z_no_gene)
                  (l2 := 1) (t := PlierExamples.test)
                  eq_refl eq_refl eq_refl eq_refl eq_refl eq_refl)).
Defined.

(** C5 as stated fails: with weights that have no gene (an empty
    GeneSubset), [plier] called for the training embedding returns that
    embedding, of shape (2, 1), and raises nothing. *)
Lemma plier_empty_overlap_returns_embedding :
  exists self' embedding,
    PlierExamples.run PlierExamples.disk_no_gene true false
    = Ok (PlierExamples.disk_no_gene, self', Some embedding) /\
    option_map columns (plier_weights self') = Some [] /\
    plier_df self' = Some embedding /\
    shape embedding = (2, 1)%nat /\
    values embedding = [[1]; [3]].
Proof.
  eexists. eexists. split; [reflexivity |]. repeat split.
Qed.

(* ===================================================================== *)
(** ** The driver: seeds *)
(* ===================================================================== *)

Section Seeds.

Context {RNG : RandomState}.

Lemma randint_loop_length (max : Z) (size : nat) (s : rng_state) :
  length (fst (randint_loop max size s)) = size.
Proof.
  revert s. induction size as [| n IH]; intros s; cbn [randint_loop].
  - reflexivity.
  - destruct (rk_interval max s) as [v s1]. specialize (IH s1).
    destruct (randint_loop max n s1) as [vs s2]. cbn [fst length] in *.
    now rewrite IH.
Qed.

Lemma randint_loop_range (max : Z) (size : nat) (s : rng_state) :
  (0 <= max)%Z ->
  Forall (fun v => (0 <= v <= max)%Z) (fst (randint_loop max size s)).
Proof.
  intros Hmax. revert s. induction size as [| n IH]; intros s;
    cbn [randint_loop].
  - constructor.
  - pose proof (rk_interval_range s Hmax) as Hv.
    destruct (rk_interval max s) as [v s1]. specialize (IH s1).
    destruct (randint_loop max n s1) as [vs s2]. cbn [fst] in *.
    constructor; assumption.
Qed.

Lemma length_np_arange (lo hi : Z) :
  length (np_arange lo hi) = Z.to_nat (hi - lo).
Proof. unfold np_arange. now rewrite length_map, length_seq. Qed.

Lemma nth_np_arange (lo hi i : Z) :
  (0 <= i < hi - lo)%Z ->
  nth (Z.to_nat i) (np_arange lo hi) 0%Z = (lo + i)%Z.
Proof.
  intros Hi. unfold np_arange.
  rewrite nth_indep with (d' := (lo + Z.of_nat 0)%Z)
    by (rewrite length_map, length_seq; lia).
  rewrite (map_nth (fun i => (lo + Z.of_nat i)%Z)).
  rewrite seq_nth by lia. lia.
Qed.

(** Drawing from [np.arange(0, 1000000)] is drawing the indices. *)
Lemma draw_seeds_eq (master_seed : Z) (count : nat) :
  draw_seeds master_seed count
  = Ok (fst (randint_loop 999999 count (np_random_seed master_seed))).
Proof.
  unfold draw_seeds, np_random_choice.
  assert (Hlen : length (np_arange 0 1000000) = Z.to_nat 1000000)
    by apply length_np_arange.
  destruct (np_arange 0 1000000) as [| a0 rest] eqn:Ha.
  - apply (f_equal Z.of_nat) in Hlen. cbn [length] in Hlen. lia.
  - rewrite <- Ha in *. clear Ha a0 rest.
    replace (Z.of_nat (length (np_arange 0 1000000)) - 1)%Z with 999999%Z
      by (rewrite Hlen; lia).
    pose proof (@randint_loop_range 999999%Z count
                  (np_random_seed master_seed) ltac:(lia)) as Hr.
    destruct (randint_loop 999999 count (np_random_seed master_seed))
      as [idx s]. cbn [fst bind] in *.
    f_equal. rewrite <- (map_id idx) at 2. apply map_ext_in.
    intros i Hi. rewrite Forall_forall in Hr.
    specialize (Hr i Hi). rewrite nth_np_arange; lia.
Qed.

End Seeds.

(* ===================================================================== *)
(** ** The driver: the loop over the seeds *)
(* ===================================================================== *)

Lemma fold_result_app {A B : Type} (f : A -> B -> result A) (l1 l2 : list B) (a : A) :
  fold_result f (l1 ++ l2) a = bind (fold_result f l1 a) (fold_result f l2).
Proof.
  revert a. induction l1 as [| b t IH]; intros a; cbn [fold_result app bind].
  - reflexivity.
  - destruct (f a b) as [a' | e]; cbn [bind]; [apply IH | reflexivity].
Qed.

(** A loop whose body raises at some element raises that exception,
    whatever the earlier elements produced and whatever follows. *)
Lemma fold_result_first_failure {A B : Type} (f : A -> B -> result A)
    (done rest : list B) (s : B) (a st : A) (e : exception) :
  fold_result f done a = Ok st ->
  f st s = Raise e ->
  fold_result f (done ++ s :: rest) a = Raise e.
Proof.
  intros Hdone Hs. rewrite fold_result_app, Hdone. cbn [bind fold_result].
  now rewrite Hs.
Qed.

Section Driver.

Context {DEC : Decomposition} {RR : RidgeSolver} {RNG : RandomState}
        {OS : OperatingSystem}.
Variable cfg : config.

Local Open Scope py_scope.

(** The object [DataModel(df=rnaseq_train_df, test_df=rnaseq_test_df)]. *)
Definition initial_model (train test : DataFrame) : DataModel :=
  {| filename := None; df := train; gene_modules := None;
     num_samples := length (index train); num_genes := length (columns train);
     test_filename := None; test_df := Some test;
     num_test_samples := None; num_test_genes := None;
     transformation := None; transform_fit := None;
     transform_test_fit := None;
     pca_attrs := no_attrs; ica_attrs := no_attrs;
     nmf_attrs := no_attrs; plier_attrs := no_attrs |}.

Definition initial_state (dm : DataModel) (fs : filesystem) : loop_state :=
  {| dm := dm; files := fs;
     reconstruction_results := []; test_reconstruction_results := [] |}.

Lemma main_eq (args : Args.t) (train test : DataFrame) (fs : filesystem) :
  main cfg args train test fs
  = (dm <- transform (initial_model train test) "zscore" ;;
     random_seeds <- random_seeds cfg args ;;
     st <- fold_result (per_seed cfg args train test) random_seeds
             (initial_state dm fs) ;;
     save_results args st).
Proof. reflexivity. Qed.

(** C2, as the code has it: the loop has no exception handler. When the
    iteration of some seed raises (because a variant called in it raises),
    the script ends with that exception: the seeds after it are not run
    and no aggregate table is produced, whatever the earlier seeds
    computed. *)
Theorem main_stops_at_first_failure
    (args : Args.t) (train test : DataFrame) (fs : filesystem)
    (dm : DataModel) (done rest : list Z) (s : Z) (st : loop_state)
    (e : exception) :
  transform (initial_model train test) "zscore" = Ok dm ->
  random_seeds cfg args = Ok (done ++ s :: rest) ->
  fold_result (per_seed cfg args train test) done (initial_state dm fs) = Ok st ->
  per_seed cfg args train test st s = Raise e ->
  main cfg args train test fs = Raise e.
Proof.
  intros Htr Hseeds Hdone Hs.
  rewrite main_eq, Htr. cbn [bind]. rewrite Hseeds. cbn [bind].
  now rewrite (fold_result_first_failure _ _ rest _ _ Hdone Hs).
Qed.

End Driver.

(* ===================================================================== *)
(** ** The driver: the [seed] column of the aggregate table *)
(* ===================================================================== *)

Section FittedAttributes.

Context {DEC : Decomposition}.

(** [hasattr(self, '<m>_df')] *)
Definition has_df (a : method_attrs) : bool :=
  match attr_df a with Some _ => true | None => false end.

(** Which of the four [<m>_df] attributes exist, in the order pca, ica,
    nmf, plier. *)
Definition fitted_flags (self : DataModel) : list bool :=
  [has_df (pca_attrs self); has_df (ica_attrs self);
   has_df (nmf_attrs self); has_df (plier_attrs self)].

Lemma transform_flags (self self' : DataModel) (how : string) :
  transform self how = Ok self' -> fitted_flags self' = fitted_flags self.
Proof.
  unfold transform. intros H.
  inv_bind H as fit Hfit. inv_bind H as tv Htv. inv_bind H as nd Hnd.
  inv_bind H as tt Htt. destruct tt as [tf nt]. inv_Ok H. reflexivity.
Qed.

Lemma sklearn_method_has_df (self : DataModel) (old a : method_attrs)
    (est : estimator) (prefix : string) (k : nat) (tdf ttdf : bool)
    (out : option matrix) :
  sklearn_method self old est prefix k tdf ttdf = Ok (a, out) ->
  has_df a = true.
Proof.
  intros H. apply sklearn_method_Ok in H.
  destruct H as (fit & emb & _ & _ & Hdf & _). unfold has_df. now rewrite Hdf.
Qed.

Lemma when_Ok (b : bool) (self self' : DataModel)
    (call : DataModel -> result (DataModel * option matrix)) :
  when b self call = Ok self' ->
  (b = false /\ self' = self) \/
  (b = true /\ exists out, call self = Ok (self', out)).
Proof.
  unfold when. destruct b; intros H.
  - right. split; [reflexivity |]. inv_bind H as so Hc. destruct so as [s o].
    inv_Ok H. eauto.
  - left. inv_Ok H. auto.
Qed.

Lemma when_pca_flags (b : bool) (self self' : DataModel) (k : nat) :
  when b self (fun dm => pca dm k false true) = Ok self' ->
  fitted_flags self'
  = [b || has_df (pca_attrs self); has_df (ica_attrs self);
     has_df (nmf_attrs self); has_df (plier_attrs self)].
Proof.
  intros H. apply when_Ok in H. destruct H as [[-> ->] | [-> [out H]]].
  - reflexivity.
  - unfold pca in H. inv_bind H as ao Hm. destruct ao as [a o]. inv_Ok H.
    apply sklearn_method_has_df in Hm. unfold fitted_flags.
    cbn [set_pca with_attrs pca_attrs ica_attrs nmf_attrs plier_attrs].
    now rewrite Hm.
Qed.

Lemma when_ica_flags (b : bool) (self self' : DataModel) (k : nat) (seed : Z) :
  when b self (fun dm => ica dm k false true seed) = Ok self' ->
  fitted_flags self'
  = [has_df (pca_attrs self); b || has_df (ica_attrs self);
     has_df (nmf_attrs self); has_df (plier_attrs self)].
Proof.
  intros H. apply when_Ok in H. destruct H as [[-> ->] | [-> [out H]]].
  - reflexivity.
  - unfold ica in H. inv_bind H as ao Hm. destruct ao as [a o]. inv_Ok H.
    apply sklearn_method_has_df in Hm. unfold fitted_flags.
    cbn [set_ica with_attrs pca_attrs ica_attrs nmf_attrs plier_attrs].
    now rewrite Hm.
Qed.

Lemma when_nmf_flags (b : bool) (self self' : DataModel) (k : nat) (seed : Z)
    (init : string) (tol : R) :
  when b self (fun dm => nmf dm k false true seed init tol) = Ok self' ->
  fitted_flags self'
  = [has_df (pca_attrs self); has_df (ica_attrs self);
     b || has_df (nmf_attrs self); has_df (plier_attrs self)].
Proof.
  intros H. apply when_Ok in H. destruct H as [[-> ->] | [-> [out H]]].
  - reflexivity.
  - unfold nmf in H. inv_bind H as ao Hm. destruct ao as [a o]. inv_Ok H.
    apply sklearn_method_has_df in Hm. unfold fitted_flags.
    cbn [set_nmf with_attrs pca_attrs ica_attrs nmf_attrs plier_attrs].
    now rewrite Hm.
Qed.

(* --------------------------------------------------------------------- *)
(** *** Rows of [compile_reconstruction] *)

Lemma add_method_reconstruction_scores self ts input acc mdf mtdf name obj n p acc' :
  add_method_reconstruction self ts input acc mdf mtdf name obj n p = Ok acc' ->
  exists score, fst acc' = List.app (fst acc) [(name, score)].
Proof.
  unfold add_method_reconstruction. intros H.
  inv_bind H as mr Hmr. inv_bind H as inp Hinp. inv_bind H as sc Hsc.
  inv_bind H as mat Hmat. inv_Ok H. cbn [fst]. eauto.
Qed.

(** A step of the scoring appends one score under the method's name when
    the method's frame exists, and nothing otherwise. *)
Definition appended (name : string) (flag : bool) (before after : list (string * R))
  : Prop :=
  exists l, after = List.app before l /\
            length l = (if flag then 1 else 0)%nat /\
            Forall (fun x => fst x = name) l.

Lemma reconstruct_sklearn_appended self ts input acc name a acc' :
  reconstruct_sklearn self ts input acc (name, a) = Ok acc' ->
  appended name (has_df a) (fst acc) (fst acc').
Proof.
  unfold reconstruct_sklearn, has_df, appended.
  destruct (attr_df a) as [mdf |]; intros H.
  - inv_bind H as mt Hmt. inv_bind H as mo Hmo.
    apply add_method_reconstruction_scores in H. destruct H as [score ->].
    exists [(name, score)]. repeat split. repeat constructor.
  - inv_Ok H. exists []. rewrite app_nil_r. repeat split. constructor.
Qed.

Lemma reconstruct_plier_appended self ts input acc acc' :
  reconstruct_plier self ts input acc = Ok acc' ->
  appended "plier" (has_df (plier_attrs self)) (fst acc) (fst acc').
Proof.
  unfold reconstruct_plier, has_df, appended, plier_df.
  destruct (attr_df (plier_attrs self)) as [mdf |]; intros H.
  - inv_bind H as w Hw. inv_bind H as pin Hpin. inv_bind H as mt Hmt.
    inv_bind H as mo Hmo.
    apply add_method_reconstruction_scores in H. destruct H as [score ->].
    exists [(("plier")%string, score)]. repeat split. repeat constructor.
  - inv_Ok H. exists []. rewrite app_nil_r. repeat split. constructor.
Qed.

(** The score frame has one row when a method's frame exists and no row
    otherwise, and its columns are named after methods. *)
Lemma compile_reconstruction_rows self ts tbl mats :
  compile_reconstruction self ts = Ok (tbl, mats) ->
  length tbl = (if existsb (fun b => b) (fitted_flags self) then 1 else 0)%nat /\
  Forall (Forall (fun x => In (fst x) list_algorithms)) tbl.
Proof.
  unfold compile_reconstruction. intros H.
  inv_bind H as acc3 H3. inv_bind H as acc4 H4. inv_Ok H.
  cbn [fold_result] in H3.
  inv_bind H3 as acc1 H1. inv_bind H3 as acc2 H2. inv_bind H3 as acc3' H3'.
  inv_Ok H3.
  apply reconstruct_sklearn_appended in H1, H2, H3'.
  apply reconstruct_plier_appended in H4.
  destruct H1 as (l1 & E1 & L1 & F1). destruct H2 as (l2 & E2 & L2 & F2).
  destruct H3' as (l3 & E3 & L3 & F3). destruct H4 as (l4 & E4 & L4 & F4).
  cbn [fst] in E1. rewrite E4, E3, E2, E1. cbn [app].
  assert (Hnames : Forall (fun x : string * R => In (fst x) list_algorithms)
                     (((l1 ++ l2) ++ l3) ++ l4)%list).
  { rewrite !Forall_app. repeat split.
    - eapply Forall_impl; [| exact F1]. intros x Hx. rewrite Hx. simpl. auto.
    - eapply Forall_impl; [| exact F2]. intros x Hx. rewrite Hx. simpl. auto.
    - eapply Forall_impl; [| exact F3]. intros x Hx. rewrite Hx. simpl. auto.
    - eapply Forall_impl; [| exact F4]. intros x Hx. rewrite Hx. simpl. auto. }
  assert (Hlen : length ((((l1 ++ l2) ++ l3) ++ l4)%list)
                 = (length l1 + length l2 + length l3 + length l4)%nat)
    by (rewrite !length_app; lia).
  unfold fitted_flags. cbn [existsb].
  destruct ((((l1 ++ l2) ++ l3) ++ l4)%list) as [| x rest] eqn:El.
  - cbn [scores_frame length] in *. split; [| constructor].
    destruct (has_df (pca_attrs self)), (has_df (ica_attrs self)),
      (has_df (nmf_attrs self)), (has_df (plier_attrs self));
      cbn in *; lia.
  - cbn [scores_frame length]. split.
    + destruct (has_df (pca_attrs self)), (has_df (ica_attrs self)),
        (has_df (nmf_attrs self)), (has_df (plier_attrs self));
        cbn in *; lia.
    + constructor; [| constructor].
      apply Forall_forall. intros y Hy. apply in_map_iff in Hy.
      destruct Hy as (x0 & <- & Hx0). cbn [fst].
      rewrite Forall_forall in Hnames. now apply Hnames.
Qed.

(** [plier] never assigns [self.plier_fit], which [compile_reconstruction]
    reads as soon as [plier_df] exists: scoring a model on which [plier]
    has run raises. *)
Remark compile_reconstruction_after_plier (self : DataModel) (ts : bool) :
  plier_df self <> None ->
  plier_fit self = None ->
  exists e, compile_reconstruction self ts = Raise e.
Proof.
  intros Hdf Hfit. unfold compile_reconstruction.
  destruct (fold_result _ _ _) as [acc | e]; cbn [bind]; [| eauto].
  unfold reconstruct_plier.
  destruct (plier_df self) as [d |]; [| contradiction].
  destruct (getattr (plier_weights self)) as [w | e]; cbn [bind]; [| eauto].
  destruct (match (if ts then test_df self else Some (df self)) with
            | Some d0 => getitem d0 (columns w)
            | None => Raise TypeError
            end) as [x | e]; cbn [bind]; [| eauto].
  destruct (getattr (plier_test_df self)) as [t | e]; cbn [bind]; [| eauto].
  rewrite Hfit. cbn [getattr bind]. eauto.
Qed.

End FittedAttributes.

Section SeedColumn.

Context {DEC : Decomposition} {RR : RidgeSolver} {RNG : RandomState}
        {OS : OperatingSystem}.
Variable cfg : config.

Local Open Scope py_scope.

(** Which of the four methods the command line asks for. *)
Definition requested (args : Args.t) : list bool :=
  map (fun name => mem_string name (algs_to_run args)) list_algorithms.

(** Rows one seed contributes to each of the two result lists. *)
Definition rows_per_seed (args : Args.t) : nat :=
  if existsb (fun b => b) (requested args) then 1 else 0.

(** The two columns the loop adds to a score frame. *)
Definition tag (args : Args.t) (seed : Z) (t : table) : table :=
  assign "shuffled" (Boolean (Args.shuffle args)) (assign "seed" (Int seed) t).

Lemma plier_flags (self self' : DataModel) fs fs' k pw tdf ttdf sh seed vb sc out :
  plier cfg self fs k pw tdf ttdf sh seed vb sc = Ok (fs', self', out) ->
  fitted_flags self'
  = [has_df (pca_attrs self); has_df (ica_attrs self);
     has_df (nmf_attrs self); true].
Proof.
  intros H. apply plier_Ok in H.
  destruct H as (fs1 & b & z & l2 & t & X & _ & _ & _ & _ & _ & _
                 & tst & -> & _).
  reflexivity.
Qed.

Lemma per_seed_Ok (args : Args.t) (train test : DataFrame)
    (st st' : loop_state) (seed : Z) :
  per_seed cfg args train test st seed = Ok st' ->
  exists dm_a full full_test m1 m2,
    (if Args.shuffle args
     then fitted_flags dm_a = [false; false; false; false]
     else dm_a = dm st) /\
    fitted_flags (dm st') = zip_with orb (requested args) (fitted_flags dm_a) /\
    compile_reconstruction (dm st') false = Ok (full, m1) /\
    compile_reconstruction (dm st') true = Ok (full_test, m2) /\
    reconstruction_results st'
    = List.app (reconstruction_results st) [tag args seed full] /\
    test_reconstruction_results st'
    = List.app (test_reconstruction_results st) [tag args seed full_test].
Proof.
  unfold per_seed. intros H.
  inv_bind H as nd Hstart. destruct nd as [seed_name dm_a].
  inv_bind H as dm1 Hpca. inv_bind H as dm2 Hica. inv_bind H as dm3 Hnmf.
  inv_bind H as fd Hplier. destruct fd as [fs4 dm4].
  inv_bind H as fs5 Hw1. inv_bind H as fs6 Hw2. inv_bind H as fs7 Hw3.
  inv_bind H as r1 Hc1. destruct r1 as [full m1].
  inv_bind H as r2 Hc2. destruct r2 as [full_test m2].
  inv_Ok H. cbn [dm reconstruction_results test_reconstruction_results].
  exists dm_a, full, full_test, m1, m2.
  split.
  { destruct (Args.shuffle args).
    - inv_bind Hstart as sh Hsh. destruct sh as [shuffled_train_df rng'].
      inv_bind Hstart as dm0 Hinit. inv_bind Hstart as dmt Htr. inv_Ok Hstart.
      apply transform_flags in Htr. rewrite Htr.
      rewrite init_preloaded_test in Hinit by reflexivity. inv_Ok Hinit.
      reflexivity.
    - inv_Ok Hstart. reflexivity. }
  split.
  { apply when_pca_flags in Hpca. apply when_ica_flags in Hica.
    apply when_nmf_flags in Hnmf.
    assert (H4 : fitted_flags dm4
                 = [has_df (pca_attrs dm3); has_df (ica_attrs dm3);
                    has_df (nmf_attrs dm3);
                    mem_string "plier" (algs_to_run args)
                    || has_df (plier_attrs dm3)]).
    { destruct (mem_string "plier" (algs_to_run args)).
      - inv_bind Hplier as p Hp. destruct p as [[fs' dm'] o]. inv_Ok Hplier.
        now apply plier_flags in Hp.
      - inv_Ok Hplier. reflexivity. }
    unfold fitted_flags in Hpca, Hica, Hnmf.
    injection Hpca as P1 P2 P3 P4. injection Hica as I1 I2 I3 I4.
    injection Hnmf as N1 N2 N3 N4.
    rewrite H4, N1, N2, N3, N4, I1, I2, I3, I4, P1, P2, P3, P4.
    reflexivity. }
  repeat split; assumption.
Qed.

(* --------------------------------------------------------------------- *)
(** *** Reading the [seed] column *)

(** The row carries [s] in its [seed] cell, whatever is appended to it. *)
Definition row_has_seed (s : Z) (row : table_row) : Prop :=
  forall extra, cell_of "seed" (List.app row extra) = Some (Int s).

Lemma cell_of_seed_scores (row extra : table_row) (s : Z) :
  Forall (fun x => In (fst x) list_algorithms) row ->
  cell_of "seed" (List.app row (("seed"%string, Int s) :: extra)) = Some (Int s).
Proof.
  induction 1 as [| [n c] row Hn _ IH]; cbn [app cell_of].
  - reflexivity.
  - cbn [fst] in Hn.
    assert (E : String.eqb "seed" n = false).
    { simpl in Hn. destruct Hn as [<- | [<- | [<- | [<- | []]]]]; reflexivity. }
    now rewrite E.
Qed.

Lemma tag_has_seed (args : Args.t) (s : Z) (t : table) :
  Forall (Forall (fun x => In (fst x) list_algorithms)) t ->
  Forall2 row_has_seed (repeat s (length t)) (tag args s t).
Proof.
  induction 1 as [| row t Hrow _ IH]; cbn [length repeat tag assign map].
  - constructor.
  - constructor; [| exact IH].
    intros extra. rewrite <- !app_assoc. cbn [app].
    now apply cell_of_seed_scores.
Qed.

Lemma column_of_seed (seeds : list Z) (t : table) (name : string) (v : cell) :
  Forall2 row_has_seed seeds t ->
  column_of "seed" (assign name v t) = map (fun s => Some (Int s)) seeds.
Proof.
  induction 1 as [| s row seeds t Hrow _ IH];
    cbn [assign map column_of] in *.
  - reflexivity.
  - f_equal; [apply Hrow | exact IH].
Qed.

(** The seeds of the rows that [count] rows per seed give. *)
Definition seed_rows (count : nat) (seeds : list Z) : list Z :=
  flat_map (fun s => repeat s count) seeds.

Lemma seed_rows_app (count : nat) (l1 l2 : list Z) :
  seed_rows count (l1 ++ l2) = (seed_rows count l1 ++ seed_rows count l2)%list.
Proof. apply flat_map_app. Qed.

(** What holds of the loop state after the seeds [done]. *)
Definition loop_invariant (args : Args.t) (done : list Z) (st : loop_state)
  : Prop :=
  zip_with orb (requested args) (fitted_flags (dm st)) = requested args /\
  Forall2 row_has_seed (seed_rows (rows_per_seed args) done)
    (concat (reconstruction_results st)) /\
  Forall2 row_has_seed (seed_rows (rows_per_seed args) done)
    (concat (test_reconstruction_results st)).

Lemma zip_orb_idem (r : list bool) : zip_with orb r r = r.
Proof. induction r as [| b r IH]; cbn; [| rewrite IH, orb_diag]; reflexivity. Qed.

Lemma requested_length (args : Args.t) : length (requested args) = 4%nat.
Proof. reflexivity. Qed.

Lemma zip_orb_false (r : list bool) :
  length r = 4%nat -> zip_with orb r [false; false; false; false] = r.
Proof.
  destruct r as [| a [| b [| c [| d [| x r]]]]]; try discriminate.
  intros _. cbn. now rewrite !orb_false_r.
Qed.

Lemma per_seed_invariant (args : Args.t) (train test : DataFrame)
    (done : list Z) (st st' : loop_state) (seed : Z) :
  loop_invariant args done st ->
  per_seed cfg args train test st seed = Ok st' ->
  loop_invariant args (done ++ [seed]) st'.
Proof.
  intros (Hflags & Htrain & Htest) H. apply per_seed_Ok in H.
  destruct H as (dm_a & full & full_test & m1 & m2 & Hstart & Hf & Hc1 & Hc2
                 & Hr1 & Hr2).
  assert (Hreq : fitted_flags (dm st') = requested args).
  { rewrite Hf. destruct (Args.shuffle args).
    - rewrite Hstart. apply zip_orb_false, requested_length.
    - subst dm_a. exact Hflags. }
  apply compile_reconstruction_rows in Hc1, Hc2.
  rewrite Hreq in Hc1, Hc2. fold (rows_per_seed args) in Hc1, Hc2.
  destruct Hc1 as [L1 N1]. destruct Hc2 as [L2 N2].
  unfold loop_invariant. rewrite Hreq, zip_orb_idem.
  split; [reflexivity |].
  rewrite Hr1, Hr2, !concat_app, seed_rows_app. cbn [concat].
  rewrite !app_nil_r. unfold seed_rows at 2 4. cbn [flat_map].
  rewrite app_nil_r.
  split; apply Forall2_app; auto.
  - rewrite <- L1. now apply tag_has_seed.
  - rewrite <- L2. now apply tag_has_seed.
Qed.

Lemma loop_invariant_fold (args : Args.t) (train test : DataFrame)
    (seeds done : list Z) (st st' : loop_state) :
  loop_invariant args done st ->
  fold_result (per_seed cfg args train test) seeds st = Ok st' ->
  loop_invariant args (done ++ seeds) st'.
Proof.
  revert done st. induction seeds as [| s seeds IH]; intros done st Hinv H;
    cbn [fold_result] in H.
  - inv_Ok H. now rewrite app_nil_r.
  - inv_bind H as st1 Hs.
    replace (done ++ s :: seeds)%list with ((done ++ [s]) ++ seeds)%list
      by (rewrite <- app_assoc; reflexivity).
    eapply IH; [| exact H]. eapply per_seed_invariant; eauto.
Qed.

(** The [seed] column of the aggregate table of a run that ends normally:
    the drawn seeds, once for the training rows and once for the testing
    rows. *)
Lemma main_seed_column (args : Args.t) (train test : DataFrame)
    (fs fs' : filesystem) (t : table) :
  main cfg args train test fs = Ok (t, fs') ->
  exists seeds,
    draw_seeds (default_seed cfg) (Args.num_seeds args) = Ok seeds /\
    column_of "seed" t
    = map (fun s => Some (Int s))
        (seed_rows (rows_per_seed args) seeds
         ++ seed_rows (rows_per_seed args) seeds).
Proof.
  rewrite main_eq. intros H.
  inv_bind H as dm0 Htr. inv_bind H as seeds Hseeds. inv_bind H as st Hloop.
  exists seeds. split; [exact Hseeds |].
  assert (Hinv : loop_invariant args ([] ++ seeds) st).
  { eapply loop_invariant_fold; [| exact Hloop].
    unfold loop_invariant, initial_state.
    cbn [dm reconstruction_results test_reconstruction_results concat seed_rows
         flat_map].
    apply transform_flags in Htr. rewrite Htr.
    split; [apply zip_orb_false, requested_length |].
    split; constructor. }
  cbn [app] in Hinv. destruct Hinv as (_ & Htrain & Htest).
  unfold save_results in H.
  inv_bind H as training Ha. inv_bind H as testing Hb. inv_bind H as all Hc.
  inv_Ok H.
  unfold pd_concat in Ha, Hb, Hc.
  destruct (reconstruction_results st) eqn:E1; [discriminate |].
  destruct (test_reconstruction_results st) eqn:E2; [discriminate |].
  inv_Ok Ha. inv_Ok Hb. inv_Ok Hc.
  cbn [concat] in *. rewrite app_nil_r.
  unfold column_of. rewrite map_app, map_app. f_equal.
  - now apply column_of_seed.
  - now apply column_of_seed.
Qed.

End SeedColumn.

Section SeedsClaim.

Context {DEC : Decomposition} {RR : RidgeSolver} {RNG : RandomState}
        {OS : OperatingSystem}.
Variable cfg : config.

(** The command line with the shuffle flag set to [b]. *)
Definition with_shuffle (args : Args.t) (b : bool) : Args.t :=
  {| Args.algorithm := Args.algorithm args;
     Args.num_components := Args.num_components args;
     Args.num_seeds := Args.num_seeds args;
     Args.models_dir := Args.models_dir args;
     Args.pathways_file := Args.pathways_file args;
     Args.shuffle := b;
     Args.verbose := Args.verbose args |}.

Lemma In_np_arange (lo hi v : Z) :
  (lo <= v < hi)%Z -> In v (np_arange lo hi).
Proof.
  intros Hv. unfold np_arange. apply in_map_iff.
  exists (Z.to_nat (v - lo)). split; [lia |]. apply in_seq. lia.
Qed.

(** More draws than there are values cannot be pairwise distinct. *)
Lemma draw_seeds_pigeonhole (master_seed : Z) (count : nat) (seeds : list Z) :
  (Z.to_nat 1000000 < count)%nat ->
  draw_seeds master_seed count = Ok seeds ->
  ~ NoDup seeds.
Proof.
  intros Hcount H Hnodup. rewrite draw_seeds_eq in H. inv_Ok H.
  pose proof (randint_loop_length 999999 count (np_random_seed master_seed))
    as Hlen.
  pose proof (@randint_loop_range _ 999999%Z count
                (np_random_seed master_seed) ltac:(lia)) as Hrange.
  apply (NoDup_incl_length (l' := np_arange 0 1000000)) in Hnodup.
  - rewrite Hlen, length_np_arange in Hnodup. lia.
  - intros v Hv. rewrite Forall_forall in Hrange. specialize (Hrange v Hv).
    apply In_np_arange. lia.
Qed.

(** C3, as the code has it: the seeds drawn at the start are a function
    of the master seed and the count alone: [count] values of
    [[0, 1000000)], drawn one after the other from the generator seeded
    with the master seed; the draw does not read the shuffle flag (nor any
    other option), and two runs that differ in the shuffle flag only and
    both end normally have the same [seed] column in their tables. The
    draws are made with replacement. *)
Theorem seeds_from_master_seed_and_count (args : Args.t) :
  (exists seeds,
      random_seeds cfg args = Ok seeds /\
      seeds = fst (randint_loop 999999 (Args.num_seeds args)
                     (np_random_seed (default_seed cfg))) /\
      length seeds = Args.num_seeds args /\
      Forall (fun s => (0 <= s < 1000000)%Z) seeds) /\
  (forall args',
      Args.num_seeds args' = Args.num_seeds args ->
      random_seeds cfg args' = random_seeds cfg args) /\
  (forall train test fs t_on fs_on t_off fs_off,
      main cfg (with_shuffle args true) train test fs = Ok (t_on, fs_on) ->
      main cfg (with_shuffle args false) train test fs = Ok (t_off, fs_off) ->
      column_of "seed" t_on = column_of "seed" t_off).
Proof.
  split; [| split].
  - eexists. split; [apply draw_seeds_eq |]. split; [reflexivity |].
    split; [apply randint_loop_length |].
    eapply Forall_impl;
      [| apply (@randint_loop_range _ 999999%Z); lia].
    cbn beta. intros; lia.
  - intros args' Hn. unfold random_seeds. now rewrite Hn.
  - intros train test fs t_on fs_on t_off fs_off Hon Hoff.
    apply main_seed_column in Hon, Hoff.
    destruct Hon as (s1 & H1 & ->). destruct Hoff as (s2 & H2 & ->).
    cbn [with_shuffle Args.num_seeds] in H1, H2.
    rewrite H1 in H2. inv_Ok H2. reflexivity.
Qed.

End SeedsClaim.

(* ===================================================================== *)
(** ** Runs of the script on a small data set *)
(* ===================================================================== *)

(** Evaluation of the model that leaves the real-number arithmetic alone. *)
Ltac run_model :=
  lazy -[np_mean np_std handle_zeros_in_scale ln exp sqrt
         Rdiv Rplus Rmult Rminus Ropp Rinv INR IZR Rlt_dec Req_dec_T].

Lemma np_mean_pair (a b : R) : np_mean [a; b] = (a + b) / 2.
Proof. unfold np_mean, Rsum. cbn [fold_right length INR]. field. Qed.

Lemma np_std_0_2 : np_std [0; 2] = 1.
Proof.
  unfold np_std, np_var. rewrite np_mean_pair. cbn [map].
  rewrite np_mean_pair.
  replace (((0 - (0 + 2) / 2) * (0 - (0 + 2) / 2)
            + (2 - (0 + 2) / 2) * (2 - (0 + 2) / 2)) / 2) with 1 by field.
  apply sqrt_1.
Qed.

Module DriverExamples.

Definition cfg : config := config_py "/repo".

Definition train : DataFrame :=
  mkDataFrame ["s1"; "s2"]%string ["geneA"; "geneB"]%string [[0; 1]; [2; 5]].
Definition test : DataFrame :=
  mkDataFrame ["t1"; "t2"]%string ["geneA"; "geneB"]%string [[4; 5]; [6; 8]].

Definition args (algorithm : option string) (shuffle : bool) : Args.t :=
  {| Args.algorithm := algorithm; Args.num_components := 1;
     Args.num_seeds := 2; Args.models_dir := "/repo/models";
     Args.pathways_file := "/repo/data/pathway_data/canonical_mapped.tsv";
     Args.shuffle := shuffle; Args.verbose := false |}.

Definition run (algorithm : option string) (shuffle : bool)
  : result (table * filesystem) :=
  main (DEC := StandIn.axes) (RR := StandIn.ridge) (RNG := StandIn.rng)
    (OS := StandIn.os) cfg (args algorithm shuffle) train test [].

Definition normalized : result DataModel :=
  transform (DEC := StandIn.axes) (initial_model train test) "zscore".

(** The first normalized training value is [(0 - 1) / 1]. *)
Lemma first_value_negative :
  (0 - np_mean [0; 2]) / handle_zeros_in_scale (np_std [0; 2]) < 0.
Proof.
  rewrite np_std_0_2, np_mean_pair, handle_zeros_nonzero by lra.
  lra.
Qed.

End DriverExamples.

Lemma main_stops_at_first_failure_witness :
  DriverExamples.run (Some "plier"%string) false = Raise CalledProcessError.
Proof.
  unfold DriverExamples.run.
  eapply (main_stops_at_first_failure (DEC := StandIn.axes)
            (RR := StandIn.ridge) (RNG := StandIn.rng) (OS := StandIn.os)
            DriverExamples.cfg (DriverExamples.args (Some "plier"%string) false)
            DriverExamples.train DriverExamples.test [] [] _ _).
  - reflexivity.
  - unfold random_seeds. rewrite draw_seeds_eq. vm_compute. reflexivity.
  - reflexivity.
  - reflexivity.
Defined.

(** C2 as stated fails: in the run of all four variants on two seeds, the
    first seed's linear-subspace and independent-components fits
    succeed, its non-negative factorization raises on the standardized
    (hence partly negative) matrix, and the script ends with that
    exception: no aggregate table, neither the rows of the variants that
    succeeded nor those of the second seed. *)
Lemma main_aborts_when_nmf_raises :
  exists dm s s' dm_pca dm_ica,
    DriverExamples.normalized = Ok dm /\
    random_seeds (RNG := StandIn.rng) DriverExamples.cfg
      (DriverExamples.args None false) = Ok [s; s'] /\
    pca dm 1 false true = Ok (dm_pca, None) /\
    ica dm_pca 1 false true s = Ok (dm_ica, None) /\
    nmf dm_ica 1 false true s nmf_default_init nmf_default_tol
    = Raise ValueError /\
    DriverExamples.run None false = Raise ValueError.
Proof.
  eexists. eexists. eexists. eexists. eexists.
  split; [reflexivity |].
  split; [unfold random_seeds; rewrite draw_seeds_eq; vm_compute; reflexivity |].
  split; [reflexivity |].
  split; [reflexivity |].
  pose proof DriverExamples.first_value_negative as Hneg.
  split.
  - run_model.
    destruct (Rlt_dec ((0 - np_mean [0; 2])
                       / handle_zeros_in_scale (np_std [0; 2])) 0);
      [reflexivity | contradiction].
  - unfold DriverExamples.run. rewrite main_eq.
    unfold random_seeds. rewrite draw_seeds_eq.
    run_model.
    destruct (Rlt_dec ((0 - np_mean [0; 2])
                       / handle_zeros_in_scale (np_std [0; 2])) 0);
      [reflexivity | contradiction].
Qed.


(** The two runs of the linear-subspace variant alone, with and without
    the shuffle flag, end normally; the [seed] column holds the two drawn
    seeds for the training rows and again for the testing rows. *)
Lemma pca_run_shuffled :
  exists r,
    main (DEC := StandIn.axes) (RR := StandIn.ridge) (RNG := StandIn.rng)
      (OS := StandIn.os) DriverExamples.cfg
      (with_shuffle (DriverExamples.args (Some "pca"%string) false) true)
      DriverExamples.train DriverExamples.test [] = Ok r /\
    column_of "seed" (fst r)
    = [Some (Int 496027); Some (Int 302264);
       Some (Int 496027); Some (Int 302264)].
Proof.
  rewrite main_eq. unfold random_seeds. rewrite draw_seeds_eq.
  run_model. eexists. split; reflexivity.
Qed.

Lemma pca_run_plain :
  exists r,
    main (DEC := StandIn.axes) (RR := StandIn.ridge) (RNG := StandIn.rng)
      (OS := StandIn.os) DriverExamples.cfg
      (with_shuffle (DriverExamples.args (Some "pca"%string) false) false)
      DriverExamples.train DriverExamples.test [] = Ok r /\
    column_of "seed" (fst r)
    = [Some (Int 496027); Some (Int 302264);
       Some (Int 496027); Some (Int 302264)].
Proof.
  rewrite main_eq. unfold random_seeds. rewrite draw_seeds_eq.
  run_model. eexists. split; reflexivity.
Qed.

Lemma seeds_from_master_seed_and_count_witness :
  exists t_on fs_on t_off fs_off,
    main (DEC := StandIn.axes) (RR := StandIn.ridge) (RNG := StandIn.rng)
      (OS := StandIn.os) DriverExamples.cfg
      (with_shuffle (DriverExamples.args (Some "pca"%string) false) true)
      DriverExamples.train DriverExamples.test [] = Ok (t_on, fs_on) /\
    main (DEC := StandIn.axes) (RR := StandIn.ridge) (RNG := StandIn.rng)
      (OS := StandIn.os) DriverExamples.cfg
      (with_shuffle (DriverExamples.args (Some "pca"%string) false) false)
      DriverExamples.train DriverExamples.test [] = Ok (t_off, fs_off) /\
    column_of "seed" t_on = column_of "seed" t_off.
Proof.
  destruct pca_run_shuffled as [[t_on fs_on] [Hon _]].
  destruct pca_run_plain as [[t_off fs_off] [Hoff _]].
  exists t_on, fs_on, t_off, fs_off.
  split; [exact Hon |]. split; [exact Hoff |].
  exact (proj2 (proj2 (seeds_from_master_seed_and_count
                         (DEC := StandIn.axes) (RR := StandIn.ridge)
                         (RNG := StandIn.rng) (OS := StandIn.os)
                         DriverExamples.cfg
                         (DriverExamples.args (Some "pca"%string) false)))
           DriverExamples.train DriverExamples.test [] t_on fs_on
           t_off fs_off Hon Hoff).
Defined.

(** C3 as stated fails on uniqueness: the seeds are drawn with
    replacement, and a count above the million values of the range makes
    a repeated seed certain. *)
Lemma drawn_seeds_not_unique :
  exists seeds,
    draw_seeds (RNG := StandIn.rng) (default_seed DriverExamples.cfg)
      (S (Z.to_nat 1000000)) = Ok seeds /\
    ~ NoDup seeds.
Proof.
  eexists. split; [apply draw_seeds_eq |].
  apply (@draw_seeds_pigeonhole StandIn.rng (default_seed DriverExamples.cfg)
           (S (Z.to_nat 1000000))).
  - apply Nat.lt_succ_diag_r.
  - apply draw_seeds_eq.
Qed.

(* ===================================================================== *)
(** ** Further properties: construction and normalization *)
(* ===================================================================== *)

Section ConstructionEdges.

Context {DEC : Decomposition}.

(** A column selection makes the constructor raise: once the training
    frame is there, an index out of range is an [IndexError], and otherwise
    the constructor reads [self.test_df] before it is assigned, which is an
    [AttributeError]. No call with [select_columns] returns an object. *)
Theorem init_select_columns_raises
    (fs : filesystem) (filename : option string) (df0 : option DataFrame)
    (sel : list nat) (gm : option (list R)) (tf : option string)
    (tdf : option DataFrame) (d : DataFrame) :
  sel <> [] ->
  train_source fs filename df0 = Ok (Some d) ->
  __init__ fs filename df0 sel gm tf tdf
  = Raise (if forallb (fun j => (j <? length (columns d))%nat) sel
           then AttributeError else IndexError).
Proof.
  intros Hsel Hd. unfold __init__. fold (train_source fs filename df0).
  rewrite Hd. cbn [bind].
  destruct sel as [| j sel]; [contradiction |].
  cbn [getattr bind]. unfold iloc_columns.
  destruct (forallb _ (j :: sel)); reflexivity.
Qed.

(** Without a training frame ([filename] and [df] both left at their
    defaults) the constructor raises an [AttributeError]. *)
Theorem init_without_data_raises
    (fs : filesystem) (sel : list nat) (tf : option string)
    (tdf : option DataFrame) :
  __init__ fs None None sel None tf tdf = Raise AttributeError.
Proof.
  unfold __init__. cbn [bind]. destruct sel; reflexivity.
Qed.

End ConstructionEdges.

Lemma init_select_columns_raises_witness :
  __init__ (DEC := StandIn.axes) InitExamples.disk (Some "train.tsv"%string)
    None [0%nat] None None None = Raise AttributeError /\
  __init__ (DEC := StandIn.axes) InitExamples.disk (Some "train.tsv"%string)
    None [0%nat; 2%nat] None None None = Raise IndexError.
Proof.
  split.
  - apply (init_select_columns_raises (DEC := StandIn.axes) InitExamples.disk
             (Some "train.tsv"%string) None (sel := [0%nat]) None None None
             (d := InitExamples.train_a)); [discriminate | reflexivity].
  - apply (init_select_columns_raises (DEC := StandIn.axes) InitExamples.disk
             (Some "train.tsv"%string) None (sel := [0%nat; 2%nat]) None None
             None (d := InitExamples.train_a)); [discriminate | reflexivity].
Defined.

Section NormalizerEdges.

Context {DEC : Decomposition}.

(** A method name other than ['zscore'] and ['zeroone'] raises
    [ValueError], whatever the data. *)
Theorem transform_unknown_method (self : DataModel) (how : string) :
  how <> "zscore"%string -> how <> "zeroone"%string ->
  transform self how = Raise ValueError.
Proof.
  intros H1 H2. unfold transform, fit_scaler.
  destruct (String.eqb_spec how "zscore"); [contradiction |].
  destruct (String.eqb_spec how "zeroone"); [contradiction |].
  reflexivity.
Qed.

Lemma Scaler_transform_rows (s : Scaler) (X : DataFrame) (v : matrix) :
  Scaler_transform s X = Ok v -> length v = length (values X).
Proof.
  unfold Scaler_transform.
  destruct (length (columns X) =? n_features_in_ s)%nat; [| discriminate].
  destruct s; intros H; inv_Ok H; apply length_map.
Qed.

(** The frames a successful [transform] stores. *)
Definition normalized_like (before after : DataFrame) : Prop :=
  index after = index before /\
  columns after = columns before /\
  shape after = shape before /\
  well_formed after /\
  length (values after) = length (values before).

(** A successful [transform] keeps the row and column labels and the shape
    of the training frame and of the test frame, stores frames whose
    values have that shape, records the method, and does not touch the
    fitted models; without a test frame it stores none. *)
Theorem transform_keeps_labels (self self' : DataModel) (how : string) :
  transform self how = Ok self' ->
  normalized_like (df self) (df self') /\
  match test_df self, test_df self' with
  | Some t, Some t' => normalized_like t t'
  | None, None => transform_test_fit self' = transform_test_fit self
  | _, _ => False
  end /\
  transformation self' = Some how /\
  (how = "zscore"%string \/ how = "zeroone"%string) /\
  num_genes self' = num_genes self /\
  fitted_flags self' = fitted_flags self.
Proof.
  intros H. pose proof (transform_flags _ _ H) as Hflags.
  unfold transform in H.
  inv_bind H as fit Hfit. inv_bind H as tv Htv. inv_bind H as nd Hnd.
  inv_bind H as tt Htt. destruct tt as [tf nt]. inv_Ok H.
  cbn [df test_df transformation num_genes transform_test_fit] in *.
  apply pd_DataFrame_Ok in Hnd. destruct Hnd as [-> Hs].
  split.
  { unfold normalized_like, shape, well_formed. cbn [index columns values].
    repeat split; auto. eapply Scaler_transform_rows; eauto. }
  split.
  { destruct (test_df self) as [t |].
    - inv_bind Htt as tfit Htf. inv_bind Htt as ttv Httv.
      inv_bind Htt as nt' Hnt. inv_Ok Htt.
      apply pd_DataFrame_Ok in Hnt. destruct Hnt as [-> Hs'].
      unfold normalized_like, shape, well_formed. cbn [index columns values].
      repeat split; auto. eapply Scaler_transform_rows; eauto.
    - inv_Ok Htt. reflexivity. }
  split; [reflexivity |]. split; [| split; [reflexivity | exact Hflags]].
  unfold fit_scaler in Hfit.
  destruct (String.eqb_spec how "zscore"); [now left |].
  destruct (String.eqb_spec how "zeroone"); [now right | discriminate].
Qed.

End NormalizerEdges.

Lemma transform_unknown_method_witness :
  transform (NormalizerExamples.model NormalizerExamples.test) "minmax"
  = Raise ValueError.
Proof.
  apply transform_unknown_method; discriminate.
Defined.

Lemma transform_keeps_labels_witness :
  exists self',
    transform (NormalizerExamples.model NormalizerExamples.test) "zscore"
    = Ok self' /\
    normalized_like NormalizerExamples.train (df self') /\
    transformation self' = Some "zscore"%string.
Proof.
  eexists. split; [reflexivity |].
  match goal with
  | |- normalized_like _ (df ?s) /\ _ =>
      destruct (@transform_keeps_labels StandIn.axes
                  (NormalizerExamples.model NormalizerExamples.test) s
                  "zscore"%string eq_refl) as (Hdf & _ & Hhow & _)
  end.
  split; [exact Hdf | exact Hhow].
Defined.

(* ===================================================================== *)
(** ** Further properties: the reconstruction score *)
(* ===================================================================== *)

(** One term of the cross-entropy: for a target in [[0, 1]] it is not
    negative, whatever the logit. *)
Lemma cross_entropy_term_nonneg (l z : R) :
  0 <= z <= 1 -> 0 <= - l * z + ln (1 + exp l).
Proof.
  intros [Hz0 Hz1].
  pose proof (exp_pos l) as Hexp.
  assert (Hpos : 0 < ln (1 + exp l)).
  { rewrite <- ln_1. apply ln_increasing; lra. }
  assert (Hl : l < ln (1 + exp l)).
  { rewrite <- (ln_exp l) at 1. apply ln_increasing; lra. }
  destruct (Rle_dec 0 l) as [Hl0 | Hl0].
  - assert (l * z <= l) by nra. lra.
  - assert (0 <= - l * z) by nra. lra.
Qed.

Lemma Forall_zip_with {A B C : Type} (P : C -> Prop) (f : A -> B -> C) l l' :
  (forall a b, In a l -> In b l' -> P (f a b)) ->
  Forall P (zip_with f l l').
Proof.
  revert l'. induction l as [| a t IH]; intros [| b t'] H; cbn [zip_with];
    constructor.
  - apply H; now left.
  - apply IH. intros a' b' Ha Hb. apply H; now right.
Qed.

(** The mean of the per-sample terms is not negative when the targets lie
    in [[0, 1]], whatever the logits. *)
Lemma cross_entropy_mean_nonneg (l z : matrix) (p : R) :
  0 <= p ->
  Forall (Forall (fun v => 0 <= v <= 1)) z ->
  0 <= np_mean (map (fun row => p * np_mean row)
          (zip_with (zip_with (fun xv zv => - xv * zv + ln (1 + exp xv))) l z)).
Proof.
  intros Hp Hz.
  apply np_mean_nonneg. apply Forall_forall. intros v Hv.
  apply in_map_iff in Hv. destruct Hv as (row & <- & Hrow).
  apply Rmult_le_pos; [exact Hp |]. apply np_mean_nonneg.
  revert row Hrow. apply Forall_forall.
  apply Forall_zip_with. intros xr zr _ Hzr.
  apply Forall_zip_with. intros xv zv _ Hzv.
  apply cross_entropy_term_nonneg.
  rewrite Forall_forall in Hz. specialize (Hz zr Hzr).
  rewrite Forall_forall in Hz. now apply Hz.
Qed.

(** After the two masked assignments every entry lies in
    [[epsilon, 1 - epsilon]], when [epsilon <= 1 - epsilon]. *)
Lemma masked_in_range (epsilon : R) (x : matrix) :
  epsilon <= 1 - epsilon ->
  Forall (Forall (fun v => epsilon <= v <= 1 - epsilon))
    (mask_assign (fun v => Rgtb v (1 - epsilon)) (1 - epsilon)
       (mask_assign (fun v => Rltb v epsilon) epsilon x)).
Proof.
  intros He. unfold mask_assign. rewrite map_map.
  apply Forall_map, Forall_forall. intros r _. rewrite map_map.
  apply Forall_map, Forall_forall. intros v _.
  pose proof (two_masks_clip v He) as E. cbv zeta in E. rewrite E.
  unfold clip. split.
  - apply Rmin_glb; [| exact He].
    apply Rmax_r.
  - apply Rmin_r.
Qed.

(** For a clipping value between the default [1e-07] and 1/2 the two
    masked assignments leave every entry of the reconstruction strictly
    inside (0, 1), so that the quotient and the logarithm of the logit
    are taken where they are defined; when moreover every entry of the
    original matrix lies in [[0, 1]] and the feature count is not
    negative, a score that is computed is not negative, whatever the
    reconstruction. *)
Theorem score_nonneg (x z : matrix) (p epsilon score : R) :
  default_epsilon <= epsilon < / 2 ->
  0 <= p ->
  Forall (Forall (fun v => 0 <= v <= 1)) z ->
  _approx_keras_binary_cross_entropy x z p epsilon = Ok score ->
  Forall (Forall (fun v => 0 < v < 1 /\ 0 < v / (1 - v)))
    (mask_assign (fun v => Rgtb v (1 - epsilon)) (1 - epsilon)
       (mask_assign (fun v => Rltb v epsilon) epsilon x)) /\
  0 <= score.
Proof.
  intros [He0 He1] Hp Hz H.
  assert (Hpos : 0 < epsilon) by (unfold default_epsilon in He0; lra).
  split.
  - assert (He : epsilon <= 1 - epsilon) by lra.
    pose proof (masked_in_range x He) as Hm.
    eapply Forall_impl; [| exact Hm]. intros r Hr.
    eapply Forall_impl; [| exact Hr]. cbv beta. intros v [Hv0 Hv1].
    split; [lra |]. apply Rdiv_lt_0_compat; lra.
  - rewrite score_unfold in H.
    destruct (same_shape _ _); [| discriminate]. inv_Ok H.
    now apply cross_entropy_mean_nonneg.
Qed.

Lemma score_nonneg_witness :
  exists score,
    _approx_keras_binary_cross_entropy [[/ 2; 3]] [[1; 0]] 2 (/ 10) = Ok score /\
    0 <= score.
Proof.
  eexists. split; [reflexivity |].
  refine (proj2 (@score_nonneg [[/ 2; 3]] [[1; 0]] 2 (/ 10) _ _ _ _ eq_refl));
    [unfold default_epsilon; lra | lra |].
  repeat constructor; lra.
Defined.

(** The score reads the reconstruction through the clip only: two
    reconstructions of the same shape whose entries agree after clipping
    into [[epsilon, 1 - epsilon]] have the same score; entries below
    [epsilon] count as [epsilon], entries above [1 - epsilon] as
    [1 - epsilon]. *)
Theorem score_depends_on_clipped (x x' z : matrix) (p epsilon : R) :
  0 < epsilon < / 2 ->
  map (map (clip epsilon (1 - epsilon))) x
  = map (map (clip epsilon (1 - epsilon))) x' ->
  _approx_keras_binary_cross_entropy x z p epsilon
  = _approx_keras_binary_cross_entropy x' z p epsilon.
Proof.
  intros He Hclip. rewrite !score_unfold.
  rewrite !prepared_clip by lra.
  assert (E : map (map (fun v => logit (clip epsilon (1 - epsilon) v))) x
              = map (map (fun v => logit (clip epsilon (1 - epsilon) v))) x').
  { apply (f_equal (map (map logit))) in Hclip.
    rewrite !map_map in Hclip.
    erewrite map_ext in Hclip; [| intros r; apply map_map].
    symmetry in Hclip.
    erewrite map_ext in Hclip; [| intros r; apply map_map].
    now symmetry. }
  now rewrite E.
Qed.

Lemma clip_below (lo hi v : R) : v <= lo -> lo <= hi -> clip lo hi v = lo.
Proof.
  intros H1 H2. unfold clip. rewrite Rmax_right by lra. apply Rmin_left; lra.
Qed.

Lemma clip_above (lo hi v : R) : hi <= v -> lo <= hi -> clip lo hi v = hi.
Proof.
  intros H1 H2. unfold clip. rewrite Rmax_left by lra. apply Rmin_right; lra.
Qed.

Lemma score_depends_on_clipped_witness :
  _approx_keras_binary_cross_entropy [[- 4; 7]] [[1; 0]] 2 (/ 10)
  = _approx_keras_binary_cross_entropy [[/ 10; 1 - / 10]] [[1; 0]] 2 (/ 10).
Proof.
  apply score_depends_on_clipped; [lra |].
  cbn [map].
  rewrite (clip_below (v := - 4)), (clip_above (v := 7)) by lra.
  rewrite (clip_below (v := / 10)), (clip_above (v := 1 - / 10)) by lra.
  reflexivity.
Defined.

(* ===================================================================== *)
(** ** Further properties: the cache of the pathway-regularized method *)
(* ===================================================================== *)

Lemma lookup_filter_other (p q : string) (fs : filesystem) :
  lookup p fs = None ->
  lookup p (filter (fun pf => negb (String.eqb q (fst pf))) fs) = None.
Proof.
  induction fs as [| [r f] fs IH]; cbn [lookup filter fst]; [reflexivity |].
  destruct (String.eqb_spec p r) as [-> | Hpr]; [discriminate |].
  intros H. destruct (String.eqb q r); cbn [negb lookup]; [now apply IH |].
  destruct (String.eqb_spec p r); [contradiction | now apply IH].
Qed.

Lemma lookup_filter_same (p : string) (fs : filesystem) :
  lookup p (filter (fun pf => negb (String.eqb p (fst pf))) fs) = None.
Proof.
  induction fs as [| [r f] fs IH]; cbn [lookup filter fst]; [reflexivity |].
  destruct (String.eqb_spec p r) as [-> | Hpr]; cbn [negb lookup].
  - exact IH.
  - destruct (String.eqb_spec p r); [contradiction | exact IH].
Qed.

(** [os.remove] leaves no file under the removed name and brings back no
    file that was absent. *)
Lemma remove_file_same (p : string) (fs fs' : filesystem) :
  remove_file p fs = Ok fs' -> exists_ p fs' = false.
Proof.
  unfold remove_file. destruct (exists_ p fs); [| discriminate].
  intros H. inv_Ok H. unfold exists_. now rewrite lookup_filter_same.
Qed.

Lemma remove_file_other (p q : string) (fs fs' : filesystem) :
  remove_file q fs = Ok fs' -> exists_ p fs = false -> exists_ p fs' = false.
Proof.
  unfold remove_file. destruct (exists_ q fs); [| discriminate].
  intros H. inv_Ok H. unfold exists_.
  destruct (lookup p fs) eqn:E; [discriminate |].
  intros _. now rewrite lookup_filter_other.
Qed.

Section PlierCache.

Context {DEC : Decomposition} {RR : RidgeSolver} {OS : OperatingSystem}.
Variable cfg : config.

Local Open Scope py_scope.

(** The three output files of a fit. *)
Definition output_data (k : nat) (seed : Z) (sh : bool) : string :=
  (plier_output_prefix cfg k seed sh ++ "_z.tsv")%string.
Definition output_weights (k : nat) (seed : Z) (sh : bool) : string :=
  (plier_output_prefix cfg k seed sh ++ "_b.tsv")%string.
Definition output_l2 (k : nat) (seed : Z) (sh : bool) : string :=
  (plier_output_prefix cfg k seed sh ++ "_l2.tsv")%string.

(** The subprocess runs when the cache is bypassed or one of the two
    matrices is not there. *)
Definition runs_subprocess (fs : filesystem) (k : nat) (seed : Z)
    (sh sc : bool) : bool :=
  sc || (negb (exists_ (output_data k seed sh) fs)
         || negb (exists_ (output_weights k seed sh) fs)).

Lemma plier_outputs_eq (self : DataModel) (fs : filesystem) (k : nat)
    (pw : string) (sh : bool) (seed : Z) (vb sc : bool) :
  plier_outputs cfg self fs k pw sh seed vb sc
  = if runs_subprocess fs k seed sh sc then
      bind (check_call
              (plier_args cfg (NamedTemporaryFile fs) k seed pw
                 (plier_output_prefix cfg k seed sh) vb)
              (write (NamedTemporaryFile fs) (TableFile (df self)) fs))
        (remove_file (NamedTemporaryFile fs))
    else Ok fs.
Proof. reflexivity. Qed.

Lemma plier_eq (self : DataModel) (fs : filesystem) (k : nat) (pw : string)
    (tdf ttdf sh : bool) (seed : Z) (vb sc : bool) :
  plier cfg self fs k pw tdf ttdf sh seed vb sc
  = (fs1 <- plier_outputs cfg self fs k pw sh seed vb sc ;;
     b <- read_table (output_weights k seed sh) fs1 ;;
     z <- read_table (output_data k seed sh) fs1 ;;
     l2 <- loadtxt (output_l2 k seed sh) fs1 ;;
     fs2 <- (if sc
             then fs <- remove_file (output_data k seed sh) fs1 ;;
                  fs <- remove_file (output_weights k seed sh) fs ;;
                  remove_file (output_l2 k seed sh) fs
             else Ok fs1) ;;
     X <- match test_df self with
          | None => Raise TypeError
          | Some t => getitem t (index z)
          end ;;
     if tdf then
       Ok (fs2, plier_assigned self b z (plier_test_df self), Some (T b))
     else if ttdf then
       emb <- _plier_on_test_data X (T z) l2 ;;
       Ok (fs2, plier_assigned self b z (Some emb), None)
     else Ok (fs2, plier_assigned self b z (plier_test_df self), None)).
Proof. reflexivity. Qed.

(** A cache hit: when both matrices of an earlier fit are on disk and the
    cache is not bypassed, [plier] starts no subprocess. Its outcome is
    the same on every operating system, and a call that succeeds leaves
    the files exactly as they were. *)
Theorem plier_cache_hit (self : DataModel) (fs : filesystem) (k : nat)
    (pw : string) (tdf ttdf sh : bool) (seed : Z) (vb : bool) :
  exists_ (output_data k seed sh) fs = true ->
  exists_ (output_weights k seed sh) fs = true ->
  (forall OS' : OperatingSystem,
      plier (OS := OS') cfg self fs k pw tdf ttdf sh seed vb false
      = plier cfg self fs k pw tdf ttdf sh seed vb false) /\
  (forall fs' self' out,
      plier cfg self fs k pw tdf ttdf sh seed vb false = Ok (fs', self', out) ->
      fs' = fs).
Proof.
  intros Hz Hb.
  assert (Hout : forall OS' : OperatingSystem,
             plier_outputs (OS := OS') cfg self fs k pw sh seed vb false = Ok fs).
  { intros OS'. unfold plier_outputs.
    fold (output_data k seed sh) (output_weights k seed sh).
    now rewrite Hz, Hb. }
  split.
  - intros OS'. unfold plier.
    fold (plier_outputs (OS := OS') cfg self fs k pw sh seed vb false).
    fold (plier_outputs cfg self fs k pw sh seed vb false).
    now rewrite !Hout.
  - intros fs' self' out H. rewrite plier_eq, Hout in H. cbn [bind] in H.
    inv_bind H as b Hbr. inv_bind H as z Hzr. inv_bind H as l2 Hl.
    inv_bind H as X HX.
    destruct tdf; [inv_Ok H; reflexivity |].
    destruct ttdf; [inv_bind H as emb He |]; inv_Ok H; reflexivity.
Qed.

(** When the subprocess runs and exits with an error, [plier] raises that
    error. *)
Theorem plier_subprocess_failure (self : DataModel) (fs : filesystem)
    (k : nat) (pw : string) (tdf ttdf sh : bool) (seed : Z) (vb sc : bool)
    (e : exception) :
  runs_subprocess fs k seed sh sc = true ->
  check_call (plier_args cfg (NamedTemporaryFile fs) k seed pw
                (plier_output_prefix cfg k seed sh) vb)
    (write (NamedTemporaryFile fs) (TableFile (df self)) fs) = Raise e ->
  plier cfg self fs k pw tdf ttdf sh seed vb sc = Raise e.
Proof.
  intros Hrun Hcall. rewrite plier_eq, plier_outputs_eq, Hrun, Hcall.
  reflexivity.
Qed.

(** The cache test looks at the two matrices only: when they are on disk
    but the file with the regularization value is not, [plier] starts no
    subprocess and raises [FileNotFoundError]. *)
Theorem plier_cache_without_l2 (self : DataModel) (fs : filesystem)
    (k : nat) (pw : string) (tdf ttdf sh : bool) (seed : Z) (vb : bool)
    (b z : DataFrame) :
  lookup (output_weights k seed sh) fs = Some (TableFile b) ->
  lookup (output_data k seed sh) fs = Some (TableFile z) ->
  lookup (output_l2 k seed sh) fs = None ->
  plier cfg self fs k pw tdf ttdf sh seed vb false = Raise FileNotFoundError.
Proof.
  intros Hb Hz Hl. rewrite plier_eq, plier_outputs_eq.
  unfold runs_subprocess, exists_. rewrite Hb, Hz. cbn [negb orb bind].
  unfold read_table, loadtxt. rewrite Hb, Hz, Hl. reflexivity.
Qed.

(** After a successful call in which the subprocess ran, the temporary
    file with the expression data is gone; after a successful call that
    bypasses the cache, the three output files are gone as well. *)
Theorem plier_cleans_up (self self' : DataModel) (fs fs' : filesystem)
    (k : nat) (pw : string) (tdf ttdf sh : bool) (seed : Z) (vb sc : bool)
    (out : option DataFrame) :
  runs_subprocess fs k seed sh sc = true ->
  plier cfg self fs k pw tdf ttdf sh seed vb sc = Ok (fs', self', out) ->
  exists_ (NamedTemporaryFile fs) fs' = false /\
  (sc = true ->
   exists_ (output_data k seed sh) fs' = false /\
   exists_ (output_weights k seed sh) fs' = false /\
   exists_ (output_l2 k seed sh) fs' = false).
Proof.
  intros Hrun H. rewrite plier_eq, plier_outputs_eq, Hrun in H.
  inv_bind H as fs1 Hout. inv_bind Hout as fsc Hcall.
  inv_bind H as b Hb. inv_bind H as z Hz. inv_bind H as l2 Hl.
  inv_bind H as fs2 Hrm. inv_bind H as X HX.
  assert (Hfs : fs' = fs2).
  { destruct tdf; [inv_Ok H; reflexivity |].
    destruct ttdf; [inv_bind H as emb He |]; inv_Ok H; reflexivity. }
  subst fs'. clear H.
  apply remove_file_same in Hout.
  destruct sc.
  - inv_bind Hrm as fa Ha. inv_bind Hrm as fb Hb'.
    split.
    + eapply remove_file_other; [exact Hrm |].
      eapply remove_file_other; [exact Hb' |].
      eapply remove_file_other; [exact Ha | exact Hout].
    + intros _. split; [| split].
      * eapply remove_file_other; [exact Hrm |].
        eapply remove_file_other; [exact Hb' |].
        eapply remove_file_same; exact Ha.
      * eapply remove_file_other; [exact Hrm |].
        eapply remove_file_same; exact Hb'.
      * eapply remove_file_same; exact Hrm.
  - inv_Ok Hrm. split; [exact Hout | discriminate].
Qed.

End PlierCache.

Module PlierCacheExamples.

(** A machine on which the factorization succeeds: the subprocess leaves
    the three output files of [PlierExamples] under the prefix it is
    given. *)
Definition os_with_rscript : OperatingSystem :=
  {| NamedTemporaryFile := fun _ => "/tmp/tmpexpression"%string;
     abspath := fun p => p;
     check_call := fun args fs =>
       let prefix := nth 11 args EmptyString in
       Ok (write (prefix ++ "_l2.tsv")%string (ScalarFile 1)
             (write (prefix ++ "_b.tsv")%string (TableFile PlierExamples.b_file)
                (write (prefix ++ "_z.tsv")%string
                   (TableFile PlierExamples.z_file) fs))) |}.

(** The cache of [PlierExamples] without the regularization value. *)
Definition disk_without_l2 : filesystem :=
  [("/repo/data/plier_output/plier_k1_s5_z.tsv", TableFile PlierExamples.z_file);
   ("/repo/data/plier_output/plier_k1_s5_b.tsv", TableFile PlierExamples.b_file)]%string.

End PlierCacheExamples.

Lemma plier_cache_hit_witness :
  (forall OS' : OperatingSystem,
      plier (RR := StandIn.ridge) (OS := OS') PlierExamples.cfg
        PlierExamples.self PlierExamples.disk 1 "pathways.tsv" false true
        false 5 false false
      = plier (RR := StandIn.ridge) (OS := StandIn.os) PlierExamples.cfg
          PlierExamples.self PlierExamples.disk 1 "pathways.tsv" false true
          false 5 false false) /\
  (forall fs' self' out,
      plier (RR := StandIn.ridge) (OS := StandIn.os) PlierExamples.cfg
        PlierExamples.self PlierExamples.disk 1 "pathways.tsv" false true
        false 5 false false = Ok (fs', self', out) ->
      fs' = PlierExamples.disk).
Proof.
  apply (plier_cache_hit (RR := StandIn.ridge) (OS := StandIn.os)
           PlierExamples.cfg PlierExamples.self PlierExamples.disk 1
           "pathways.tsv"%string false true false 5%Z false);
    reflexivity.
Defined.

Lemma plier_subprocess_failure_witness :
  plier (RR := StandIn.ridge) (OS := StandIn.os) PlierExamples.cfg
    PlierExamples.self [] 1 "pathways.tsv" false true false 5 false false
  = Raise CalledProcessError.
Proof.
  apply (plier_subprocess_failure (RR := StandIn.ridge) (OS := StandIn.os)
           PlierExamples.cfg PlierExamples.self [] 1 "pathways.tsv"%string
           false true false 5%Z false false); reflexivity.
Defined.

Lemma plier_cache_without_l2_witness :
  plier (RR := StandIn.ridge) (OS := StandIn.os) PlierExamples.cfg
    PlierExamples.self PlierCacheExamples.disk_without_l2 1 "pathways.tsv"
    false true false 5 false false
  = Raise FileNotFoundError.
Proof.
  apply (plier_cache_without_l2 (RR := StandIn.ridge) (OS := StandIn.os)
           PlierExamples.cfg PlierExamples.self
           PlierCacheExamples.disk_without_l2 1 "pathways.tsv"%string
           false true false 5%Z false
           (b := PlierExamples.b_file) (z := PlierExamples.z_file));
    reflexivity.
Defined.

Lemma plier_cleans_up_witness :
  exists self',
    plier (RR := StandIn.ridge) (OS := PlierCacheExamples.os_with_rscript)
      PlierExamples.cfg PlierExamples.self [] 1 "pathways.tsv" true false
      false 5 false true
    = Ok ([], self', Some (T PlierExamples.b_file)) /\
    exists_ "/tmp/tmpexpression" (@nil (string * file)) = false.
Proof.
  eexists. split; [reflexivity |].
  match goal with
  | |- exists_ _ ?fs' = false =>
      exact (proj1 (plier_cleans_up (RR := StandIn.ridge)
                      (OS := PlierCacheExamples.os_with_rscript)
                      PlierExamples.cfg PlierExamples.self [] 1
                      "pathways.tsv"%string true false false 5%Z false true
                      (fs' := fs') eq_refl eq_refl))
  end.
Defined.

(* ===================================================================== *)
(** ** Further properties: persisting the models *)
(* ===================================================================== *)

Lemma append_cancel_l (a b c : string) :
  (a ++ b)%string = (a ++ c)%string -> b = c.
Proof.
  induction a as [| ch a IH]; cbn [String.append]; [auto |].
  intros H. injection H as H. auto.
Qed.

(** [os.path.join] is injective in a second component that is not
    absolute. *)
Lemma path_join_cancel (dir x y : string) :
  starts_with_slash x = false -> starts_with_slash y = false ->
  path_join dir x = path_join dir y -> x = y.
Proof.
  unfold path_join. intros -> ->.
  destruct (last_char dir) as [c |]; [| auto].
  destruct (Ascii.eqb c "/"); intros H; apply append_cancel_l in H; [auto |].
  cbn [String.append] in H. now injection H.
Qed.

(** The file a method's matrix is written to:
    [os.path.join(output_dir, '{}_{}'.format(prefix, file_suffix))]. *)
Definition output_file (output_dir file_suffix prefix : string) : string :=
  path_join output_dir (prefix ++ "_" ++ file_suffix)%string.

(** The four methods write to four different files. *)
Lemma output_file_inj (dir suffix n1 n2 : string) :
  In n1 list_algorithms -> In n2 list_algorithms ->
  output_file dir suffix n1 = output_file dir suffix n2 -> n1 = n2.
Proof.
  unfold output_file, list_algorithms. intros H1 H2 H.
  apply path_join_cancel in H.
  - cbn [In] in H1, H2.
    destruct H1 as [<- | [<- | [<- | [<- | []]]]];
      destruct H2 as [<- | [<- | [<- | [<- | []]]]];
      try reflexivity; cbn [String.append] in H; discriminate.
  - cbn [In] in H1. destruct H1 as [<- | [<- | [<- | [<- | []]]]]; reflexivity.
  - cbn [In] in H2. destruct H2 as [<- | [<- | [<- | [<- | []]]]]; reflexivity.
Qed.

Section Persist.

Context {DEC : Decomposition}.

Local Open Scope py_scope.

Variables (dir suffix : string).

(** A writer of one file per fitted method: a method without a frame is
    skipped, another one has its [content] computed and written. *)
Variable step : filesystem -> string * method_attrs -> result filesystem.
Variable content : method_attrs -> result DataFrame.
Hypothesis step_eq : forall fs name a,
  step fs (name, a)
  = if has_df a
    then d <- content a ;; Ok (write (output_file dir suffix name) (TableFile d) fs)
    else Ok fs.

Lemma lookup_write_same (p : string) (f : file) (fs : filesystem) :
  lookup p (write p f fs) = Some f.
Proof. unfold write. cbn [lookup]. now rewrite String.eqb_refl. Qed.

Lemma lookup_write_other (p q : string) (f : file) (fs : filesystem) :
  p <> q -> lookup p (write q f fs) = lookup p fs.
Proof.
  intros H. unfold write. cbn [lookup].
  destruct (String.eqb_spec p q); [contradiction | reflexivity].
Qed.

Lemma fold_step_other (ms : list (string * method_attrs)) (fs fs' : filesystem)
    (p : string) :
  fold_result step ms fs = Ok fs' ->
  (forall name a, In (name, a) ms -> p <> output_file dir suffix name) ->
  lookup p fs' = lookup p fs.
Proof.
  revert fs. induction ms as [| [name a] ms IH]; intros fs H Hp;
    cbn [fold_result] in H.
  - now inv_Ok H.
  - inv_bind H as fs1 Hs.
    rewrite (IH fs1 H) by (intros n' a' Hn'; apply (Hp n' a'); now right).
    rewrite step_eq in Hs. destruct (has_df a).
    + inv_bind Hs as d Hd. inv_Ok Hs. apply lookup_write_other.
      apply (Hp name a). now left.
    + now inv_Ok Hs.
Qed.

Lemma fold_step_read_back (ms : list (string * method_attrs))
    (fs fs' : filesystem) (name : string) (a : method_attrs) :
  fold_result step ms fs = Ok fs' ->
  NoDup (map fst ms) ->
  (forall n, In n (map fst ms) -> In n list_algorithms) ->
  In (name, a) ms ->
  has_df a = true ->
  exists d, content a = Ok d /\
            read_table (output_file dir suffix name) fs' = Ok d.
Proof.
  revert fs. induction ms as [| [n0 a0] ms IH]; intros fs H Hnd Hnames Hin Hdf;
    cbn [fold_result] in H; [contradiction |].
  inv_bind H as fs1 Hs. cbn [map fst] in Hnd, Hnames.
  apply NoDup_cons_iff in Hnd. destruct Hnd as [Hnotin Hnd].
  destruct Hin as [E | Hin].
  - inv_Ok E. rewrite step_eq, Hdf in Hs. inv_bind Hs as d Hd. inv_Ok Hs.
    exists d. split; [exact Hd |]. unfold read_table.
    erewrite fold_step_other; [| exact H |].
    + now rewrite lookup_write_same.
    + intros n' a' Hin' Heq. apply output_file_inj in Heq.
      * subst n'. apply Hnotin. apply in_map_iff. now exists (name, a').
      * apply Hnames. now left.
      * apply Hnames. right. apply in_map_iff. now exists (n', a').
  - eapply IH; eauto. intros n Hn. apply Hnames. now right.
Qed.

End Persist.

Section PersistModels.

Context {DEC : Decomposition}.

Local Open Scope py_scope.

Lemma methods_names (self : DataModel) : map fst (methods self) = list_algorithms.
Proof. reflexivity. Qed.

Lemma NoDup_list_algorithms : NoDup list_algorithms.
Proof.
  unfold list_algorithms.
  repeat (constructor; [cbn [In]; intuition discriminate |]). constructor.
Qed.

(** What [write_models] writes for a fitted method: the training
    embedding, or the test embedding under the row labels of the test frame
    and the column labels of the training embedding. *)
Definition model_content (self : DataModel) (test_set : bool)
    (a : method_attrs) : result DataFrame :=
  method_df <- getattr (attr_df a) ;;
  method_test_df <- getattr (attr_test_df a) ;;
  if test_set then
    t <- getattr (test_df self) ;;
    pd_DataFrame method_test_df (index t) (columns method_df)
  else Ok method_df.

Lemma write_method_eq (self : DataModel) (dir suffix : string) (test_set : bool)
    (fs : filesystem) (name : string) (a : method_attrs) :
  write_method self dir suffix test_set fs (name, a)
  = if has_df a
    then d <- model_content self test_set a ;;
         Ok (write (output_file dir suffix name) (TableFile d) fs)
    else Ok fs.
Proof.
  unfold write_method, has_df, model_content, output_file.
  destruct (attr_df a) as [mdf |]; [| reflexivity]. cbn [getattr bind].
  destruct (attr_test_df a) as [mt |]; [| reflexivity]. cbn [getattr bind].
  destruct test_set; [| reflexivity].
  destruct (test_df self) as [t |]; [| reflexivity]. cbn [getattr bind].
  destruct (pd_DataFrame mt (index t) (columns mdf)); reflexivity.
Qed.

Lemma write_weights_eq (dir suffix : string) (fs : filesystem) (name : string)
    (a : method_attrs) :
  write_weights dir suffix fs (name, a)
  = if has_df a
    then d <- getattr (attr_weights a) ;;
         Ok (write (output_file dir suffix name) (TableFile d) fs)
    else Ok fs.
Proof.
  unfold write_weights, has_df, output_file.
  destruct (attr_df a); reflexivity.
Qed.

(** Round trip of [write_models]: after a successful call, the file of
    every fitted method reads back as the embedding that was to be
    written, and every file that is not one of the four output files is as
    before. *)
Theorem write_models_read_back (self : DataModel) (fs fs' : filesystem)
    (dir suffix : string) (test_set : bool) :
  write_models self fs dir suffix test_set = Ok fs' ->
  (forall name a,
      In (name, a) (methods self) -> has_df a = true ->
      exists d, model_content self test_set a = Ok d /\
                read_table (output_file dir suffix name) fs' = Ok d) /\
  (forall p,
      (forall name, In name list_algorithms -> p <> output_file dir suffix name) ->
      lookup p fs' = lookup p fs).
Proof.
  unfold write_models. intros H. split.
  - intros name a Hin Hdf.
    eapply (@fold_step_read_back _ dir suffix _ _
              (write_method_eq self dir suffix test_set)); eauto;
      rewrite methods_names; auto using NoDup_list_algorithms.
  - intros p Hp.
    eapply (@fold_step_other _ dir suffix _ _
              (write_method_eq self dir suffix test_set)); eauto.
    intros name a Hin. apply Hp. rewrite <- (methods_names self).
    apply in_map_iff. now exists (name, a).
Qed.

(** Round trip of [write_weight_matrices]. *)
Theorem write_weight_matrices_read_back (self : DataModel)
    (fs fs' : filesystem) (dir suffix : string) :
  write_weight_matrices self fs dir suffix = Ok fs' ->
  (forall name a,
      In (name, a) (methods self) -> has_df a = true ->
      exists w, attr_weights a = Some w /\
                read_table (output_file dir suffix name) fs' = Ok w) /\
  (forall p,
      (forall name, In name list_algorithms -> p <> output_file dir suffix name) ->
      lookup p fs' = lookup p fs).
Proof.
  unfold write_weight_matrices. intros H. split.
  - intros name a Hin Hdf.
    destruct (@fold_step_read_back _ dir suffix _ _
                (write_weights_eq dir suffix) (methods self) fs fs' name a)
      as (w & Hw & Hr); auto;
      try (rewrite methods_names; auto using NoDup_list_algorithms).
    exists w. split; [| exact Hr].
      destruct (attr_weights a); [now inv_Ok Hw | discriminate].
  - intros p Hp.
    eapply (@fold_step_other _ dir suffix _ _
              (write_weights_eq dir suffix)); eauto.
    intros name a Hin. apply Hp. rewrite <- (methods_names self).
    apply in_map_iff. now exists (name, a).
Qed.

(** Writing the training embeddings succeeds exactly when every fitted
    method also has its test embedding: the source passes
    [self.<m>_test_df] to the writer whether or not it is used, so a model
    fitted without [transform_test_df] cannot be written. *)
Definition lacks_test_embedding (m : string * method_attrs) : bool :=
  has_df (snd m) && match attr_test_df (snd m) with
                    | Some _ => false
                    | None => true
                    end.

Lemma fold_write_method_train (self : DataModel) (dir suffix : string)
    (ms : list (string * method_attrs)) (fs : filesystem) :
  if existsb lacks_test_embedding ms
  then fold_result (write_method self dir suffix false) ms fs
       = Raise AttributeError
  else exists fs', fold_result (write_method self dir suffix false) ms fs
                   = Ok fs'.
Proof.
  revert fs. induction ms as [| [name a] ms IH]; intros fs;
    cbn [existsb fold_result].
  - eauto.
  - rewrite write_method_eq. unfold lacks_test_embedding at 1. cbn [snd].
    unfold model_content, has_df.
    destruct (attr_df a) as [mdf |]; cbn [andb orb getattr bind].
    + destruct (attr_test_df a) as [mt |]; cbn [orb getattr bind];
        [apply IH | reflexivity].
    + apply IH.
Qed.

(** [write_models] on the training embeddings raises [AttributeError] when
    some fitted method has no test embedding, and succeeds otherwise. *)
Theorem write_models_train_needs_test_embeddings (self : DataModel)
    (fs : filesystem) (dir suffix : string) :
  if existsb lacks_test_embedding (methods self)
  then write_models self fs dir suffix false = Raise AttributeError
  else exists fs', write_models self fs dir suffix false = Ok fs'.
Proof. apply fold_write_method_train. Qed.

(** A model fitted by [pca] without the test embedding cannot be written. *)
Corollary write_models_after_pca_without_test (self self' : DataModel)
    (k : nat) (out : option matrix) (fs : filesystem) (dir suffix : string) :
  pca_test_df self = None ->
  pca self k false false = Ok (self', out) ->
  write_models self' fs dir suffix false = Raise AttributeError.
Proof.
  intros Hnone H.
  assert (W : if existsb lacks_test_embedding (methods self')
             then write_models self' fs dir suffix false = Raise AttributeError
             else exists fs', write_models self' fs dir suffix false = Ok fs')
    by apply fold_write_method_train.
  unfold pca in H. inv_bind H as ao Hm. destruct ao as [a o]. inv_Ok H.
  pose proof (sklearn_method_has_df _ _ _ _ _ _ _ Hm) as Hdf.
  unfold sklearn_method in Hm.
  inv_bind Hm as fe Hfit. destruct fe as [fit emb].
  inv_bind Hm as mdf H1. inv_bind Hm as mw H2. inv_Ok Hm.
  cbn [methods set_pca with_attrs pca_attrs existsb lacks_test_embedding snd
       has_df attr_df attr_test_df andb orb] in W.
  unfold pca_test_df in Hnone. rewrite Hnone in W |- *. cbn [orb] in W.
  exact W.
Qed.

End PersistModels.

Lemma write_models_read_back_witness :
  exists self' fs' d,
    pca (DEC := StandIn.axes) PlierExamples.self 1 false true = Ok (self', None) /\
    write_models self' [] "/repo/models" "5_z_test_matrix.tsv.gz" true = Ok fs' /\
    model_content self' true (pca_attrs self') = Ok d /\
    read_table "/repo/models/pca_5_z_test_matrix.tsv.gz" fs' = Ok d /\
    index d = ["t1"; "t2"]%string /\ columns d = ["pca_0"]%string /\
    lookup "/repo/models/other.tsv" fs' = None.
Proof.
  eexists. eexists. eexists.
  split; [reflexivity |]. split; [reflexivity |].
  match goal with
  | |- model_content ?s _ _ = _ /\ read_table _ ?fs' = _ /\ _ =>
      pose proof (@write_models_read_back StandIn.axes s [] fs'
                    "/repo/models"%string "5_z_test_matrix.tsv.gz"%string true
                    eq_refl) as [Hback Hother]
  end.
  split; [reflexivity |]. split; [reflexivity |].
  split; [reflexivity |]. split; [reflexivity |].
  apply Hother. intros name Hname.
  cbn [In list_algorithms] in Hname.
  destruct Hname as [<- | [<- | [<- | [<- | []]]]]; discriminate.
Defined.

Lemma write_weight_matrices_read_back_witness :
  exists self' fs' w,
    pca (DEC := StandIn.axes) PlierExamples.self 1 false true = Ok (self', None) /\
    write_weight_matrices self' [] "/repo/models" "5_weight_matrix.tsv.gz"
    = Ok fs' /\
    pca_weights self' = Some w /\
    read_table "/repo/models/pca_5_weight_matrix.tsv.gz" fs' = Ok w.
Proof.
  eexists. eexists. eexists.
  split; [reflexivity |]. split; [reflexivity |].
  match goal with
  | |- pca_weights ?s = _ /\ read_table _ ?fs' = _ =>
      destruct (proj1 (@write_weight_matrices_read_back StandIn.axes
                         s [] fs' "/repo/models"%string
                         "5_weight_matrix.tsv.gz"%string eq_refl)
                  "pca"%string (pca_attrs s) (or_introl eq_refl) eq_refl)
        as (w' & Hw & Hr)
  end.
  split; [reflexivity |].
  cbn [pca_attrs set_pca with_attrs attr_weights] in Hw. inv_Ok Hw.
  exact Hr.
Defined.

(* ===================================================================== *)
(** ** Further properties: the driver *)
(* ===================================================================== *)

Section DriverEdges.

Context {DEC : Decomposition} {RR : RidgeSolver} {RNG : RandomState}
        {OS : OperatingSystem}.
Variable cfg : config.

Local Open Scope py_scope.

(** With a seed count of zero the loop body never runs, and the script
    ends in the [ValueError] of [pd.concat] on an empty list. *)
Theorem main_without_seeds (args : Args.t) (train test : DataFrame)
    (fs : filesystem) (dm0 : DataModel) :
  Args.num_seeds args = 0%nat ->
  transform (initial_model train test) "zscore" = Ok dm0 ->
  main cfg args train test fs = Raise ValueError.
Proof.
  intros Hn Htr. rewrite main_eq, Htr. cbn [bind].
  unfold random_seeds. rewrite draw_seeds_eq, Hn. reflexivity.
Qed.

Lemma transform_plier_attrs (self self' : DataModel) (how : string) :
  transform self how = Ok self' -> plier_attrs self' = plier_attrs self.
Proof.
  unfold transform. intros H.
  inv_bind H as fit Hfit. inv_bind H as tv Htv. inv_bind H as nd Hnd.
  inv_bind H as tt Htt. destruct tt as [tf nt]. inv_Ok H. reflexivity.
Qed.

Lemma when_sklearn_plier_attrs (b : bool) (self self' : DataModel)
    (call : DataModel -> result (DataModel * option matrix)) :
  (forall s s' o, call s = Ok (s', o) -> plier_attrs s' = plier_attrs s) ->
  when b self call = Ok self' -> plier_attrs self' = plier_attrs self.
Proof.
  intros Hcall H. apply when_Ok in H. destruct H as [[_ ->] | [_ [o H]]];
    [reflexivity | eauto].
Qed.

Lemma pca_plier_attrs s s' k tdf ttdf o :
  pca s k tdf ttdf = Ok (s', o) -> plier_attrs s' = plier_attrs s.
Proof.
  unfold pca. intros H. inv_bind H as ao Hm. destruct ao. now inv_Ok H.
Qed.

Lemma ica_plier_attrs s s' k tdf ttdf seed o :
  ica s k tdf ttdf seed = Ok (s', o) -> plier_attrs s' = plier_attrs s.
Proof.
  unfold ica. intros H. inv_bind H as ao Hm. destruct ao. now inv_Ok H.
Qed.

Lemma nmf_plier_attrs s s' k tdf ttdf seed init tol o :
  nmf s k tdf ttdf seed init tol = Ok (s', o) -> plier_attrs s' = plier_attrs s.
Proof.
  unfold nmf. intros H. inv_bind H as ao Hm. destruct ao. now inv_Ok H.
Qed.

(** An iteration that runs the pathway-regularized method on a model
    without [plier_fit] raises: at the latest when the scores are
    compiled. *)
Lemma per_seed_with_plier_raises (args : Args.t) (train test : DataFrame)
    (st : loop_state) (seed : Z) :
  mem_string "plier" (algs_to_run args) = true ->
  plier_fit (dm st) = None ->
  exists e, per_seed cfg args train test st seed = Raise e.
Proof.
  intros Hmem Hfit.
  destruct (per_seed cfg args train test st seed) as [st' | e] eqn:H;
    [exfalso | eauto].
  unfold per_seed in H.
  inv_bind H as nd Hstart. destruct nd as [seed_name dm_a].
  inv_bind H as dm1 Hpca. inv_bind H as dm2 Hica. inv_bind H as dm3 Hnmf.
  inv_bind H as fd Hplier. destruct fd as [fs4 dm4].
  inv_bind H as fs5 Hw1. inv_bind H as fs6 Hw2. inv_bind H as fs7 Hw3.
  inv_bind H as r1 Hc1.
  assert (Ha : plier_fit dm_a = None).
  { destruct (Args.shuffle args).
    - inv_bind Hstart as sh Hsh. destruct sh as [shuffled_train_df rng'].
      inv_bind Hstart as dm0 Hinit. inv_bind Hstart as dmt Htr. inv_Ok Hstart.
      apply transform_plier_attrs in Htr. unfold plier_fit. rewrite Htr.
      rewrite init_preloaded_test in Hinit by reflexivity. now inv_Ok Hinit.
    - now inv_Ok Hstart. }
  apply (when_sklearn_plier_attrs _ _ _
           (fun s s' o => @pca_plier_attrs s s' _ false true o)) in Hpca.
  apply (when_sklearn_plier_attrs _ _ _
           (fun s s' o => @ica_plier_attrs s s' _ false true seed o)) in Hica.
  apply (when_sklearn_plier_attrs _ _ _
           (fun s s' o => @nmf_plier_attrs s s' _ false true seed
                            nmf_default_init nmf_default_tol o)) in Hnmf.
  rewrite Hmem in Hplier.
  inv_bind Hplier as p Hp. destruct p as [[fs' dm'] o]. inv_Ok Hplier.
  apply plier_Ok in Hp.
  destruct Hp as (fs1 & b & z & l2 & t & X & _ & _ & _ & _ & _ & _
                  & tst & -> & _).
  destruct (compile_reconstruction_after_plier
              (plier_assigned dm3 b z tst) false) as [e He].
  - discriminate.
  - unfold plier_fit in *. cbn [plier_assigned set_plier with_attrs plier_attrs
                                attr_fit].
    now rewrite Hnmf, Hica, Hpca.
  - rewrite He in Hc1. discriminate.
Qed.

(** A run that asks for the pathway-regularized method (alone, or with the
    default of all four methods) and for at least one seed never produces
    its table: [plier] does not assign the [plier_fit] attribute that the
    scoring reads, so the first seed's iteration raises. *)
Theorem main_with_plier_raises (args : Args.t) (train test : DataFrame)
    (fs : filesystem) :
  mem_string "plier" (algs_to_run args) = true ->
  (0 < Args.num_seeds args)%nat ->
  exists e, main cfg args train test fs = Raise e.
Proof.
  intros Hmem Hn. rewrite main_eq.
  destruct (transform (initial_model train test) "zscore") as [dm0 | e] eqn:Htr;
    cbn [bind]; [| eauto].
  unfold random_seeds. rewrite draw_seeds_eq. cbn [bind].
  destruct (Args.num_seeds args) as [| n]; [lia |].
  cbn [randint_loop].
  destruct (rk_interval 999999 (np_random_seed (default_seed cfg))) as [v s1].
  destruct (randint_loop 999999 n s1) as [vs s2]. cbn [fst fold_result].
  destruct (per_seed_with_plier_raises args train test (initial_state dm0 fs) v Hmem)
    as [e He].
  - unfold initial_state, plier_fit. cbn [dm].
    apply transform_plier_attrs in Htr. now rewrite Htr.
  - rewrite He. cbn [bind]. eauto.
Qed.

(** Raising the seed count keeps the seeds drawn so far: the seeds of a
    run with [n] seeds are the first [n] seeds of a run with more. *)
Lemma randint_loop_app (max : Z) (n k : nat) (s : rng_state) :
  fst (randint_loop max (n + k) s)
  = (fst (randint_loop max n s)
     ++ fst (randint_loop max k (snd (randint_loop max n s))))%list.
Proof.
  revert s. induction n as [| n IH]; intros s; cbn [randint_loop Nat.add].
  - reflexivity.
  - destruct (rk_interval max s) as [v s1]. specialize (IH s1).
    destruct (randint_loop max (n + k) s1) as [vs s2].
    destruct (randint_loop max n s1) as [vs' s2']. cbn [fst snd] in *.
    now rewrite IH.
Qed.

(** The seeds depend on the seed count only through their number: the
    [n] seeds of a run are the first [n] seeds of every run that asks for
    more, so the runs of a shorter experiment are repeated by a longer
    one. *)
Theorem draw_seeds_prefix (master_seed : Z) (n k : nat) :
  exists seeds more,
    draw_seeds master_seed n = Ok seeds /\
    length seeds = n /\
    draw_seeds master_seed (n + k) = Ok (seeds ++ more)%list.
Proof.
  rewrite !draw_seeds_eq. eexists. eexists.
  split; [reflexivity |]. split; [apply randint_loop_length |].
  now rewrite randint_loop_app.
Qed.

End DriverEdges.

Section TableLayout.

Context {DEC : Decomposition} {RR : RidgeSolver} {RNG : RandomState}
        {OS : OperatingSystem}.
Variable cfg : config.

Local Open Scope py_scope.

(** A row as the loop appends it: scores under method names, then the
    seed and the shuffle flag. *)
Definition tagged_row (args : Args.t) (row : table_row) : Prop :=
  exists scores s,
    Forall (fun x => In (fst x) list_algorithms) scores /\
    row = (scores ++ [("seed"%string, Int s);
                      ("shuffled"%string, Boolean (Args.shuffle args))])%list.

Lemma tag_tagged (args : Args.t) (s : Z) (t : table) :
  Forall (Forall (fun x => In (fst x) list_algorithms)) t ->
  Forall (tagged_row args) (tag args s t).
Proof.
  induction 1 as [| row t Hrow _ IH]; cbn [tag assign map]; constructor.
  - exists row, s. split; [exact Hrow |]. now rewrite <- app_assoc.
  - exact IH.
Qed.

Lemma per_seed_tagged (args : Args.t) (train test : DataFrame)
    (st st' : loop_state) (seed : Z) :
  Forall (tagged_row args) (concat (reconstruction_results st)) ->
  Forall (tagged_row args) (concat (test_reconstruction_results st)) ->
  per_seed cfg args train test st seed = Ok st' ->
  Forall (tagged_row args) (concat (reconstruction_results st')) /\
  Forall (tagged_row args) (concat (test_reconstruction_results st')).
Proof.
  intros H1 H2 H. apply per_seed_Ok in H.
  destruct H as (dm_a & full & full_test & m1 & m2 & _ & _ & Hc1 & Hc2
                 & Hr1 & Hr2).
  apply compile_reconstruction_rows in Hc1, Hc2.
  rewrite Hr1, Hr2, !concat_app. cbn [concat]. rewrite !app_nil_r.
  split; apply Forall_app; split; auto; apply tag_tagged; tauto.
Qed.

Lemma fold_tagged (args : Args.t) (train test : DataFrame)
    (seeds : list Z) (st st' : loop_state) :
  Forall (tagged_row args) (concat (reconstruction_results st)) ->
  Forall (tagged_row args) (concat (test_reconstruction_results st)) ->
  fold_result (per_seed cfg args train test) seeds st = Ok st' ->
  Forall (tagged_row args) (concat (reconstruction_results st')) /\
  Forall (tagged_row args) (concat (test_reconstruction_results st')).
Proof.
  revert st. induction seeds as [| s seeds IH]; intros st H1 H2 H;
    cbn [fold_result] in H.
  - inv_Ok H. auto.
  - inv_bind H as st1 Hs.
    destruct (@per_seed_tagged args train test st st1 s H1 H2 Hs) as [H1' H2'].
    eauto.
Qed.

Lemma cell_of_scores_skip (name : string) (scores rest : table_row) :
  ~ In name list_algorithms ->
  Forall (fun x => In (fst x) list_algorithms) scores ->
  cell_of name (scores ++ rest) = cell_of name rest.
Proof.
  intros Hname. induction 1 as [| [n c] scores Hn _ IH]; cbn [app cell_of].
  - reflexivity.
  - cbn [fst] in Hn. destruct (String.eqb_spec name n) as [-> | _];
      [contradiction | exact IH].
Qed.

Lemma tagged_columns (args : Args.t) (v : cell) (t : table) :
  Forall (tagged_row args) t ->
  column_of "data_type" (assign "data_type" v t) = repeat (Some v) (length t) /\
  column_of "shuffled" (assign "data_type" v t)
  = repeat (Some (Boolean (Args.shuffle args))) (length t).
Proof.
  induction 1 as [| row t (scores & s & Hs & ->) _ [IH1 IH2]];
    cbn [assign map column_of length repeat] in *; [auto |].
  split; f_equal; auto; rewrite <- app_assoc.
  - rewrite cell_of_scores_skip; [reflexivity | | exact Hs].
    cbn [In list_algorithms]. intuition discriminate.
  - rewrite cell_of_scores_skip; [reflexivity | | exact Hs].
    cbn [In list_algorithms]. intuition discriminate.
Qed.

Lemma length_seed_rows (c : nat) (seeds : list Z) :
  length (seed_rows c seeds) = (c * length seeds)%nat.
Proof.
  unfold seed_rows. induction seeds as [| s seeds IH]; cbn [flat_map length].
  - lia.
  - rewrite length_app, repeat_length, IH. lia.
Qed.

(** The aggregate table of a run that ends normally. With [n] the number
    of seeds times the rows one seed gives (one when a method is asked
    for), the table has [n] rows tagged ['training'] followed by [n] rows
    tagged ['testing'], every row carries the shuffle flag of the command
    line, and the table is what the results file holds afterwards. *)
Theorem main_table_layout (args : Args.t) (train test : DataFrame)
    (fs fs' : filesystem) (t : table) :
  main cfg args train test fs = Ok (t, fs') ->
  let n := (rows_per_seed args * Args.num_seeds args)%nat in
  length t = (2 * n)%nat /\
  column_of "data_type" t
  = (repeat (Some (Str "training")) n ++ repeat (Some (Str "testing")) n)%list /\
  column_of "shuffled" t
  = repeat (Some (Boolean (Args.shuffle args))) (2 * n) /\
  lookup (recon_file args) fs' = Some (ResultsFile t).
Proof.
  rewrite main_eq. intros H n.
  inv_bind H as dm0 Htr. inv_bind H as seeds Hseeds. inv_bind H as st Hloop.
  assert (Hinv : loop_invariant args ([] ++ seeds) st).
  { eapply loop_invariant_fold; [| exact Hloop].
    unfold loop_invariant, initial_state.
    cbn [dm reconstruction_results test_reconstruction_results concat seed_rows
         flat_map].
    apply transform_flags in Htr. rewrite Htr.
    split; [apply zip_orb_false, requested_length |].
    split; constructor. }
  cbn [app] in Hinv. destruct Hinv as (_ & Htrain & Htest).
  apply Forall2_length in Htrain, Htest.
  rewrite length_seed_rows in Htrain, Htest.
  assert (Hlen : length seeds = Args.num_seeds args).
  { unfold random_seeds in Hseeds. rewrite draw_seeds_eq in Hseeds.
    inv_Ok Hseeds. apply randint_loop_length. }
  rewrite Hlen in Htrain, Htest. fold n in Htrain, Htest.
  destruct (@fold_tagged args train test seeds (initial_state dm0 fs) st)
    as [Tg1 Tg2]; [constructor | constructor | exact Hloop |].
  unfold save_results in H.
  inv_bind H as training Ha. inv_bind H as testing Hb. inv_bind H as all Hc.
  inv_Ok H.
  unfold pd_concat in Ha, Hb, Hc.
  destruct (reconstruction_results st) eqn:E1; [discriminate |].
  destruct (test_reconstruction_results st) eqn:E2; [discriminate |].
  inv_Ok Ha. inv_Ok Hb. inv_Ok Hc.
  cbn [concat] in *. rewrite app_nil_r.
  remember (t0 ++ concat l)%list as A eqn:EA.
  remember (t1 ++ concat l0)%list as B eqn:EB.
  destruct (tagged_columns (Str "training") Tg1) as [D1 S1].
  destruct (tagged_columns (Str "testing") Tg2) as [D2 S2].
  rewrite <- Htrain in D1, S1. rewrite <- Htest in D2, S2.
  assert (Hcol : forall name (X Y : table),
             column_of name (X ++ Y)
             = (column_of name X ++ column_of name Y)%list)
    by (intros; apply map_app).
  clearbody n.
  split.
  - rewrite length_app. unfold assign. rewrite !length_map.
    unfold table, table_row in *. lia.
  - rewrite !Hcol, D1, D2, S1, S2.
    split; [reflexivity |]. split.
    + rewrite <- repeat_app. f_equal. lia.
    + apply lookup_write_same.
Qed.

End TableLayout.

Module DriverEdgeExamples.

Definition no_seed_args : Args.t :=
  {| Args.algorithm := Some "pca"%string; Args.num_components := 1;
     Args.num_seeds := 0; Args.models_dir := "/repo/models";
     Args.pathways_file := "/repo/data/pathway_data/canonical_mapped.tsv";
     Args.shuffle := false; Args.verbose := false |}.

End DriverEdgeExamples.

Lemma main_without_seeds_witness :
  main (DEC := StandIn.axes) (RR := StandIn.ridge) (RNG := StandIn.rng)
    (OS := StandIn.os) DriverExamples.cfg DriverEdgeExamples.no_seed_args
    DriverExamples.train DriverExamples.test [] = Raise ValueError.
Proof.
  eapply (main_without_seeds (DEC := StandIn.axes) (RR := StandIn.ridge)
            (RNG := StandIn.rng) (OS := StandIn.os)); reflexivity.
Defined.

Lemma main_with_plier_raises_witness :
  exists e,
    main (DEC := StandIn.axes) (RR := StandIn.ridge) (RNG := StandIn.rng)
      (OS := StandIn.os) DriverExamples.cfg (DriverExamples.args None false)
      DriverExamples.train DriverExamples.test PlierExamples.disk = Raise e.
Proof.
  apply (main_with_plier_raises (DEC := StandIn.axes) (RR := StandIn.ridge)
           (RNG := StandIn.rng) (OS := StandIn.os)).
  - reflexivity.
  - cbn. lia.
Defined.

Lemma main_table_layout_witness :
  exists t fs',
    main (DEC := StandIn.axes) (RR := StandIn.ridge) (RNG := StandIn.rng)
      (OS := StandIn.os) DriverExamples.cfg
      (with_shuffle (DriverExamples.args (Some "pca"%string) false) false)
      DriverExamples.train DriverExamples.test [] = Ok (t, fs') /\
    length t = 4%nat /\
    column_of "data_type" t
    = [Some (Str "training"); Some (Str "training");
       Some (Str "testing"); Some (Str "testing")] /\
    lookup "/repo/models/1_components_reconstruction.tsv" fs'
    = Some (ResultsFile t).
Proof.
  destruct pca_run_plain as [[t fs'] [H _]].
  exists t, fs'. split; [exact H |].
  destruct (main_table_layout (DEC := StandIn.axes) (RR := StandIn.ridge)
              (RNG := StandIn.rng) (OS := StandIn.os) _ _ _ _ _ H)
    as (Hlen & Hdt & _ & Hfile).
  split; [exact Hlen |]. split; [exact Hdt | exact Hfile].
Defined.

(* ===================================================================== *)
(** ** Further properties: names of cache files and of latent features *)
(* ===================================================================== *)

From Stdlib Require DecimalNat DecimalPos DecimalZ.

Lemma append_assoc_string (a b c : string) :
  ((a ++ b) ++ c)%string = (a ++ (b ++ c))%string.
Proof. induction a as [| ch a IH]; cbn [String.append]; [| rewrite IH]; reflexivity. Qed.

Lemma append_nil_r_string (a : string) : (a ++ EmptyString)%string = a.
Proof. induction a as [| ch a IH]; cbn [String.append]; [| rewrite IH]; reflexivity. Qed.

(** No character of the string is an underscore. *)
Fixpoint no_underscore (s : string) : Prop :=
  match s with
  | EmptyString => True
  | String c s' => c <> "_"%char /\ no_underscore s'
  end.

(** The string is empty or starts with an underscore. *)
Definition at_underscore (s : string) : Prop :=
  s = EmptyString \/ exists s', s = String "_" s'.

(** A string splits in one way only into a part without underscore and a
    rest that is empty or starts with one. *)
Lemma split_at_underscore (t1 t2 r1 r2 : string) :
  no_underscore t1 -> no_underscore t2 ->
  at_underscore r1 -> at_underscore r2 ->
  (t1 ++ r1)%string = (t2 ++ r2)%string ->
  t1 = t2 /\ r1 = r2.
Proof.
  revert t2. induction t1 as [| c t1 IH]; intros [| c' t2] H1 H2 Hr1 Hr2 H;
    cbn [String.append no_underscore] in *.
  - auto.
  - exfalso. destruct H2 as [Hc _]. subst r1.
    destruct Hr1 as [E | [s' E]]; [discriminate | injection E as -> _; auto].
  - exfalso. destruct H1 as [Hc _]. subst r2.
    destruct Hr2 as [E | [s' E]]; [discriminate | injection E as -> _; auto].
  - injection H as -> H. destruct H1 as [_ H1]. destruct H2 as [_ H2].
    destruct (IH t2 H1 H2 Hr1 Hr2 H) as [-> ->]. auto.
Qed.

Lemma no_underscore_uint (d : Decimal.uint) :
  no_underscore (NilEmpty.string_of_uint d).
Proof.
  induction d; cbn [NilEmpty.string_of_uint no_underscore];
    try (split; [discriminate | assumption]); exact I.
Qed.

Lemma no_underscore_str_of_nat (n : nat) : no_underscore (str_of_nat n).
Proof.
  unfold str_of_nat, NilZero.string_of_uint.
  destruct (Nat.to_uint n) eqn:E; try (rewrite <- E; apply no_underscore_uint).
  cbn. split; [discriminate | exact I].
Qed.

Lemma no_underscore_str_of_Z (z : Z) : no_underscore (str_of_Z z).
Proof.
  unfold str_of_Z, NilZero.string_of_int.
  assert (H : forall d, no_underscore (NilZero.string_of_uint d)).
  { intros d. unfold NilZero.string_of_uint.
    destruct d eqn:E; try (rewrite <- E; apply no_underscore_uint).
    cbn. split; [discriminate | exact I]. }
  destruct (Z.to_int z); [apply H |].
  cbn [no_underscore]. split; [discriminate | apply H].
Qed.

Lemma to_uint_nonnil (n : nat) : Nat.to_uint n <> Decimal.Nil.
Proof.
  intros H. pose proof (DecimalNat.Unsigned.of_to n) as Hn.
  rewrite H in Hn. cbn in Hn. subst n. discriminate H.
Qed.

(** ['{}'.format(n)] is injective on the natural numbers and on the
    integers. *)
Lemma str_of_nat_inj (n m : nat) : str_of_nat n = str_of_nat m -> n = m.
Proof.
  unfold str_of_nat. intros H.
  apply (f_equal NilZero.uint_of_string) in H.
  rewrite !NilZero.usu in H by apply to_uint_nonnil.
  injection H as H. now apply DecimalNat.Unsigned.to_uint_inj.
Qed.

Lemma str_of_Z_inj (a b : Z) : str_of_Z a = str_of_Z b -> a = b.
Proof.
  unfold str_of_Z. intros H.
  assert (Hnn : forall z, Z.to_int z <> Decimal.Pos Decimal.Nil /\
                          Z.to_int z <> Decimal.Neg Decimal.Nil).
  { intros [| p | p]; cbn; split; try discriminate;
      intros E; injection E as E;
      now apply DecimalPos.Unsigned.to_uint_nonnil in E. }
  apply (f_equal NilZero.int_of_string) in H.
  rewrite !NilZero.isi in H by apply Hnn.
  injection H as H. apply (f_equal Z.of_int) in H.
  now rewrite !DecimalZ.of_to in H.
Qed.

Lemma NoDup_map_injective {A B : Type} (f : A -> B) (l : list A) :
  (forall x y, f x = f y -> x = y) -> NoDup l -> NoDup (map f l).
Proof.
  intros Hf. induction 1 as [| a l Hnotin _ IH]; cbn [map]; constructor; auto.
  intros Hin. apply in_map_iff in Hin. destruct Hin as (x & Hx & Hin).
  apply Hf in Hx. now subst x.
Qed.

(** The latent features of a method have pairwise different names. *)
Lemma NoDup_colnames (prefix : string) (k : nat) : NoDup (colnames prefix k).
Proof.
  unfold colnames. apply NoDup_map_injective; [| apply seq_NoDup].
  intros x y H. apply append_cancel_l in H. cbn [String.append] in H.
  injection H as H. now apply str_of_nat_inj.
Qed.

Section CacheKey.

Variable cfg : config.

(** The cache key: two fits share the prefix of their output files only
    when they have the same number of components, the same seed and the
    same shuffle flag. *)
Theorem plier_output_prefix_inj (k1 k2 : nat) (s1 s2 : Z) (sh1 sh2 : bool) :
  plier_output_prefix cfg k1 s1 sh1 = plier_output_prefix cfg k2 s2 sh2 ->
  k1 = k2 /\ s1 = s2 /\ sh1 = sh2.
Proof.
  unfold plier_output_prefix.
  set (dir := path_join (data_dir cfg) "plier_output").
  set (sfx := fun sh : bool => if sh then "_shuffled"%string else EmptyString).
  assert (Hshape : forall (k : nat) (s : Z) (sh : bool),
             (if sh
              then (path_join dir ("plier_k" ++ str_of_nat k ++ "_s" ++ str_of_Z s)
                    ++ "_shuffled")%string
              else path_join dir ("plier_k" ++ str_of_nat k ++ "_s" ++ str_of_Z s)%string)
             = path_join dir
                 ("plier_k" ++ str_of_nat k ++ "_s" ++ str_of_Z s ++ sfx sh)%string).
  { intros k s sh. unfold path_join. cbn [String.append starts_with_slash].
    change (Ascii.eqb "p" "/") with false. cbv iota.
    destruct sh; cbn [sfx].
    - destruct (last_char dir) as [c |]; [destruct (Ascii.eqb c "/") |];
        cbn [String.append]; rewrite ?append_assoc_string;
        cbn [String.append]; rewrite ?append_assoc_string;
        cbn [String.append]; rewrite ?append_assoc_string; reflexivity.
    - now rewrite append_nil_r_string. }
  rewrite !Hshape. intros H.
  apply path_join_cancel in H; [| reflexivity | reflexivity].
  cbn [String.append] in H. injection H as H.
  apply split_at_underscore in H;
    [| apply no_underscore_str_of_nat | apply no_underscore_str_of_nat
     | right; eexists; reflexivity | right; eexists; reflexivity].
  destruct H as [Hk H]. cbn [String.append] in H. injection H as H.
  apply split_at_underscore in H;
    [| apply no_underscore_str_of_Z | apply no_underscore_str_of_Z
     | destruct sh1; [right; eexists; reflexivity | now left]
     | destruct sh2; [right; eexists; reflexivity | now left]].
  destruct H as [Hs Hsh].
  split; [now apply str_of_nat_inj |]. split; [now apply str_of_Z_inj |].
  destruct sh1, sh2; cbn [sfx] in Hsh; try reflexivity; discriminate.
Qed.

Lemma plier_output_file_shape (k : nat) (s : Z) (sh : bool) (e : string) :
  (plier_output_prefix cfg k s sh ++ e)%string
  = path_join (path_join (data_dir cfg) "plier_output")
      ("plier_k" ++ str_of_nat k ++ "_s" ++ str_of_Z s
       ++ (if sh then "_shuffled" ++ e else e))%string.
Proof.
  unfold plier_output_prefix.
  set (dir := path_join (data_dir cfg) "plier_output").
  unfold path_join. cbn [String.append starts_with_slash].
  change (Ascii.eqb "p" "/") with false. cbv iota.
  destruct sh;
    (destruct (last_char dir) as [c |]; [destruct (Ascii.eqb c "/") |]);
    cbn [String.append]; rewrite ?append_assoc_string;
    cbn [String.append]; rewrite ?append_assoc_string;
    cbn [String.append]; rewrite ?append_assoc_string;
    cbn [String.append]; rewrite ?append_assoc_string; reflexivity.
Qed.

(** The three output files of one fit are three different files, and no
    output file of one fit is an output file of a fit with another number
    of components, seed or shuffle flag: runs on different keys cannot
    overwrite each other's cache. *)
Theorem plier_output_files_distinct (k1 k2 : nat) (s1 s2 : Z) (sh1 sh2 : bool)
    (e1 e2 : string) :
  In e1 ["_z.tsv"; "_b.tsv"; "_l2.tsv"]%string ->
  In e2 ["_z.tsv"; "_b.tsv"; "_l2.tsv"]%string ->
  (plier_output_prefix cfg k1 s1 sh1 ++ e1)%string
  = (plier_output_prefix cfg k2 s2 sh2 ++ e2)%string ->
  k1 = k2 /\ s1 = s2 /\ sh1 = sh2 /\ e1 = e2.
Proof.
  intros He1 He2 H. rewrite !plier_output_file_shape in H.
  apply path_join_cancel in H; [| reflexivity | reflexivity].
  cbn [String.append] in H. injection H as H.
  assert (Hat : forall (sh : bool) (e : string),
             In e ["_z.tsv"; "_b.tsv"; "_l2.tsv"]%string ->
             at_underscore (if sh then ("_shuffled" ++ e)%string else e)).
  { intros sh e He. right. cbn [In] in He.
    destruct sh; [eexists; reflexivity |].
    destruct He as [<- | [<- | [<- | []]]]; eexists; reflexivity. }
  apply split_at_underscore in H;
    [| apply no_underscore_str_of_nat | apply no_underscore_str_of_nat
     | right; eexists; reflexivity | right; eexists; reflexivity].
  destruct H as [Hk H]. cbn [String.append] in H. injection H as H.
  apply split_at_underscore in H;
    [| apply no_underscore_str_of_Z | apply no_underscore_str_of_Z
     | now apply Hat | now apply Hat].
  destruct H as [Hs Hrest].
  split; [now apply str_of_nat_inj |]. split; [now apply str_of_Z_inj |].
  cbn [In] in He1, He2.
  destruct He1 as [<- | [<- | [<- | []]]];
    destruct He2 as [<- | [<- | [<- | []]]];
    destruct sh1, sh2; cbn [String.append] in Hrest;
    try discriminate; auto.
Qed.

End CacheKey.

Lemma plier_output_files_distinct_witness :
  1%nat = 1%nat /\ 5%Z = 5%Z /\ false = false /\
  "_z.tsv"%string = "_z.tsv"%string.
Proof.
  apply (@plier_output_files_distinct PlierExamples.cfg 1 1 5 5 false false
           "_z.tsv"%string "_z.tsv"%string); [now left | now left | reflexivity].
Defined.

(** The fits with one component and seed 15 and with eleven components
    and seed 5 do not share their weight file. *)
Example plier_output_no_collision :
  (plier_output_prefix PlierExamples.cfg 1 15 false ++ "_z.tsv")%string
  <> (plier_output_prefix PlierExamples.cfg 11 5 false ++ "_z.tsv")%string.
Proof.
  intros H. vm_compute in H. discriminate H.
Qed.

(** * The embeddings of [pca], [ica] and [nmf] *)

Section Embeddings.

Context {DEC : Decomposition}.

Local Open Scope py_scope.

(** The training embedding a method stores: one row per training sample,
    labelled as the training frame is, and [k] columns named
    [<prefix>_0 .. <prefix>_(k-1)], all different. *)
Definition embedding_of (self : DataModel) (prefix : string) (k : nat)
    (e : option DataFrame) : Prop :=
  exists d, e = Some d /\
    index d = index (df self) /\
    columns d = colnames prefix k /\
    NoDup (columns d) /\
    rect (length (index (df self))) k (values d).

Lemma sklearn_method_embedding (self : DataModel) (old a : method_attrs)
    (est : estimator) (prefix : string) (k : nat) (tdf ttdf : bool)
    (out : option matrix) :
  sklearn_method self old est prefix k tdf ttdf = Ok (a, out) ->
  embedding_of self prefix k (attr_df a).
Proof.
  intros H. apply sklearn_method_Ok in H.
  destruct H as (fit & emb & _ & _ & Hdf & _ & _ & Hrect).
  eexists. split; [exact Hdf |]. cbn [index columns values].
  auto using NoDup_colnames.
Qed.

(** With [transform_df] the method returns the transformed training data
    and stops: the test embedding keeps the value it had, whatever
    [transform_test_df] says. *)
Lemma sklearn_method_transform_df (self : DataModel) (old a : method_attrs)
    (est : estimator) (prefix : string) (k : nat) (ttdf : bool)
    (out : option matrix) :
  sklearn_method self old est prefix k true ttdf = Ok (a, out) ->
  attr_test_df a = attr_test_df old /\
  exists fit embedding o,
    fit_transform est (df self) = Ok (fit, embedding) /\
    estimator_transform fit (df self) = Ok o /\
    out = Some o.
Proof.
  unfold sklearn_method. intros H. inv_bind H as fe Hfit.
  destruct fe as [fit embedding].
  inv_bind H as mdf Ha1. inv_bind H as mw Ha2.
  inv_bind H as o Ho. inv_Ok H. cbn [attr_test_df].
  split; [reflexivity |]. exists fit, embedding, o. auto.
Qed.

(** Without [transform_df] and with [transform_test_df] the test embedding
    is the test frame transformed by the estimator that was fitted on the
    training frame. *)
Lemma sklearn_method_test_embedding (self : DataModel) (old a : method_attrs)
    (est : estimator) (prefix : string) (k : nat) (out : option matrix) :
  sklearn_method self old est prefix k false true = Ok (a, out) ->
  out = None /\
  exists fit embedding t m,
    fit_transform est (df self) = Ok (fit, embedding) /\
    attr_fit a = Some fit /\
    test_df self = Some t /\
    estimator_transform fit t = Ok m /\
    attr_test_df a = Some m.
Proof.
  unfold sklearn_method. intros H. inv_bind H as fe Hfit.
  destruct fe as [fit embedding].
  inv_bind H as mdf Ha1. inv_bind H as mw Ha2.
  destruct (test_df self) as [t |] eqn:Ht; [| discriminate].
  inv_bind H as m Hm. inv_Ok H. split; [reflexivity |].
  exists fit, embedding, t, m. cbn [attr_fit attr_test_df]. auto 6.
Qed.

Ltac open_method H a Hm :=
  match type of H with
  | pca _ _ _ _ = _ => unfold pca in H
  | ica _ _ _ _ _ = _ => unfold ica in H
  | nmf _ _ _ _ _ _ _ = _ => unfold nmf in H
  end;
  let ao := fresh "ao" in
  inv_bind H as ao Hm; destruct ao as [a ?]; inv_Ok H.

(** After a successful fit with target rank [k], the training embedding of
    each of the three methods has the sample labels of the training frame
    as its index and the [k] different names [<method>_0 ..
    <method>_(k-1)] as its columns, and is a matrix of that shape. *)
Theorem embedding_rows_are_samples (self : DataModel) (k : nat) :
  (forall tdf ttdf self' out,
      pca self k tdf ttdf = Ok (self', out) ->
      embedding_of self "pca" k (pca_df self')) /\
  (forall tdf ttdf seed self' out,
      ica self k tdf ttdf seed = Ok (self', out) ->
      embedding_of self "ica" k (ica_df self')) /\
  (forall tdf ttdf seed init tol self' out,
      nmf self k tdf ttdf seed init tol = Ok (self', out) ->
      embedding_of self "nmf" k (nmf_df self')).
Proof.
  split; [| split]; intros.
  - open_method H a Hm. eapply sklearn_method_embedding; eauto.
  - open_method H a Hm. eapply sklearn_method_embedding; eauto.
  - open_method H a Hm. eapply sklearn_method_embedding; eauto.
Qed.

(** Called with [transform_df=True], each of the three methods returns the
    training frame transformed by the estimator it has just fitted, and
    leaves the test embedding as it was, also when [transform_test_df] is
    set. *)
Theorem transform_df_returns_before_test (self : DataModel) (k : nat)
    (ttdf : bool) :
  (forall self' out,
      pca self k true ttdf = Ok (self', out) ->
      pca_test_df self' = pca_test_df self /\
      exists fit embedding o,
        fit_transform (PCA k) (df self) = Ok (fit, embedding) /\
        estimator_transform fit (df self) = Ok o /\ out = Some o) /\
  (forall seed self' out,
      ica self k true ttdf seed = Ok (self', out) ->
      ica_test_df self' = ica_test_df self /\
      exists fit embedding o,
        fit_transform (FastICA k seed) (df self) = Ok (fit, embedding) /\
        estimator_transform fit (df self) = Ok o /\ out = Some o) /\
  (forall seed init tol self' out,
      nmf self k true ttdf seed init tol = Ok (self', out) ->
      nmf_test_df self' = nmf_test_df self /\
      exists fit embedding o,
        fit_transform (NMF k init tol seed) (df self) = Ok (fit, embedding) /\
        estimator_transform fit (df self) = Ok o /\ out = Some o).
Proof.
  split; [| split]; intros.
  - open_method H a Hm. eapply sklearn_method_transform_df; eauto.
  - open_method H a Hm. eapply sklearn_method_transform_df; eauto.
  - open_method H a Hm. eapply sklearn_method_transform_df; eauto.
Qed.

(** Called with [transform_test_df=True] only, each of the three methods
    returns nothing and stores as its test embedding the test frame
    transformed by the estimator fitted on the training frame: no second
    estimator is fitted on the test frame. *)
Theorem test_embedding_uses_train_fit (self : DataModel) (k : nat) :
  (forall self' out,
      pca self k false true = Ok (self', out) ->
      out = None /\
      exists fit embedding t m,
        fit_transform (PCA k) (df self) = Ok (fit, embedding) /\
        pca_fit self' = Some fit /\ test_df self = Some t /\
        estimator_transform fit t = Ok m /\ pca_test_df self' = Some m) /\
  (forall seed self' out,
      ica self k false true seed = Ok (self', out) ->
      out = None /\
      exists fit embedding t m,
        fit_transform (FastICA k seed) (df self) = Ok (fit, embedding) /\
        ica_fit self' = Some fit /\ test_df self = Some t /\
        estimator_transform fit t = Ok m /\ ica_test_df self' = Some m) /\
  (forall seed init tol self' out,
      nmf self k false true seed init tol = Ok (self', out) ->
      out = None /\
      exists fit embedding t m,
        fit_transform (NMF k init tol seed) (df self) = Ok (fit, embedding) /\
        nmf_fit self' = Some fit /\ test_df self = Some t /\
        estimator_transform fit t = Ok m /\ nmf_test_df self' = Some m).
Proof.
  split; [| split]; intros.
  - open_method H a Hm. eapply sklearn_method_test_embedding; eauto.
  - open_method H a Hm. eapply sklearn_method_test_embedding; eauto.
  - open_method H a Hm. eapply sklearn_method_test_embedding; eauto.
Qed.

End Embeddings.

Lemma embedding_rows_are_samples_witness :
  exists self',
    pca (DEC := StandIn.axes) PlierExamples.self 1 false true = Ok (self', None) /\
    embedding_of PlierExamples.self "pca" 1 (pca_df self').
Proof.
  eexists. split; [reflexivity |].
  exact (proj1 (@embedding_rows_are_samples StandIn.axes PlierExamples.self 1)
           false true _ None eq_refl).
Defined.

Lemma transform_df_returns_before_test_witness :
  exists self' o,
    pca (DEC := StandIn.axes) PlierExamples.self 1 true true
    = Ok (self', Some o) /\
    pca_test_df self' = None.
Proof.
  eexists. eexists. split; [reflexivity |].
  exact (proj1 (proj1 (@transform_df_returns_before_test StandIn.axes
                         PlierExamples.self 1 true) _ _ eq_refl)).
Defined.

Lemma test_embedding_uses_train_fit_witness :
  exists (self' : @DataModel StandIn.axes) fit embedding m,
    pca PlierExamples.self 1 false true = Ok (self', None) /\
    @fit_transform StandIn.axes (PCA 1) PlierExamples.train
    = Ok (fit, embedding) /\
    estimator_transform fit PlierExamples.test = Ok m /\
    pca_test_df self' = Some m.
Proof.
  destruct (proj1 (@test_embedding_uses_train_fit StandIn.axes
                     PlierExamples.self 1) _ None eq_refl)
    as (_ & fit & embedding & t & m & Hfit & _ & Ht & Hm & Htest).
  change (Some PlierExamples.test = Some t) in Ht. inv_Ok Ht.
  eexists. exists fit, embedding, m.
  split; [reflexivity |]. split; [exact Hfit |]. split; [exact Hm |].
  exact Htest.
Defined.

Lemma write_models_after_pca_without_test_witness :
  exists self',
    pca (DEC := StandIn.axes) PlierExamples.self 1 false false
    = Ok (self', None) /\
    write_models self' [] "/repo/models" "5_z_matrix.tsv.gz" false
    = Raise AttributeError.
Proof.
  eexists. split; [reflexivity |].
  exact (@write_models_after_pca_without_test StandIn.axes PlierExamples.self
           _ 1 None [] "/repo/models"%string "5_z_matrix.tsv.gz"%string
           eq_refl eq_refl).
Defined.

(** * Min-max normalization and the sign of the scores *)

Definition unit_interval (x : matrix) : Prop :=
  Forall (Forall (fun v => 0 <= v <= 1)) x.

Lemma fold_right_Rmin_le (a : R) (l : list R) (x : R) :
  In x l -> fold_right Rmin a l <= x.
Proof.
  induction l as [| y l IH]; cbn [fold_right In]; [tauto |].
  intros [-> | H].
  - apply Rmin_l.
  - eapply Rle_trans; [apply Rmin_r | auto].
Qed.

Lemma fold_right_Rmax_ge (a : R) (l : list R) (x : R) :
  In x l -> x <= fold_right Rmax a l.
Proof.
  induction l as [| y l IH]; cbn [fold_right In]; [tauto |].
  intros [-> | H].
  - apply Rmax_l.
  - eapply Rle_trans; [| apply Rmax_r]. auto.
Qed.

(** One entry under the fitted minimum and scale of its column. *)
Lemma min_max_entry (lo hi v : R) :
  lo <= v <= hi ->
  0 <= v * (1 / handle_zeros_in_scale (hi - lo))
       + (0 - lo * (1 / handle_zeros_in_scale (hi - lo))) <= 1.
Proof.
  intros [Hlo Hhi]. unfold handle_zeros_in_scale.
  destruct (Req_dec_T (hi - lo) 0) as [E | N].
  - assert (v = lo) by lra. subst v. lra.
  - assert (Hd : 0 < hi - lo) by lra.
    set (s := 1 / (hi - lo)).
    assert (Hs : 0 < s) by (unfold s; apply Rdiv_lt_0_compat; lra).
    assert (Hone : (hi - lo) * s = 1) by (unfold s; field; lra).
    split; nra.
Qed.

Definition min_max_params (x : matrix) (j : nat) : R * R :=
  let c := column j x in
  let scale := 1 / handle_zeros_in_scale (np_max c - np_min c) in
  (0 - np_min c * scale, scale).

Lemma min_max_params_combine (x : matrix) (js : list nat) :
  combine
    (map (fun c => 0 - np_min c * (1 / handle_zeros_in_scale (np_max c - np_min c)))
         (map (fun j => column j x) js))
    (map (fun c => 1 / handle_zeros_in_scale (np_max c - np_min c))
         (map (fun j => column j x) js))
  = map (min_max_params x) js.
Proof.
  induction js as [| j js IH]; cbn [map combine]; [reflexivity |].
  now rewrite IH.
Qed.

Lemma min_max_row (x : matrix) (r : list R) (n a : nat) (suffix : list R) :
  In r x ->
  (forall k, (k < length suffix)%nat -> nth k suffix 0 = nth (a + k) r 0) ->
  Forall (fun v => 0 <= v <= 1)
    (zip_with (fun v ms => v * snd ms + fst ms) suffix
       (map (min_max_params x) (seq a n))).
Proof.
  intros Hr. revert a suffix.
  induction n as [| n IH]; intros a [| v t] Hs; cbn [seq map zip_with];
    try constructor.
  - unfold min_max_params. cbn [fst snd].
    apply min_max_entry.
    assert (Hin : In v (column a x)).
    { unfold column. apply in_map_iff. exists r. split; [| exact Hr].
      specialize (Hs 0%nat). cbn [length nth] in Hs.
      rewrite Nat.add_0_r in Hs. symmetry. apply Hs. lia. }
    unfold np_min, np_max.
    split; [now apply fold_right_Rmin_le | now apply fold_right_Rmax_ge].
  - apply IH. intros k Hk.
    specialize (Hs (S k)). cbn [length nth] in Hs.
    rewrite Nat.add_succ_r in Hs. apply Hs. lia.
Qed.

(** A min-max scaler applied to the frame it was fitted on gives entries
    in [[0, 1]]. *)
Lemma min_max_unit_interval (X : DataFrame) (fit : Scaler) (v : matrix) :
  fit_scaler "zeroone" X = Ok fit ->
  Scaler_transform fit X = Ok v ->
  unit_interval v.
Proof.
  unfold fit_scaler. cbn [String.eqb Ascii.eqb Bool.eqb]. cbv iota.
  unfold MinMaxScaler_fit.
  destruct (check_array X); cbn [bind]; [| discriminate].
  intros Hfit. inv_Ok Hfit. unfold Scaler_transform.
  destruct (_ =? _)%nat; [| discriminate]. intros H. inv_Ok H.
  unfold transpose. rewrite min_max_params_combine.
  apply Forall_forall. intros row Hrow.
  apply in_map_iff in Hrow. destruct Hrow as (r & <- & Hr).
  apply min_max_row with (r := r); [exact Hr |]. intros k _. reflexivity.
Qed.

Lemma fold_right_Rmin_In (a : R) (l : list R) :
  fold_right Rmin a l = a \/ In (fold_right Rmin a l) l.
Proof.
  induction l as [| b l IH]; cbn [fold_right In]; [now left |].
  destruct (Rle_dec b (fold_right Rmin a l)) as [Hle | Hgt].
  - rewrite Rmin_left by exact Hle. right. now left.
  - rewrite Rmin_right by lra.
    destruct IH as [IH | IH]; [now left | right; now right].
Qed.

(** The minimum of an array that has an entry is one of its entries. *)
Lemma np_min_In (l : list R) : l <> [] -> In (np_min l) l.
Proof.
  destruct l as [| a t]; [intros H; now contradiction H | intros _].
  unfold np_min. cbn [hd].
  destruct (fold_right_Rmin_In a (a :: t)) as [E | H]; [| exact H].
  rewrite E. now left.
Qed.

Lemma nth_zip_with {A B C : Type} (f : A -> B -> C) (l : list A) (l' : list B)
    (j : nat) (a : A) (b : B) (c : C) :
  (j < length (zip_with f l l'))%nat ->
  nth j (zip_with f l l') c = f (nth j l a) (nth j l' b).
Proof.
  revert l' j. induction l as [| x l IH]; intros [| y l'] j Hj;
    cbn [zip_with length] in Hj; try lia.
  destruct j as [| j]; cbn [zip_with nth]; [reflexivity |].
  apply IH. lia.
Qed.

Definition nonnegative (x : matrix) : Prop :=
  Forall (Forall (fun v => 0 <= v)) x.

(** Every column of the frame holds a 0, when the frame has a row. *)
Definition columns_reach_zero (d : DataFrame) : Prop :=
  values d <> [] ->
  forall j, (j < length (columns d))%nat -> In 0 (column j (values d)).

Definition zero_based (d : DataFrame) : Prop :=
  nonnegative (values d) /\ columns_reach_zero d.

(** A min-max scaler applied to the frame it was fitted on: no entry of
    the result is negative, and the smallest entry of every column
    becomes 0. *)
Lemma min_max_zero_based (X : DataFrame) (fit : Scaler) (v : matrix) :
  fit_scaler "zeroone" X = Ok fit ->
  Scaler_transform fit X = Ok v ->
  has_shape (length (index X)) (length (columns X)) v = true ->
  zero_based (mkDataFrame (index X) (columns X) v).
Proof.
  intros Hfit Hv Hshape. split.
  - pose proof (min_max_unit_interval _ Hfit Hv) as Hu. cbn [values].
    eapply Forall_impl; [| exact Hu]. intros r Hr.
    eapply Forall_impl; [| exact Hr]. cbv beta. intros a Ha. lra.
  - intros Hne j Hj. cbn [values columns] in *.
    apply has_shape_rect in Hshape. destruct Hshape as [_ Hrows].
    revert Hfit Hv. unfold fit_scaler.
    cbn [String.eqb Ascii.eqb Bool.eqb]. cbv iota. unfold MinMaxScaler_fit.
    destruct (check_array X); cbn [bind]; [| discriminate].
    intros Hfit. inv_Ok Hfit. unfold Scaler_transform.
    destruct (_ =? _)%nat; [| discriminate]. intros H. inv_Ok H.
    unfold transpose in *. rewrite min_max_params_combine in *.
    assert (Hx : column j (values X) <> []).
    { unfold column. destruct (values X); [now contradiction Hne | discriminate]. }
    pose proof (np_min_In Hx) as Hmin.
    unfold column at 2 in Hmin. apply in_map_iff in Hmin.
    destruct Hmin as (r & Hr & Hin).
    unfold column at 1. apply in_map_iff.
    exists (zip_with (fun v ms => v * snd ms + fst ms) r
              (map (min_max_params (values X))
                 (seq 0 (length (columns X))))).
    split; [| apply in_map_iff; now exists r].
    assert (Hlen : length (zip_with (fun v ms => v * snd ms + fst ms) r
                             (map (min_max_params (values X))
                                (seq 0 (length (columns X)))))
                   = length (columns X)).
    { rewrite Forall_forall in Hrows. apply Hrows.
      apply in_map_iff. now exists r. }
    rewrite (nth_zip_with _ _ _ 0 (min_max_params (values X) j)) by lia.
    rewrite (nth_indep _ (min_max_params (values X) j)
               (min_max_params (values X) 0))
      by now rewrite length_map, length_seq.
    rewrite (map_nth (min_max_params (values X))), seq_nth by exact Hj.
    cbn [Nat.add]. unfold min_max_params. cbn [fst snd].
    rewrite Hr. ring.
Qed.

Section ZeroOne.

Context {DEC : Decomposition}.

Local Open Scope py_scope.

(** After a successful min-max normalization no entry of the training
    frame is negative and the smallest entry of each of its columns has
    become 0, and the same holds of the test frame: the test frame is
    scaled by its own minimum and range, not by those of the training
    frame. *)
Theorem transform_zeroone_starts_at_zero (self self' : DataModel) :
  transform self "zeroone" = Ok self' ->
  zero_based (df self') /\
  (forall t', test_df self' = Some t' -> zero_based t').
Proof.
  unfold transform. intros H.
  inv_bind H as fit Hfit. inv_bind H as tv Htv. inv_bind H as nd Hnd.
  inv_bind H as tt Htt. destruct tt as [tf nt]. inv_Ok H.
  cbn [df test_df].
  apply pd_DataFrame_Ok in Hnd. destruct Hnd as [-> Hs].
  split; [eapply min_max_zero_based; eauto |].
  intros t' Ht'. destruct (test_df self) as [t |].
  - inv_bind Htt as tfit Htf. inv_bind Htt as ttv Httv.
    inv_bind Htt as nt' Hnt. inv_Ok Htt. inv_Ok Ht'.
    apply pd_DataFrame_Ok in Hnt. destruct Hnt as [-> Hs'].
    eapply min_max_zero_based; eauto.
  - inv_Ok Htt. discriminate.
Qed.

Definition scores_nonneg (acc : reconstruction) : Prop :=
  Forall (fun ns : string * R => 0 <= snd ns) (fst acc).

Lemma add_method_reconstruction_nonneg (self : DataModel) (ts : bool)
    (input : option DataFrame) (acc acc' : reconstruction) (mdf : DataFrame)
    (mtdf : matrix) (name : string) (obj : fitted) (n : nat) (p : bool) :
  (forall d, input = Some d -> unit_interval (values d)) ->
  scores_nonneg acc ->
  add_method_reconstruction self ts input acc mdf mtdf name obj n p = Ok acc' ->
  scores_nonneg acc'.
Proof.
  unfold add_method_reconstruction, scores_nonneg. intros Hin Hacc H.
  inv_bind H as mr Hmr. inv_bind H as inp Hinp. inv_bind H as sc Hsc.
  inv_bind H as mat Hmat. inv_Ok H. cbn [fst].
  apply Forall_app. split; [exact Hacc |]. constructor; [| constructor].
  cbn [snd]. destruct input as [d |]; [| discriminate]. inv_Ok Hinp.
  rewrite score_unfold in Hsc.
  destruct (same_shape _ _); [| discriminate]. inv_Ok Hsc.
  apply cross_entropy_mean_nonneg; [apply pos_INR | now apply Hin].
Qed.

Lemma reconstruct_sklearn_nonneg (self : DataModel) (ts : bool)
    (input : option DataFrame) (acc acc' : reconstruction)
    (m : string * method_attrs) :
  (forall d, input = Some d -> unit_interval (values d)) ->
  scores_nonneg acc ->
  reconstruct_sklearn self ts input acc m = Ok acc' ->
  scores_nonneg acc'.
Proof.
  intros Hin Hacc. destruct m as [name a]. unfold reconstruct_sklearn.
  destruct (attr_df a) as [mdf |]; intros H.
  - inv_bind H as mt Hmt. inv_bind H as mo Hmo.
    eapply add_method_reconstruction_nonneg; eauto.
  - now inv_Ok H.
Qed.

Lemma reconstruct_plier_nonneg (self : DataModel) (ts : bool)
    (input : option DataFrame) (acc acc' : reconstruction) :
  (forall d, input = Some d -> unit_interval (values d)) ->
  scores_nonneg acc ->
  reconstruct_plier self ts input acc = Ok acc' ->
  scores_nonneg acc'.
Proof.
  intros Hin Hacc. unfold reconstruct_plier, plier_df.
  destruct (attr_df (plier_attrs self)) as [mdf |]; intros H.
  - inv_bind H as w Hw. inv_bind H as pin Hpin. inv_bind H as mt Hmt.
    inv_bind H as mo Hmo.
    eapply add_method_reconstruction_nonneg; eauto.
  - now inv_Ok H.
Qed.

Lemma scores_frame_nonneg (scores : list (string * R)) :
  Forall (fun ns : string * R => 0 <= snd ns) scores ->
  Forall (Forall (fun c => exists s, snd c = Float s /\ 0 <= s))
    (scores_frame scores).
Proof.
  intros N. unfold scores_frame.
  destruct scores as [| ns l] eqn:E; constructor; [| constructor].
  rewrite <- E in *. clear E.
  apply Forall_map. eapply Forall_impl; [| exact N].
  intros [name s] Hs. cbn [snd fst] in *. eauto.
Qed.

Lemma compile_reconstruction_nonneg (self : DataModel) (ts : bool)
    (tbl : table) (mats : list (string * DataFrame)) :
  (forall d, (if ts then test_df self else Some (df self)) = Some d ->
             unit_interval (values d)) ->
  compile_reconstruction self ts = Ok (tbl, mats) ->
  exists scores,
    tbl = scores_frame scores /\
    Forall (fun ns : string * R => 0 <= snd ns) scores.
Proof.
  intros Hin H. unfold compile_reconstruction in H.
  inv_bind H as acc3 H3. inv_bind H as acc4 H4. inv_Ok H.
  cbn [fold_result] in H3.
  inv_bind H3 as acc1 H1. inv_bind H3 as acc2 H2. inv_bind H3 as acc3' H3'.
  inv_Ok H3.
  assert (N0 : scores_nonneg (([], []) : reconstruction)) by constructor.
  assert (N1 : scores_nonneg acc1)
    by (eapply reconstruct_sklearn_nonneg; [exact Hin | exact N0 | exact H1]).
  assert (N2 : scores_nonneg acc2)
    by (eapply reconstruct_sklearn_nonneg; [exact Hin | exact N1 | exact H2]).
  assert (N3 : scores_nonneg acc3)
    by (eapply reconstruct_sklearn_nonneg; [exact Hin | exact N2 | exact H3']).
  assert (N4 : scores_nonneg acc4)
    by (eapply reconstruct_plier_nonneg; [exact Hin | exact N3 | exact H4]).
  exists (fst acc4). split; [reflexivity | exact N4].
Qed.

(** When every entry of the frame that is scored (the training frame, or
    the test frame with [test_set]) lies in [[0, 1]], no score in the
    frame [compile_reconstruction] returns is negative. *)
Theorem compile_reconstruction_scores_nonneg (self : DataModel) (ts : bool)
    (tbl : table) (mats : list (string * DataFrame)) :
  (forall d, (if ts then test_df self else Some (df self)) = Some d ->
             unit_interval (values d)) ->
  compile_reconstruction self ts = Ok (tbl, mats) ->
  Forall (Forall (fun c => exists s, snd c = Float s /\ 0 <= s)) tbl.
Proof.
  intros Hin H. apply compile_reconstruction_nonneg in H; [| exact Hin].
  destruct H as (scores & -> & N). now apply scores_frame_nonneg.
Qed.

(** Min-max normalization followed by scoring: the scores of a model that
    was normalized with ['zeroone'] and then fitted by [pca] are not
    negative, on the training frame and on the test frame. *)
Theorem zeroone_pca_scores_nonneg (self s1 s2 : DataModel) (k : nat)
    (ts : bool) (out : option matrix) (tbl : table)
    (mats : list (string * DataFrame)) :
  transform self "zeroone" = Ok s1 ->
  pca s1 k false true = Ok (s2, out) ->
  compile_reconstruction s2 ts = Ok (tbl, mats) ->
  Forall (Forall (fun c => exists s, snd c = Float s /\ 0 <= s)) tbl.
Proof.
  intros Ht Hp Hc.
  apply compile_reconstruction_nonneg in Hc.
  - destruct Hc as (scores & -> & N). now apply scores_frame_nonneg.
  - apply transform_inv in Ht.
    destruct Ht as (fit & tv & Hfit & Htv & _ & Hdf & Htest).
    unfold pca in Hp. inv_bind Hp as ao Hm. destruct ao as [a o]. inv_Ok Hp.
    cbn [set_pca with_attrs df test_df]. intros d Hd. destruct ts.
    + destruct (test_df self) as [t |].
      * destruct Htest as (tfit & ttv & Htfit & Httv & _ & Heq).
        rewrite Heq in Hd. inv_Ok Hd. cbn [values].
        eapply min_max_unit_interval; eauto.
      * congruence.
    + inv_Ok Hd. rewrite Hdf. cbn [values].
      eapply min_max_unit_interval; eauto.
Qed.

End ZeroOne.

Module UnitExamples.

Definition train : DataFrame :=
  mkDataFrame ["s1"; "s2"]%string ["geneA"; "geneB"]%string [[0; 1]; [1; 0]].
Definition test : DataFrame :=
  mkDataFrame ["t1"; "t2"]%string ["geneA"; "geneB"]%string [[1; 1]; [0; 1]].

Definition self : DataModel (DEC := StandIn.axes) :=
  {| filename := None; df := train; gene_modules := None;
     num_samples := 2; num_genes := 2;
     test_filename := None; test_df := Some test;
     num_test_samples := None; num_test_genes := None;
     transformation := None; transform_fit := None;
     transform_test_fit := None;
     pca_attrs := no_attrs; ica_attrs := no_attrs;
     nmf_attrs := no_attrs; plier_attrs := no_attrs |}.

End UnitExamples.

Lemma transform_zeroone_starts_at_zero_witness :
  exists self',
    transform PlierExamples.self "zeroone" = Ok self' /\
    zero_based (df self') /\
    (forall t', test_df self' = Some t' -> zero_based t').
Proof.
  eexists. split; [reflexivity |].
  match goal with
  | |- zero_based (df ?s) /\ _ =>
      exact (@transform_zeroone_starts_at_zero StandIn.axes
               PlierExamples.self s eq_refl)
  end.
Defined.

Lemma compile_reconstruction_scores_nonneg_witness :
  exists self' tbl mats,
    pca UnitExamples.self 1 false true = Ok (self', None) /\
    compile_reconstruction self' true = Ok (tbl, mats) /\
    Forall (Forall (fun c => exists s, snd c = Float s /\ 0 <= s)) tbl.
Proof.
  eexists. eexists. eexists.
  split; [reflexivity |].
  match goal with
  | |- compile_reconstruction ?s _ = _ /\ _ =>
      split; [reflexivity |];
      eapply (@compile_reconstruction_scores_nonneg StandIn.axes s true);
      [| reflexivity]
  end.
  intros d Hd. cbn in Hd. inv_Ok Hd.
  unfold unit_interval, UnitExamples.test. cbn [values].
  repeat constructor; lra.
Defined.

Lemma zeroone_pca_scores_nonneg_witness :
  exists s1 s2 tbl mats,
    transform PlierExamples.self "zeroone" = Ok s1 /\
    pca s1 1 false true = Ok (s2, None) /\
    compile_reconstruction s2 false = Ok (tbl, mats) /\
    Forall (Forall (fun c => exists s, snd c = Float s /\ 0 <= s)) tbl.
Proof.
  eexists. eexists. eexists. eexists.
  split; [reflexivity |]. split; [reflexivity |]. split; [reflexivity |].
  eapply (@zeroone_pca_scores_nonneg StandIn.axes PlierExamples.self _ _ 1
            false None); reflexivity.
Defined.
